(** * vtk-examples: the validation layer of the Python example scripts

    A shallow embedding of the parts of

      - [src/Python/Visualization/Froggie.py]
      - [src/Python/Rendering/PhysicallyBasedRendering.py]
      - [src/Python/Rendering/PBR_Skybox_Texturing.py]

    that decide what the scripts load, reject, print and raise: the
    JSON parameter loader and the display of what it loaded, the texture
    loaders, the choice of the environment and of the skybox, the tissue
    table and slice-order dispatch, the surface selection, the version
    gate, the slider callbacks and the screenshot callback.

    Conventions of the embedding.
      - A Python function that can print and raise is a computation in
        the monad [py]: the lines it printed, in order, and then either
        its return value or the exception that left it.
      - [pathlib] is modelled for POSIX paths as CPython 3.8 to 3.12
        implement [PurePosixPath]; the file system is an oracle from
        paths to nodes.
      - Python floats are IEEE binary64 values ([PrimFloat.float]);
        strings are ASCII text, so a character is a byte.
      - Calls into the rendering toolkit are recorded, not executed: a
        texture, an actor or a writer is the record of what the script
        asked the toolkit to build. *)

From Stdlib Require Import ZArith Floats.PrimFloat.
From stdpp Require Import gmap strings list pretty.
From Stdlib Require Import Ascii.

Set Warnings "-register-all,-inexact-float".


(** ** Python strings *)

Module pystr.

Definition is_upper (c : ascii) : bool :=
  let n := nat_of_ascii c in (65 <=? n)%nat && (n <=? 90)%nat.

Definition lower_char (c : ascii) : ascii :=
  if is_upper c then ascii_of_nat (nat_of_ascii c + 32) else c.

(** [s.lower()], on ASCII text. *)
Fixpoint lower (s : string) : string :=
  match s with
  | EmptyString => EmptyString
  | String c r => String (lower_char c) (lower r)
  end.

Definition is_dot (c : ascii) : bool := Ascii.eqb c ".".
Definition is_sep (c : ascii) : bool := Ascii.eqb c "/".

(** [s.rfind('.')]: the index of the last dot, [None] for Python's -1. *)
Fixpoint rfind_dot (s : string) : option nat :=
  match s with
  | EmptyString => None
  | String c r =>
      match rfind_dot r with
      | Some i => Some (S i)
      | None => if is_dot c then Some 0%nat else None
      end
  end.

(** [s[i:]] and [s[:i]]. *)
Fixpoint drop (i : nat) (s : string) : string :=
  match i, s with
  | O, _ => s
  | S _, EmptyString => EmptyString
  | S j, String _ r => drop j r
  end.

Fixpoint take (i : nat) (s : string) : string :=
  match i, s with
  | O, _ => EmptyString
  | S _, EmptyString => EmptyString
  | S j, String c r => String c (take j r)
  end.

(** ['/' in s]. *)
Fixpoint has_sep (s : string) : bool :=
  match s with
  | EmptyString => false
  | String c r => is_sep c || has_sep r
  end.

Definition startswith_dot (s : string) : bool :=
  match s with
  | String c _ => is_dot c
  | EmptyString => false
  end.

(** [s.split('/')]. *)
Fixpoint split_sep (s : string) : list string :=
  match s with
  | EmptyString => [EmptyString]
  | String c r =>
      if is_sep c then EmptyString :: split_sep r
      else match split_sep r with
           | x :: xs => String c x :: xs
           | [] => [String c EmptyString]
           end
  end.

(** ['/'.join(l)]. *)
Fixpoint join_sep (l : list string) : string :=
  match l with
  | [] => ""
  | [x] => x
  | x :: xs => x +:+ "/" +:+ join_sep xs
  end.

(** ['\n'.join(l)]. *)
Fixpoint join_lines (l : list string) : string :=
  match l with
  | [] => ""
  | [x] => x
  | x :: xs => x +:+ String (ascii_of_nat 10) (join_lines xs)
  end.

(** [bool(s)] of a string. *)
Definition nonempty (s : string) : bool :=
  match s with EmptyString => false | _ => true end.

(** [s in l] for a list of strings. *)
Definition in_list (s : string) (l : list string) : bool :=
  existsb (String.eqb s) l.

(** [s.startswith(p)]. *)
Fixpoint startswith (p s : string) : bool :=
  match p, s with
  | EmptyString, _ => true
  | String _ _, EmptyString => false
  | String a p, String b s => Ascii.eqb a b && startswith p s
  end.

(** [sub in s] for two strings: [sub] occurs somewhere in [s]. *)
Fixpoint contains (sub s : string) : bool :=
  startswith sub s
  || match s with
     | EmptyString => false
     | String _ r => contains sub r
     end.

(** [' ' * n]. *)
Definition spaces (n : nat) : string := String.concat "" (replicate n " ").

(** [f'{s:n}']: a string is padded on the right, to [n] characters. *)
Definition ljust (n : nat) (s : string) : string :=
  s +:+ spaces (n - String.length s).

End pystr.

(** ** Exceptions, printing, and the [py] monad *)

Inductive exn : Type :=
| Exception (msg : string)
| FileNotFoundError
| IsADirectoryError
| JSONDecodeError
| AttributeError
| TypeError
| IndexError
| KeyError
| ValueError
| UnboundLocalError.

Inductive result (A : Type) : Type :=
| Ok (a : A)
| Raise (e : exn).
Arguments Ok {A} a.
Arguments Raise {A} e.

(** The printed lines, then the outcome.  Whatever was printed before an
    exception stays printed. *)
Definition py (A : Type) : Type := (list string * result A)%type.

Definition stdout {A} (m : py A) : list string := fst m.
Definition outcome {A} (m : py A) : result A := snd m.

Definition raise {A} (e : exn) : py A := ([], Raise e).
Definition print (line : string) : py unit := ([line], Ok tt).

(** [print(a, b)]: the two arguments separated by one space. *)
Definition print2 (a b : string) : py unit := print (a +:+ " " +:+ b).

#[global] Instance py_ret : MRet py := λ A a, ([], Ok a).

#[global] Instance py_bind : MBind py := λ A B f m,
  match m with
  | (out, Ok a) => let '(out', r) := f a in (out ++ out', r)
  | (out, Raise e) => (out, Raise e)
  end.

(** [for x in l: s = body x s]. *)
Fixpoint for_each {A S : Type} (l : list A) (body : A → S → py S) (s : S) : py S :=
  match l with
  | [] => mret s
  | x :: xs => s' ← body x s; for_each xs body s'
  end.

(** ** pathlib, for POSIX paths *)

Module pathlib.

(** A parsed path: the root (the empty string, one slash, or two) and the
    components after it. *)
Record Path : Type := mkPath { root : string; parts : list string }.

Fixpoint leading_seps (s : string) : nat :=
  match s with
  | String c r => if pystr.is_sep c then S (leading_seps r) else 0
  | EmptyString => 0
  end.

(** POSIX keeps exactly two leading slashes and folds any other number
    into one. *)
Definition splitroot (s : string) : string :=
  match leading_seps s with
  | 0 => ""
  | 2 => "//"
  | _ => "/"
  end.

(** Components that are empty or a single dot are skipped. *)
Definition keep_part (x : string) : bool :=
  negb (String.eqb x "") && negb (String.eqb x ".").

(** [Path(s)]. *)
Definition of_string (s : string) : Path :=
  {| root := splitroot s; parts := List.filter keep_part (pystr.split_sep s) |}.

(** [str(p)]. *)
Definition str (p : Path) : string :=
  match root p, parts p with
  | EmptyString, [] => "."
  | r, ps => r +:+ pystr.join_sep ps
  end.

(** [p.name]: the last component, empty when there is none. *)
Definition name (p : Path) : string := List.last (parts p) "".

Definition name_suffix (nm : string) : string :=
  match pystr.rfind_dot nm with
  | Some i =>
      if (0 <? i) && (i <? String.length nm - 1) then pystr.drop i nm else ""
  | None => ""
  end.

(** [p.suffix]: from the last dot of the name on, unless that dot is the
    first or the last character. *)
Definition suffix (p : Path) : string := name_suffix (name p).

(** [p.with_suffix(suffix)]. *)
Definition with_suffix (p : Path) (sfx : string) : result Path :=
  if pystr.has_sep sfx then Raise ValueError
  else if (pystr.nonempty sfx && negb (pystr.startswith_dot sfx)) || String.eqb sfx "."
  then Raise ValueError
  else
    let nm := name p in
    if negb (pystr.nonempty nm) then Raise ValueError
    else
      let old_suffix := suffix p in
      let nm' :=
        if negb (pystr.nonempty old_suffix) then nm +:+ sfx
        else pystr.take (String.length nm - String.length old_suffix) nm +:+ sfx in
      Ok {| root := root p; parts := removelast (parts p) ++ [nm'] |}.

(** [p.parent]. *)
Definition parent (p : Path) : Path :=
  match parts p with
  | [] => p
  | _ => {| root := root p; parts := removelast (parts p) |}
  end.

(** [p / s] and [p.joinpath(s)] for a string [s]: an absolute [s] wins. *)
Definition joinpath (p : Path) (s : string) : Path :=
  let q := of_string s in
  if pystr.nonempty (root q) then q
  else {| root := root p; parts := parts p ++ parts q |}.

(** [p.absolute()], with the working directory [cwd] of the process. *)
Definition absolute (cwd p : Path) : Path :=
  if pystr.nonempty (root p) then p
  else {| root := root cwd; parts := parts cwd ++ parts p |}.

End pathlib.

Export pathlib(Path).

(** ** JSON values, as [json.load] returns them *)

Inductive json : Type :=
| JNull
| JBool (b : bool)
| JInt (n : Z)
| JFloat (x : float)
| JStr (s : string)
| JList (l : list json)
| JDict (items : list (string * json)).

Module builtins.

(** [bool(v)]. *)
Definition truthy (v : json) : bool :=
  match v with
  | JNull => false
  | JBool b => b
  | JInt n => negb (n =? 0)%Z
  | JFloat x => negb (PrimFloat.eqb x 0%float)
  | JStr s => pystr.nonempty s
  | JList l => match l with [] => false | _ => true end
  | JDict items => match items with [] => false | _ => true end
  end.

(** [len(v)]: only strings, lists and dicts have a length. *)
Definition len (v : json) : py nat :=
  match v with
  | JStr s => mret (String.length s)
  | JList l => mret (length l)
  | JDict items => mret (length items)
  | _ => raise TypeError
  end.

(** [v[idx]] for an integer index: an element of a list, a character of
    a string; the keys of a JSON object are strings, so an integer is
    never one of them. *)
Definition getitem (v : json) (idx : nat) : py json :=
  match v with
  | JList l => match l !! idx with Some x => mret x | None => raise IndexError end
  | JStr s =>
      match String.get idx s with
      | Some c => mret (JStr (String c EmptyString))
      | None => raise IndexError
      end
  | JDict _ => raise KeyError
  | _ => raise TypeError
  end.

(** [l[idx]] on a Python list. *)
Definition list_getitem {A} (l : list A) (idx : nat) : py A :=
  match l !! idx with Some x => mret x | None => raise IndexError end.

(** [p / v]: the right operand has to be a string. *)
Definition truediv (p : Path) (v : json) : py Path :=
  match v with
  | JStr s => mret (pathlib.joinpath p s)
  | _ => raise TypeError
  end.

(** A [result] of a library call, continued in [py]. *)
Definition lift {A} (r : result A) : py A := ([], r).

End builtins.

(** ** The file system *)

(** A regular file carries what [json.load] makes of its text: [None]
    when the text is not JSON (an image, say). *)
Inductive node : Type :=
| Directory
| RegularFile (content : option json).

Definition filesystem : Type := Path → option node.

Definition is_file (fs : filesystem) (p : Path) : bool :=
  match fs p with Some (RegularFile _) => true | _ => false end.

Definition is_dir (fs : filesystem) (p : Path) : bool :=
  match fs p with Some Directory => true | _ => false end.

(** [with open(p) as f: json.load(f)]. *)
Definition open_json_load (fs : filesystem) (p : Path) : py json :=
  match fs p with
  | None => raise FileNotFoundError
  | Some Directory => raise IsADirectoryError
  | Some (RegularFile None) => raise JSONDecodeError
  | Some (RegularFile (Some j)) => mret j
  end.

(** [d.items()]: what is not a dict has no such method. *)
Definition dict_items (j : json) : py (list (string * json)) :=
  match j with
  | JDict items => mret items
  | _ => raise AttributeError
  end.

(** ** The rendering toolkit, as far as the scripts talk to it *)

Module vtk.

(** The installed build: the encoded version number when the module
    exports one, and the three numbers [vtkVersion] reports. *)
Record build : Type := mkBuild {
  VTK_VERSION_NUMBER : option Z;
  GetVTKMajorVersion : Z;
  GetVTKMinorVersion : Z;
  GetVTKBuildVersion : Z
}.

(** A texture is the record of the file its reader was pointed at. *)
Record vtkTexture : Type := mkTexture { texture_file : string }.

(** The material properties of an actor ([vtkProperty]); a setter
    stores the value it is given. *)
Record vtkProperty : Type := mkProperty {
  Color : list float;
  Diffuse : float;
  Metallic : float;
  Roughness : float;
  OcclusionStrength : float;
  NormalScale : float;
  EmissiveFactor : list float;
  BaseColorTexture : option vtkTexture;
  ORMTexture : option vtkTexture;
  EmissiveTexture : option vtkTexture;
  NormalTexture : option vtkTexture
}.

Definition with_Metallic (v : float) (p : vtkProperty) : vtkProperty :=
  {| Color := Color p; Diffuse := Diffuse p; Metallic := v;
     Roughness := Roughness p; OcclusionStrength := OcclusionStrength p;
     NormalScale := NormalScale p; EmissiveFactor := EmissiveFactor p;
     BaseColorTexture := BaseColorTexture p; ORMTexture := ORMTexture p;
     EmissiveTexture := EmissiveTexture p; NormalTexture := NormalTexture p |}.

Definition with_Roughness (v : float) (p : vtkProperty) : vtkProperty :=
  {| Color := Color p; Diffuse := Diffuse p; Metallic := Metallic p;
     Roughness := v; OcclusionStrength := OcclusionStrength p;
     NormalScale := NormalScale p; EmissiveFactor := EmissiveFactor p;
     BaseColorTexture := BaseColorTexture p; ORMTexture := ORMTexture p;
     EmissiveTexture := EmissiveTexture p; NormalTexture := NormalTexture p |}.

Definition with_OcclusionStrength (v : float) (p : vtkProperty) : vtkProperty :=
  {| Color := Color p; Diffuse := Diffuse p; Metallic := Metallic p;
     Roughness := Roughness p; OcclusionStrength := v;
     NormalScale := NormalScale p; EmissiveFactor := EmissiveFactor p;
     BaseColorTexture := BaseColorTexture p; ORMTexture := ORMTexture p;
     EmissiveTexture := EmissiveTexture p; NormalTexture := NormalTexture p |}.

Definition with_NormalScale (v : float) (p : vtkProperty) : vtkProperty :=
  {| Color := Color p; Diffuse := Diffuse p; Metallic := Metallic p;
     Roughness := Roughness p; OcclusionStrength := OcclusionStrength p;
     NormalScale := v; EmissiveFactor := EmissiveFactor p;
     BaseColorTexture := BaseColorTexture p; ORMTexture := ORMTexture p;
     EmissiveTexture := EmissiveTexture p; NormalTexture := NormalTexture p |}.

(** The objects the callbacks reach: every one lives in the store and is
    referred to by its address, so two callbacks given the same property
    share it. *)
Inductive object : Type :=
| SliderWidget (value : float)
| Property (p : vtkProperty)
| ToneMappingPass (exposure : float).

Definition ref : Type := nat.
Abbreviation store := (gmap nat object).

(** [w.GetRepresentation().GetValue()]. *)
Definition GetValue (h : store) (w : ref) : py float :=
  match h !! w with
  | Some (SliderWidget v) => mret v
  | _ => raise AttributeError
  end.

(** A setter of [vtkProperty], applied to the object at [r]. *)
Definition set_property (f : vtkProperty → vtkProperty) (r : ref) (h : store) : py store :=
  match h !! r with
  | Some (Property p) => mret (<[r := Property (f p)]> h)
  | _ => raise AttributeError
  end.

Definition SetMetallic (r : ref) (v : float) := set_property (with_Metallic v) r.
Definition SetRoughness (r : ref) (v : float) := set_property (with_Roughness v) r.
Definition SetOcclusionStrength (r : ref) (v : float) := set_property (with_OcclusionStrength v) r.
Definition SetNormalScale (r : ref) (v : float) := set_property (with_NormalScale v) r.

(** The image writers. *)
Inductive writer : Type := vtkJPEGWriter | vtkPNGWriter.

(** One [writer.Write()]: which writer, to which file, of which capture. *)
Record written : Type := mkWritten {
  written_by : writer;
  written_to : Path;
  written_scale : Z;
  written_rgba : bool
}.

(** A cube map texture: the files of its six inputs, in order. *)
Record vtkCubeMap : Type := mkCubeMap { cube_faces : list string }.

(** [SetExposure] of the tone mapping pass at [r]. *)
Definition SetExposure (r : ref) (v : float) (h : store) : py store :=
  match h !! r with
  | Some (ToneMappingPass _) => mret (<[r := ToneMappingPass v]> h)
  | _ => raise AttributeError
  end.

(** [vtkHDRReader], as far as the script asks it: whether it accepts a
    file, [reader.CanReadFile(name)], and whether a suffix is among the
    extensions it names, [suffix in reader.GetFileExtensions()]. *)
Record vtkHDRReader : Type := mkHDRReader {
  CanReadFile : string → bool;
  in_GetFileExtensions : string → bool
}.

End vtk.

(** ** PBR_Skybox_Texturing.py *)

Module PBR_Skybox_Texturing.

Import builtins.

(** *** [vtk_version_ok] *)

Definition vtk_version_number (v : vtk.build) : Z :=
  match vtk.VTK_VERSION_NUMBER v with
  | Some n => n
  | None =>
      10000000000 * vtk.GetVTKMajorVersion v + 100000000 * vtk.GetVTKMinorVersion v
      + vtk.GetVTKBuildVersion v
  end.

Definition vtk_version_ok (v : vtk.build) (major minor build : Z) : bool :=
  let needed_version := (10000000000 * major + 100000000 * minor + build)%Z in
  if (vtk_version_number v >=? needed_version)%Z then true else false.

(** *** [get_parameters] *)

(** What the parameter dictionary holds: a JSON value copied from the
    file, a path, or the list of cubemap paths. *)
Inductive value : Type :=
| VJson (v : json)
| VPath (p : Path)
| VPaths (l : list Path).

(** [bool(x)] of such a value; a [Path] object is always true. *)
Definition value_truthy (x : value) : bool :=
  match x with
  | VJson v => truthy v
  | VPath _ => true
  | VPaths l => match l with [] => false | _ => true end
  end.

Definition allowed_keys_no_paths : gset string :=
  {[ "object"; "objcolor"; "bkgcolor"; "skybox" ]}.

Definition allowed_keys_paths : gset string :=
  {[ "cubemap"; "equirectangular"; "albedo"; "normal"; "material";
     "coat"; "anisotropy"; "emissive" ]}.

(** The body of [for idx in range(len(v))], on the state [(cm, paths_ok)]. *)
Definition cubemap_entry (fs : filesystem) (fn_path : Path) (v : json)
    (idx : nat) (st : list Path * bool) : py (list Path * bool) :=
  let '(cm, paths_ok) := st in
  x ← getitem v idx;
  if truthy x then
    p ← truediv (pathlib.parent fn_path) x;
    let cm := cm ++ [p] in
    if negb (is_file fs p) then
      c ← list_getitem cm idx;
      print2 "Not a file:" (pathlib.str c);;
      mret (cm, false)
    else mret (cm, paths_ok)
  else
    print "A missing path in the cubemap.";;
    mret (cm, false).

(** The body of [for k, v in json_data.items()], on the state
    [(paths_ok, parameters)]. *)
Definition load_item (fs : filesystem) (fn_path : Path) (kv : string * json)
    (st : bool * gmap string value) : py (bool * gmap string value) :=
  let '(k, v) := kv in
  let '(paths_ok, parameters) := st in
  if bool_decide (k ∈ allowed_keys_no_paths) then
    mret (paths_ok, <[k := VJson v]> parameters)
  else if bool_decide (k ∈ allowed_keys_paths) then
    if String.eqb k "cubemap" then
      n ← len v;
      '(cm, paths_ok) ←
        (if negb (n =? 6) then
           print "There must be six filenames for the cubemap.";;
           mret ([], false)
         else for_each (seq 0 n) (cubemap_entry fs fn_path v) ([], paths_ok));
      mret (paths_ok, <[k := VPaths cm]> parameters)
    else if truthy v then
      p ← truediv (pathlib.parent fn_path) v;
      let parameters := <[k := VPath p]> parameters in
      if negb (is_file fs p || is_dir fs p) then
        print2 "Not a file or path:" (pathlib.str p);;
        mret (false, parameters)
      else mret (paths_ok, parameters)
    else
      print2 "No path for the key" k;;
      mret (false, parameters)
  else mret (paths_ok, parameters).

(** [('object' in parameters.keys() and not parameters['object'])
     or 'object' not in parameters.keys()]. *)
Definition object_unset (parameters : gmap string value) : bool :=
  match parameters !! "object" with
  | Some x => negb (value_truthy x)
  | None => true
  end.

Definition get_parameters (fs : filesystem) (fn_path : Path) (surface_name : string)
    : py (bool * gmap string value) :=
  json_data ← open_json_load fs fn_path;
  items ← dict_items json_data;
  '(paths_ok, parameters) ← for_each items (load_item fs fn_path) (true, ∅);
  let parameters :=
    if object_unset parameters then <["object" := VJson (JStr "Boy")]> parameters
    else parameters in
  let parameters :=
    if pystr.nonempty surface_name then <["object" := VJson (JStr surface_name)]> parameters
    else parameters in
  mret (paths_ok, parameters).

(** *** [read_texture] *)

Definition valid_extensions : list string :=
  [".jpg"; ".png"; ".bmp"; ".tiff"; ".pnm"; ".pgm"; ".ppm"].

Definition read_texture (image_path : Path) : py (option vtk.vtkTexture) :=
  let suffix := pystr.lower (pathlib.suffix image_path) in
  if negb (pystr.in_list suffix valid_extensions) then
    print2 "Unable to read the texture file (wrong extension):" (pathlib.str image_path);;
    mret None
  else mret (Some (vtk.mkTexture (pathlib.str image_path))).

(** *** [check_for_missing_textures] *)

Definition check_texture (parameters : gmap string value) (texture_name : string)
    (have_textures : bool) : py bool :=
  match parameters !! texture_name with
  | None =>
      print2 "Missing texture:" texture_name;;
      mret false
  | Some x =>
      if negb (value_truthy x) then
        print2 "No texture path for:" texture_name;;
        mret false
      else mret have_textures
  end.

Definition check_for_missing_textures (parameters : gmap string value)
    (wanted_textures : list string) : py bool :=
  for_each wanted_textures (check_texture parameters) true.

(** *** [main], lines 97 to 111: from the version gate to the [paths_ok]
    gate.  [Proceeds] is control reaching line 112 with the loaded
    parameters. *)

Inductive main_outcome : Type :=
| Returned
| Proceeds (parameters : gmap string value).

Definition main (v : vtk.build) (fs : filesystem) (fn surface_name : string)
    : py main_outcome :=
  if negb (vtk_version_ok v 9 0 0) then
    print "You need VTK version 9.0 or greater to run this program.";;
    mret Returned
  else
    let fn_path := pathlib.of_string fn in
    fn_path ←
      (if negb (pystr.nonempty (pathlib.suffix fn_path))
       then lift (pathlib.with_suffix fn_path ".json")
       else mret fn_path);
    (if negb (is_file fs fn_path)
     then print2 "Unable to find: " (pathlib.str fn_path)
     else mret tt);;
    '(paths_ok, parameters) ← get_parameters fs fn_path surface_name;
    if negb paths_ok then mret Returned
    else mret (Proceeds parameters).

(** *** [main], lines 163 to 183: the surface *)

(** The mesh factory that [main] ends up calling. *)
Inductive source : Type :=
| get_boy | get_mobius | get_random_hills | get_torus
| get_sphere | get_clipped_sphere | get_cube | get_clipped_cube.

Definition available_surfaces : gset string :=
  {[ "boy"; "mobius"; "randomhills"; "torus"; "sphere"; "clippedsphere";
     "cube"; "clippedcube" ]}.

Definition main_surface (object : string) : source :=
  let surface := pystr.lower object in
  let surface :=
    if negb (bool_decide (surface ∈ available_surfaces)) then "boy" else surface in
  if String.eqb surface "mobius" then get_mobius
  else if String.eqb surface "randomhills" then get_random_hills
  else if String.eqb surface "torus" then get_torus
  else if String.eqb surface "sphere" then get_sphere
  else if String.eqb surface "clippedsphere" then get_clipped_sphere
  else if String.eqb surface "cube" then get_cube
  else if String.eqb surface "clippedcube" then get_clipped_cube
  else get_boy.

(** [parameters['object'].lower()] and on: what is not a string has no
    [lower]. *)
Definition main_source (parameters : gmap string value) : py source :=
  match parameters !! "object" with
  | None => raise KeyError
  | Some (VJson (JStr s)) => mret (main_surface s)
  | Some _ => raise AttributeError
  end.

(** *** [display_parameters] *)

(** [k in parameters] and [parameters[k]]. *)
Definition has_key (parameters : gmap string value) (k : string) : bool :=
  match parameters !! k with Some _ => true | None => false end.

Definition parameters_getitem (parameters : gmap string value) (k : string)
    : py value :=
  match parameters !! k with Some x => mret x | None => raise KeyError end.

(** [len(x)] and [x[idx]] of what the dictionary holds; a [Path] has
    neither. *)
Definition value_len (x : value) : py nat :=
  match x with
  | VJson v => len v
  | VPath _ => raise TypeError
  | VPaths l => mret (length l)
  end.

Definition value_getitem (x : value) (idx : nat) : py value :=
  match x with
  | VJson v => y ← getitem v idx; mret (VJson y)
  | VPath _ => raise TypeError
  | VPaths l => p ← list_getitem l idx; mret (VPath p)
  end.

(** [str(x)], which is how an f-string shows a value.  Python's [repr]
    of a float or of a container is not modelled: [repr] stands for it. *)
Definition str_value (repr : value → string) (x : value) : string :=
  match x with
  | VPath p => pathlib.str p
  | VJson (JStr s) => s
  | VJson JNull => "None"
  | VJson (JBool b) => if b then "True" else "False"
  | VJson (JInt n) => pretty n
  | _ => repr x
  end.

Definition parameter_keys : list string :=
  ["object"; "objcolor"; "bkgcolor"; "skybox"; "cubemap"; "equirectangular";
   "albedo"; "normal"; "material"; "coat"; "anisotropy"; "emissive"].

(** The body of [for idx in range(len(parameters[k]))]. *)
Definition display_cubemap (repr : value → string) (parameters : gmap string value)
    (k : string) (idx : nat) (res : list string) : py (list string) :=
  if (idx =? 0)%nat then
    x ← parameters_getitem parameters k;
    item ← value_getitem x idx;
    mret (res ++ [pystr.ljust 15 k +:+ ": " +:+ str_value repr item])
  else
    x ← parameters_getitem parameters k;
    item ← value_getitem x idx;
    mret (res ++ [pystr.spaces 17 +:+ str_value repr item]).

(** The body of [for k in parameter_keys]. *)
Definition display_parameter (repr : value → string) (parameters : gmap string value)
    (k : string) (res : list string) : py (list string) :=
  if negb (String.eqb k "cubemap") then
    if has_key parameters k then
      x ← parameters_getitem parameters k;
      mret (res ++ [pystr.ljust 15 k +:+ ": " +:+ str_value repr x])
    else mret res
  else
    if has_key parameters k then
      x ← parameters_getitem parameters k;
      n ← value_len x;
      for_each (seq 0 n) (display_cubemap repr parameters k) res
    else mret res.

Definition display_parameters (repr : value → string) (parameters : gmap string value)
    : py (list string) :=
  for_each parameter_keys (display_parameter repr parameters) [].

(** *** [equirectangular_file_to_texture], [equirectangular_file_to_cubemap]
    and [read_cubemap] *)

(** The texture of an equirectangular file: the file, whether the high
    dynamic range reader reads it (an image reader of the factory
    otherwise), and whether the image is flipped in x. *)
Record equirectangular_texture : Type := mkEquirectangular {
  equirectangular_file : string;
  equirectangular_hdr : bool;
  equirectangular_flip_x : bool
}.

(** A cube map: the inputs [read_cubemap] went through, or the texture
    that [vtkEquirectangularToCubeMapTexture] was given. *)
Inductive cube_map_texture : Type :=
| CubeMapFiles (inputs : list value)
| EquirectangularToCubeMap (input : option equirectangular_texture).

(** [x.suffix]: only a [Path] has the attribute. *)
Definition as_path (x : value) : py Path :=
  match x with
  | VPath p => mret p
  | _ => raise AttributeError
  end.

(** A method called on what may be [None]. *)
Definition method_of {A : Type} (x : option A) : py A :=
  match x with
  | Some a => mret a
  | None => raise AttributeError
  end.

Definition equirectangular_file_to_texture (hdr : vtk.vtkHDRReader) (fn_path : Path)
    (flip_x : bool) : py (option equirectangular_texture) :=
  let suffix := pystr.lower (pathlib.suffix fn_path) in
  if pystr.in_list suffix [".jpeg"; ".jpg"; ".png"] then
    mret (Some (mkEquirectangular (pathlib.str fn_path) false flip_x))
  else
    if negb (vtk.CanReadFile hdr (pathlib.str fn_path)) then
      print2 "CanReadFile failed for " (pathlib.str fn_path);;
      mret None
    else if negb (vtk.in_GetFileExtensions hdr suffix) then
      print2 "Unable to read this file extension: " suffix;;
      mret None
    else mret (Some (mkEquirectangular (pathlib.str fn_path) true flip_x)).

Definition equirectangular_file_to_cubemap (hdr : vtk.vtkHDRReader) (fn_path : Path)
    (flip_x : bool) : py cube_map_texture :=
  env_texture ← equirectangular_file_to_texture hdr fn_path flip_x;
  mret (EquirectangularToCubeMap env_texture).

(** [for fn in cubemap]: what the loop visits.  A list gives its
    elements, a string its characters, a dict its keys; nothing else can
    be iterated. *)
Definition iterate (x : value) : py (list value) :=
  match x with
  | VPaths l => mret (VPath <$> l)
  | VPath _ => raise TypeError
  | VJson (JList l) => mret (VJson <$> l)
  | VJson (JStr s) =>
      mret ((λ c, VJson (JStr (String c EmptyString))) <$> String.list_ascii_of_string s)
  | VJson (JDict items) => mret ((λ kv, VJson (JStr (fst kv))) <$> items)
  | VJson _ => raise TypeError
  end.

Definition read_cubemap (cubemap : value) : py cube_map_texture :=
  fns ← iterate cubemap;
  mret (CubeMapFiles fns).

(** *** [main], lines 112 to 199: from the display of the parameters to
    their defaults *)

(** The local variables of lines 120 to 125, as line 154 finds them. *)
Record environment : Type := mkEnvironment {
  cube_map : option cube_map_texture;
  env_texture : option equirectangular_texture;
  has_env_texture : bool;
  is_hdr : bool;
  has_cube_map : bool;
  gamma_correct : bool
}.

(** [k in parameters.keys() and parameters[k]]. *)
Definition key_truthy (parameters : gmap string value) (k : string) : bool :=
  match parameters !! k with Some x => value_truthy x | None => false end.

(** Lines 120 to 153; [None] is the [return] of line 153. *)
Definition main_environment (hdr : vtk.vtkHDRReader) (parameters : gmap string value)
    (use_cubemap : bool) : py (option environment) :=
  skybox ← parameters_getitem parameters "skybox";
  let use_cubemap := if negb (value_truthy skybox) then false else use_cubemap in
  if use_cubemap && has_key parameters "cubemap" then
    print "Using the cubemap files to generate the environment texture.";;
    cubemap ← parameters_getitem parameters "cubemap";
    cube_map ← read_cubemap cubemap;
    mret (Some (mkEnvironment (Some cube_map) None false false true false))
  else if key_truthy parameters "equirectangular" then
    print "Using the equirectangular file to generate the environment texture.";;
    equirectangular ← parameters_getitem parameters "equirectangular";
    fn_path ← as_path equirectangular;
    env_texture ← equirectangular_file_to_texture hdr fn_path false;
    let hdr_suffix :=
      pystr.contains (pystr.lower (pathlib.suffix fn_path)) ".hdr .pic" in
    skybox ← parameters_getitem parameters "skybox";
    if value_truthy skybox then
      cube_map ← equirectangular_file_to_cubemap hdr fn_path true;
      mret (Some (mkEnvironment (Some cube_map) env_texture true hdr_suffix
                    true hdr_suffix))
    else
      mret (Some (mkEnvironment None env_texture true hdr_suffix false hdr_suffix))
  else if key_truthy parameters "cubemap" then
    print "Using the cubemap files to generate the environment texture.";;
    cubemap ← parameters_getitem parameters "cubemap";
    cube_map ← read_cubemap cubemap;
    mret (Some (mkEnvironment (Some cube_map) None false false true false))
  else
    print ("An environment texture is required," +:+ String (ascii_of_nat 10)
             "please add the necessary equiangular or cubemap file paths to the json file.");;
    mret None.

(** Lines 156 to 161. *)
Record textures : Type := mkTextures {
  base_color : vtk.vtkTexture;
  normal : option vtk.vtkTexture;
  material : option vtk.vtkTexture;
  emissive : vtk.vtkTexture
}.

(** [read_texture(parameters[k])]. *)
Definition read_parameter (parameters : gmap string value) (k : string)
    : py (option vtk.vtkTexture) :=
  x ← parameters_getitem parameters k;
  image_path ← as_path x;
  read_texture image_path.

Definition main_textures (parameters : gmap string value) : py textures :=
  base_color ← read_parameter parameters "albedo";
  base_color ← method_of base_color;
  normal ← read_parameter parameters "normal";
  material ← read_parameter parameters "material";
  emissive ← read_parameter parameters "emissive";
  emissive ← method_of emissive;
  mret (mkTextures base_color normal material emissive).

(** Lines 193 to 199: the parameters that get a default. *)
Definition main_defaults (parameters : gmap string value) : gmap string value :=
  let parameters :=
    if negb (has_key parameters "bkgcolor")
    then <["bkgcolor" := VJson (JStr "BkgColor")]> parameters else parameters in
  let parameters :=
    if negb (has_key parameters "objcolor")
    then <["objcolor" := VJson (JStr "White")]> parameters else parameters in
  let parameters :=
    if negb (has_key parameters "skybox")
    then <["skybox" := VJson (JBool false)]> parameters else parameters in
  parameters.

(** What [main] holds when it starts on the pipeline, at line 201. *)
Record scene : Type := mkScene {
  scene_parameters : gmap string value;
  scene_environment : environment;
  scene_textures : textures;
  scene_source : source
}.

(** [main] from the version gate to line 199, run with the [-c] flag
    [use_cubemap]; [None] is an early [return]. *)
Definition main_scene (hdr : vtk.vtkHDRReader) (repr : value → string)
    (v : vtk.build) (fs : filesystem) (fn surface_name : string) (use_cubemap : bool)
    : py (option scene) :=
  r ← main v fs fn surface_name;
  match r with
  | Returned => mret None
  | Proceeds parameters =>
      res ← display_parameters repr parameters;
      print (pystr.join_lines res);;
      print "";;
      have_textures ←
        check_for_missing_textures parameters ["albedo"; "normal"; "material"; "emissive"];
      if negb have_textures then mret None
      else
        env ← main_environment hdr parameters use_cubemap;
        match env with
        | None => mret None
        | Some env =>
            t ← main_textures parameters;
            source ← main_source parameters;
            mret (Some (mkScene (main_defaults parameters) env t source))
        end
  end.

(** Lines 262 to 271: whether the renderer uses spherical harmonics, and
    the environment texture it is given. *)
Inductive environment_input : Type :=
| FromEquirectangular (t : option equirectangular_texture)
| FromCubeMap (c : option cube_map_texture).

Definition renderer_environment (env : environment) : bool * environment_input :=
  if has_env_texture env then
    if is_hdr env then (true, FromEquirectangular (env_texture env))
    else (false, FromEquirectangular (env_texture env))
  else (false, FromCubeMap (cube_map env)).

(** Lines 298 to 305: the skybox actor, if one is added: its texture and
    whether it is gamma corrected. *)
Definition skybox_actor (env : environment) : option (option cube_map_texture * bool) :=
  if has_cube_map env then
    if gamma_correct env then Some (cube_map env, true)
    else Some (cube_map env, false)
  else None.

(** *** The slider callbacks *)

(** An instance holds the address of the actor's property, not a copy. *)
Record SliderCallbackMetallic : Type := { metallic_actor_property : vtk.ref }.
Record SliderCallbackRoughness : Type := { roughness_actorProperty : vtk.ref }.
Record SliderCallbackOcclusionStrength : Type := { occlusion_actorProperty : vtk.ref }.
Record SliderCallbackNormalScale : Type := { normal_actorProperty : vtk.ref }.

(** [__call__(self, caller, ev)], as a change of the store. *)
Definition call_SliderCallbackMetallic (self : SliderCallbackMetallic)
    (caller : vtk.ref) (h : vtk.store) : py vtk.store :=
  value ← vtk.GetValue h caller;
  vtk.SetMetallic (metallic_actor_property self) value h.

Definition call_SliderCallbackRoughness (self : SliderCallbackRoughness)
    (caller : vtk.ref) (h : vtk.store) : py vtk.store :=
  value ← vtk.GetValue h caller;
  vtk.SetRoughness (roughness_actorProperty self) value h.

Definition call_SliderCallbackOcclusionStrength (self : SliderCallbackOcclusionStrength)
    (caller : vtk.ref) (h : vtk.store) : py vtk.store :=
  value ← vtk.GetValue h caller;
  vtk.SetOcclusionStrength (occlusion_actorProperty self) value h.

Definition call_SliderCallbackNormalScale (self : SliderCallbackNormalScale)
    (caller : vtk.ref) (h : vtk.store) : py vtk.store :=
  value ← vtk.GetValue h caller;
  vtk.SetNormalScale (normal_actorProperty self) value h.

Record SliderCallbackExposure : Type :=
  { tone_mapping_property : vtk.ref }.

Definition call_SliderCallbackExposure (self : SliderCallbackExposure)
    (caller : vtk.ref) (h : vtk.store) : py vtk.store :=
  value ← vtk.GetValue h caller;
  vtk.SetExposure (tone_mapping_property self) value h.

(** *** [PrintCallback] *)

(** [path] is [None] when no file name was given; [suffix] is then never
    assigned. *)
Record PrintCallback : Type := mkPrintCallback {
  caller : vtk.ref;
  image_quality : Z;
  rgba : bool;
  path : option Path;
  suffix : option string
}.

Definition valid_suffixes : list string := [".jpeg"; ".jpg"; ".png"].

(** [PrintCallback(caller, file_name, image_quality, rgba)], run in the
    working directory [cwd]. *)
Definition init_PrintCallback (cwd : Path) (caller : vtk.ref) (file_name : string)
    (image_quality : Z) (rgba : bool) : py PrintCallback :=
  if negb (pystr.nonempty file_name) then
    print "A file name is required.";;
    mret (mkPrintCallback caller image_quality rgba None None)
  else
    let pth := pathlib.absolute cwd (pathlib.of_string file_name) in
    let ext :=
      if pystr.nonempty (pathlib.suffix pth) then pystr.lower (pathlib.suffix pth)
      else ".png" in
    let ext := if negb (pystr.in_list ext valid_suffixes) then ".png" else ext in
    p ← lift (pathlib.with_suffix (pathlib.of_string (pathlib.str pth)) ext);
    mret (mkPrintCallback caller image_quality rgba (Some p) (Some ext)).

(** [__call__(self, caller, ev)], with the key code the interactor
    reports: the file written, if any. *)
Definition call_PrintCallback (self : PrintCallback) (key_code : string)
    : py (option vtk.written) :=
  match path self with
  | None =>
      print "A file name is required.";;
      mret None
  | Some p =>
      if String.eqb key_code "k" then
        sfx ← (match suffix self with Some e => mret e | None => raise AttributeError end);
        let writer :=
          if pystr.in_list sfx [".jpeg"; ".jpg"] then vtk.vtkJPEGWriter
          else vtk.vtkPNGWriter in
        print2 "Screenshot saved to:" (pathlib.str p);;
        mret (Some (vtk.mkWritten writer p (image_quality self) (rgba self)))
      else mret None
  end.

End PBR_Skybox_Texturing.

(** ** PhysicallyBasedRendering.py *)

Module PhysicallyBasedRendering.

Import builtins.

(** *** [vtk_version_ok] *)

Definition vtk_version_number (v : vtk.build) : Z :=
  match vtk.VTK_VERSION_NUMBER v with
  | Some n => n
  | None =>
      10000000000 * vtk.GetVTKMajorVersion v + 100000000 * vtk.GetVTKMinorVersion v
      + vtk.GetVTKBuildVersion v
  end.

Definition vtk_version_ok (v : vtk.build) (major minor build : Z) : bool :=
  let needed_version := (10000000000 * major + 100000000 * minor + build)%Z in
  if (vtk_version_number v >=? needed_version)%Z then true else false.

(** *** [get_texture] *)

Definition valid_extensions : list string :=
  [".jpg"; ".png"; ".bmp"; ".tiff"; ".pnm"; ".pgm"; ".ppm"].

Definition get_texture (fs : filesystem) (image_path : string)
    : py (option vtk.vtkTexture) :=
  let path := pathlib.of_string image_path in
  if negb (is_file fs path) then
    print2 "Nonexistent texture file:" (pathlib.str path);;
    mret None
  else
    let extension := pystr.lower (pathlib.suffix path) in
    if negb (pystr.in_list extension valid_extensions) then
      print2 "Unable to read the texture file (wrong extension):" (pathlib.str path);;
      mret None
    else mret (Some (vtk.mkTexture (pathlib.str path))).

(** *** [main], lines 70 to 86: the surface *)

Inductive source : Type :=
| get_boy | get_mobius | get_random_hills | get_torus | get_sphere | get_cube.

Definition available_surfaces : gset string :=
  {[ "boy"; "mobius"; "randomhills"; "torus"; "sphere"; "cube" ]}.

Definition main_surface (surface : string) : source :=
  let surface := pystr.lower surface in
  let surface :=
    if negb (bool_decide (surface ∈ available_surfaces)) then "boy" else surface in
  if String.eqb surface "mobius" then get_mobius
  else if String.eqb surface "randomhills" then get_random_hills
  else if String.eqb surface "torus" then get_torus
  else if String.eqb surface "sphere" then get_sphere
  else if String.eqb surface "cube" then get_cube
  else get_boy.

(** *** The slider callbacks *)

Record SliderCallbackMetallic : Type := { metallic_actor_property : vtk.ref }.
Record SliderCallbackRoughness : Type := { roughness_actorProperty : vtk.ref }.
Record SliderCallbackOcclusionStrength : Type := { occlusion_actorProperty : vtk.ref }.
Record SliderCallbackNormalScale : Type := { normal_actorProperty : vtk.ref }.

Definition call_SliderCallbackMetallic (self : SliderCallbackMetallic)
    (caller : vtk.ref) (h : vtk.store) : py vtk.store :=
  value ← vtk.GetValue h caller;
  vtk.SetMetallic (metallic_actor_property self) value h.

Definition call_SliderCallbackRoughness (self : SliderCallbackRoughness)
    (caller : vtk.ref) (h : vtk.store) : py vtk.store :=
  value ← vtk.GetValue h caller;
  vtk.SetRoughness (roughness_actorProperty self) value h.

Definition call_SliderCallbackOcclusionStrength (self : SliderCallbackOcclusionStrength)
    (caller : vtk.ref) (h : vtk.store) : py vtk.store :=
  value ← vtk.GetValue h caller;
  vtk.SetOcclusionStrength (occlusion_actorProperty self) value h.

Definition call_SliderCallbackNormalScale (self : SliderCallbackNormalScale)
    (caller : vtk.ref) (h : vtk.store) : py vtk.store :=
  value ← vtk.GetValue h caller;
  vtk.SetNormalScale (normal_actorProperty self) value h.

(** *** [read_cube_map] *)

(** The first loop: the file names built so far are [fns]; [None] is the
    early [return None]. *)
Fixpoint build_file_names (fs : filesystem) (folder_root : Path)
    (file_names : list string) (fns : list Path) : py (option (list Path)) :=
  match file_names with
  | [] => mret (Some fns)
  | fn :: file_names =>
      let p := pathlib.joinpath folder_root fn in
      let fns := fns ++ [p] in
      if negb (is_file fs p) then
        print2 "Nonexistent texture file:" (pathlib.str p);;
        mret None
      else build_file_names fs folder_root file_names fns
  end.

Definition read_cube_map (fs : filesystem) (folder_root : Path)
    (file_names : list string) : py (option vtk.vtkCubeMap) :=
  fns ← build_file_names fs folder_root file_names [];
  match fns with
  | None => mret None
  | Some fns => mret (Some (vtk.mkCubeMap (pathlib.str <$> fns)))
  end.

(** *** [main], lines 30 to 86: from the version gate to the surface *)

Definition skybox_files : gmap string (list string) :=
  {[ "skybox0" := ["right.jpg"; "left.jpg"; "top.jpg"; "bottom.jpg"; "front.jpg";
                   "back.jpg"];
     "skybox1" := ["skybox-px.jpg"; "skybox-nx.jpg"; "skybox-py.jpg"; "skybox-ny.jpg";
                   "skybox-pz.jpg"; "skybox-nz.jpg"];
     "skybox2" := ["posx.jpg"; "negx.jpg"; "posy.jpg"; "negy.jpg"; "posz.jpg";
                   "negz.jpg"] ]}.

(** [skybox_files[name]]. *)
Definition skybox_files_getitem (name : string) : py (list string) :=
  match skybox_files !! name with
  | Some files => mret files
  | None => raise KeyError
  end.

(** A method call on what a loader returned: [None] has no methods. *)
Definition method_of {A : Type} (x : option A) : py A :=
  match x with
  | Some a => mret a
  | None => raise AttributeError
  end.

(** What [main] has loaded when it reaches line 88. *)
Record scene : Type := mkScene {
  scene_cubemap : option vtk.vtkCubeMap;
  scene_skybox : vtk.vtkCubeMap;
  scene_material : option vtk.vtkTexture;
  scene_albedo : vtk.vtkTexture;
  scene_normal : option vtk.vtkTexture;
  scene_emissive : vtk.vtkTexture;
  scene_source : source
}.

(** [None] is an early [return]. *)
Definition main (v : vtk.build) (fs : filesystem)
    (path material_fn albedo_fn normal_fn emissive_fn surface : string)
    : py (option scene) :=
  if negb (vtk_version_ok v 8 90 0) then
    print "You need VTK version 8.90 or greater to run this program.";;
    mret None
  else
    let cube_path := pathlib.of_string path in
    if negb (is_dir fs cube_path) then
      print2 "This path does not exist:" (pathlib.str cube_path);;
      mret None
    else
      files ← skybox_files_getitem (pathlib.name cube_path);
      cubemap ← read_cube_map fs cube_path files;
      files ← skybox_files_getitem (pathlib.name cube_path);
      skybox ← read_cube_map fs cube_path files;
      skybox ← method_of skybox;
      material ← get_texture fs material_fn;
      albedo ← get_texture fs albedo_fn;
      albedo ← method_of albedo;
      normal ← get_texture fs normal_fn;
      emissive ← get_texture fs emissive_fn;
      emissive ← method_of emissive;
      mret (Some (mkScene cubemap skybox material albedo normal emissive
                    (main_surface surface))).

End PhysicallyBasedRendering.

(** ** Froggie.py *)

Module Froggie.

Import builtins.

(** *** [SliceOrder] *)

Module SliceOrder.

(** A [vtkTransform], named by the method that builds and returns it. *)
Inductive transform : Type :=
| s_i | i_s | l_r | r_l | h_f
| hf_si | hf_is | hf_ap | hf_pa | hf_lr | hf_rl.

Definition quote : string := String (ascii_of_nat 34) EmptyString.

(** What [get] returns: the transform of the method it calls, or [None].
    The methods [a_p] and [p_a] do not return their transform [t] but the
    value of [t.Scale(...)], and [vtkTransform.Scale] returns nothing
    ([hf_ap] and [hf_pa] call it as a statement and then return [t]). *)
Definition get (order : string) : py (option transform) :=
  if String.eqb order "si" then mret (Some s_i)
  else if String.eqb order "is" then mret (Some i_s)
  else if String.eqb order "ap" then mret None
  else if String.eqb order "pa" then mret None
  else if String.eqb order "lr" then mret (Some l_r)
  else if String.eqb order "rl" then mret (Some r_l)
  else if String.eqb order "hf" then mret (Some h_f)
  else if String.eqb order "hfsi" then mret (Some hf_si)
  else if String.eqb order "hfis" then mret (Some hf_is)
  else if String.eqb order "hfap" then mret (Some hf_ap)
  else if String.eqb order "hfpa" then mret (Some hf_pa)
  else if String.eqb order "hflr" then mret (Some hf_lr)
  else if String.eqb order "hfrl" then mret (Some hf_rl)
  else
    let s := "No such transform " +:+ quote +:+ order +:+ quote +:+ " exists." in
    raise (Exception s).

End SliceOrder.

(** *** [create_frog_lut] *)

(** An entry of the lookup table: as [Build] left it, set to four
    numbers, or set to a named colour. *)
Inductive lut_entry : Type :=
| Built
| RGBA (r g b a : Z)
| Named (colour : string).

Definition create_frog_lut : list lut_entry :=
  let lut := replicate 17 Built in
  let lut := <[0 := RGBA 0 0 0 0]> lut in
  let lut := <[1 := Named "salmon"]> lut in
  let lut := <[2 := Named "beige"]> lut in
  let lut := <[3 := Named "orange"]> lut in
  let lut := <[4 := Named "misty_rose"]> lut in
  let lut := <[5 := Named "white"]> lut in
  let lut := <[6 := Named "tomato"]> lut in
  let lut := <[7 := Named "raspberry"]> lut in
  let lut := <[8 := Named "banana"]> lut in
  let lut := <[9 := Named "peru"]> lut in
  let lut := <[10 := Named "pink"]> lut in
  let lut := <[11 := Named "powder_blue"]> lut in
  let lut := <[12 := Named "carrot"]> lut in
  let lut := <[13 := Named "wheat"]> lut in
  let lut := <[14 := Named "violet"]> lut in
  let lut := <[15 := Named "plum"]> lut in
  let lut := <[16 := Named "LimeGreen"]> lut in
  lut.

(** *** [create_tissue_map] *)

(** [[lut_index, transform, opacity]]. *)
Record tissue : Type := mkTissue {
  lut_index : Z;
  transform : string;
  opacity : float
}.

Definition create_tissue_map : gmap string tissue :=
  let tiss : gmap string tissue := ∅ in
  let tiss := <["blood" := mkTissue 1 "is" 1.0]> tiss in
  let tiss := <["brain" := mkTissue 2 "is" 1.0]> tiss in
  let tiss := <["brainbin" := mkTissue 2 "is" 1.0]> tiss in
  let tiss := <["duodenum" := mkTissue 3 "is" 1.0]> tiss in
  let tiss := <["eye_retna" := mkTissue 4 "is" 1.0]> tiss in
  let tiss := <["eye_white" := mkTissue 5 "is" 1.0]> tiss in
  let tiss := <["heart" := mkTissue 6 "is" 1.0]> tiss in
  let tiss := <["ileum" := mkTissue 7 "is" 1.0]> tiss in
  let tiss := <["kidney" := mkTissue 8 "is" 1.0]> tiss in
  let tiss := <["l_intestine" := mkTissue 9 "is" 1.0]> tiss in
  let tiss := <["liver" := mkTissue 10 "is" 1.0]> tiss in
  let tiss := <["lung" := mkTissue 11 "is" 1.0]> tiss in
  let tiss := <["nerve" := mkTissue 12 "is" 1.0]> tiss in
  let tiss := <["skeleton" := mkTissue 13 "is" 1.0]> tiss in
  let tiss := <["spleen" := mkTissue 14 "is" 1.0]> tiss in
  let tiss := <["stomach" := mkTissue 15 "is" 1.0]> tiss in
  let tiss := <["skin" := mkTissue 16 "hfsi" 0.4]> tiss in
  tiss.

(** *** [create_frog_actor] and [main] *)

(** An actor is the record of the pipeline built for it and of the
    properties [main] sets on it. *)
Record actor : Type := mkActor {
  reader_file : string;
  trans : option SliceOrder.transform;
  brainbin_flip : bool;
  Opacity : option float;
  DiffuseColor : option lut_entry
}.

(** [trans.Scale(1, -1, 1)] and [trans.RotateZ(180)] need a transform;
    [tf.SetTransform(trans)] takes what it is given. *)
Definition create_frog_actor (file_name tissue_name transform : string) : py actor :=
  trans ← SliceOrder.get transform;
  (if String.eqb tissue_name "brainbin" then
     match trans with
     | Some _ => mret tt
     | None => raise AttributeError
     end
   else mret tt);;
  mret (mkActor file_name trans (String.eqb tissue_name "brainbin") None None).

(** [s.rjust(n)]. *)
Definition rjust (n : nat) (s : string) : string :=
  String.concat "" (replicate (n - String.length s) " ") +:+ s.

(** [tm[tissue]]. *)
Definition tissue_getitem (tm : gmap string tissue) (k : string) : py tissue :=
  match tm !! k with Some t => mret t | None => raise KeyError end.

(** The local variable [source] of [main] is unbound until the first
    assignment. *)
Definition read_local {A} (x : option A) : py A :=
  match x with Some a => mret a | None => raise UnboundLocalError end.

(** The body of [for tissue in tissues], on the state
    [(source, actors of the renderer, res)]. *)
Definition main_tissue (fs : filesystem) (path : Path) (tm : gmap string tissue)
    (color_lut : list lut_entry) (tissue_name : string)
    (st : option Path * list actor * list string)
    : py (option Path * list actor * list string) :=
  let '(source, actors, res) := st in
  '(source, skip) ←
    (if is_dir fs path then
       src ← lift (pathlib.with_suffix (pathlib.joinpath path tissue_name) ".vtk");
       if negb (is_file fs src) then
         print ("The file: " +:+ pathlib.str src +:+ " does not exist.");;
         mret (Some src, true)
       else mret (Some src, false)
     else mret (source, false));
  if (skip : bool) then mret (source, actors, res)
  else
    src ← read_local source;
    t ← tissue_getitem tm tissue_name;
    a ← create_frog_actor (pathlib.str src) tissue_name (transform t);
    let a :=
      mkActor (reader_file a) (trans a) (brainbin_flip a) (Some (opacity t))
              (color_lut !! Z.to_nat (lut_index t)) in
    let line := rjust 11 tissue_name +:+ ", label: " +:+ rjust 2 (pretty (lut_index t)) in
    mret (source, actors ++ [a], res ++ [line]).

(** [main], lines 18 to 37; the camera and the window that follow are
    the toolkit's.  The result is the list of actors of the renderer. *)
Definition main (fs : filesystem) (data_folder : string) (tissues : list string)
    : py (list actor) :=
  let tm := create_tissue_map in
  let path := pathlib.of_string data_folder in
  let color_lut := create_frog_lut in
  '(_, actors, res) ←
    for_each tissues (main_tissue fs path tm color_lut)
             (None, [], ["Using the following tissues:"]);
  print (pystr.join_lines res);;
  mret actors.

End Froggie.

(** ** Vocabulary of the statements *)

Module spec.


(** The order codes [SliceOrder.get] has a branch for. *)
Definition slice_orders : list string :=
  ["si"; "is"; "ap"; "pa"; "lr"; "rl"; "hf";
   "hfsi"; "hfis"; "hfap"; "hfpa"; "hflr"; "hfrl"].

(** A float in the closed interval from 0 to 1. *)
Definition unit_interval (x : float) : Prop :=
  PrimFloat.leb 0 x = true ∧ PrimFloat.leb x 1 = true.

(** Which factory each available surface name stands for. *)
Definition surfaces : list (string * PhysicallyBasedRendering.source) :=
  [("boy", PhysicallyBasedRendering.get_boy);
   ("mobius", PhysicallyBasedRendering.get_mobius);
   ("randomhills", PhysicallyBasedRendering.get_random_hills);
   ("torus", PhysicallyBasedRendering.get_torus);
   ("sphere", PhysicallyBasedRendering.get_sphere);
   ("cube", PhysicallyBasedRendering.get_cube)].

Definition surfaces_json : list (string * PBR_Skybox_Texturing.source) :=
  [("boy", PBR_Skybox_Texturing.get_boy);
   ("mobius", PBR_Skybox_Texturing.get_mobius);
   ("randomhills", PBR_Skybox_Texturing.get_random_hills);
   ("torus", PBR_Skybox_Texturing.get_torus);
   ("sphere", PBR_Skybox_Texturing.get_sphere);
   ("clippedsphere", PBR_Skybox_Texturing.get_clipped_sphere);
   ("cube", PBR_Skybox_Texturing.get_cube);
   ("clippedcube", PBR_Skybox_Texturing.get_clipped_cube)].

(** The fields of a property other than the one a callback is for. *)
Definition but_Metallic (p : vtk.vtkProperty) :=
  (vtk.Color p, vtk.Diffuse p, vtk.Roughness p, vtk.OcclusionStrength p,
   vtk.NormalScale p, vtk.EmissiveFactor p, vtk.BaseColorTexture p,
   vtk.ORMTexture p, vtk.EmissiveTexture p, vtk.NormalTexture p).

Definition but_Roughness (p : vtk.vtkProperty) :=
  (vtk.Color p, vtk.Diffuse p, vtk.Metallic p, vtk.OcclusionStrength p,
   vtk.NormalScale p, vtk.EmissiveFactor p, vtk.BaseColorTexture p,
   vtk.ORMTexture p, vtk.EmissiveTexture p, vtk.NormalTexture p).

Definition but_OcclusionStrength (p : vtk.vtkProperty) :=
  (vtk.Color p, vtk.Diffuse p, vtk.Metallic p, vtk.Roughness p,
   vtk.NormalScale p, vtk.EmissiveFactor p, vtk.BaseColorTexture p,
   vtk.ORMTexture p, vtk.EmissiveTexture p, vtk.NormalTexture p).

Definition but_NormalScale (p : vtk.vtkProperty) :=
  (vtk.Color p, vtk.Diffuse p, vtk.Metallic p, vtk.Roughness p,
   vtk.OcclusionStrength p, vtk.EmissiveFactor p, vtk.BaseColorTexture p,
   vtk.ORMTexture p, vtk.EmissiveTexture p, vtk.NormalTexture p).

(** The call [m], made in the store [h] where the property at [r] is [p],
    prints nothing, raises nothing and ends in a store that differs from
    [h] at [r] only, where the field [field] now holds [v] and the fields
    [others] hold what they held. *)
Definition sets_only {T : Type} (m : py vtk.store) (h : vtk.store) (r : vtk.ref)
    (p : vtk.vtkProperty) (field : vtk.vtkProperty → float)
    (others : vtk.vtkProperty → T) (v : float) : Prop :=
  ∃ h' p',
    m = ([], Ok h')
    ∧ (∀ l, l ≠ r → h' !! l = h !! l)
    ∧ h' !! r = Some (vtk.Property p')
    ∧ field p' = v
    ∧ others p' = others p.

(** The image formats the specification lists as consumed. *)
Definition listed_formats : list string :=
  [".jpg"; ".png"; ".bmp"; ".tiff"; ".pnm"; ".pgm"; ".ppm"; ".hdr"; ".pic"].

(** The formats of the image reader factory: the listed ones without the
    two high dynamic range formats. *)
Definition raster_formats : list string :=
  [".jpg"; ".png"; ".bmp"; ".tiff"; ".pnm"; ".pgm"; ".ppm"].

(** The texture [name] is wanted and the dictionary has no entry for it,
    or an empty one. *)
Definition missing (parameters : gmap string PBR_Skybox_Texturing.value)
    (name : string) : Prop :=
  parameters !! name = None
  ∨ ∃ x, parameters !! name = Some x ∧ PBR_Skybox_Texturing.value_truthy x = false.

(** The suffixes a screenshot can be written under. *)
Definition screenshot_suffixes : list string := [".jpeg"; ".jpg"; ".png"].

(** The message of the exception [SliceOrder.get] raises. *)
Definition no_such_transform (order : string) : string :=
  "No such transform " +:+ Froggie.SliceOrder.quote +:+ order
  +:+ Froggie.SliceOrder.quote +:+ " exists.".

(** The path of the parameter file as [main] settles it: the argument,
    with [.json] for a suffix when it has none. *)
Definition json_path (fn : string) : result Path :=
  let fn_path := pathlib.of_string fn in
  if negb (pystr.nonempty (pathlib.suffix fn_path))
  then pathlib.with_suffix fn_path ".json"
  else Ok fn_path.

(** A path entry of a valid parameter file: a non-empty string that,
    resolved against the directory of the JSON file, names an existing
    file. *)
Definition names_file (fs : filesystem) (fn_path : Path) (s : string) : Prop :=
  pystr.nonempty s = true
  ∧ is_file fs (pathlib.joinpath (pathlib.parent fn_path) s) = true.

(** An item of a valid parameter file: under [cubemap], six such
    entries; under any other path key, one. *)
Definition valid_item (fs : filesystem) (fn_path : Path) (kv : string * json) : Prop :=
  kv.1 ∈ PBR_Skybox_Texturing.allowed_keys_paths →
  if decide (kv.1 = "cubemap") then
    ∃ l, kv.2 = JList (JStr <$> l) ∧ length l = 6 ∧ Forall (names_file fs fn_path) l
  else ∃ s, kv.2 = JStr s ∧ names_file fs fn_path s.

(** A valid parameter file: [fn_path] holds a JSON object, with the
    items [items], whose path-valued entries name existing files.  The
    keys of an object read by [json.load] are distinct. *)
Definition valid_parameter_file (fs : filesystem) (fn_path : Path)
    (items : list (string * json)) : Prop :=
  fs fn_path = Some (RegularFile (Some (JDict items)))
  ∧ NoDup items.*1
  ∧ Forall (valid_item fs fn_path) items.

(** What the loader stores for an item: the value itself under a key
    without a path, the resolved path or paths under a path key, nothing
    under any other key. *)
Definition resolved (fn_path : Path) (v : json) : option Path :=
  match v with
  | JStr s => Some (pathlib.joinpath (pathlib.parent fn_path) s)
  | _ => None
  end.

Definition expected_value (fn_path : Path) (kv : string * json)
    : option PBR_Skybox_Texturing.value :=
  if bool_decide (kv.1 ∈ PBR_Skybox_Texturing.allowed_keys_no_paths) then
    Some (PBR_Skybox_Texturing.VJson kv.2)
  else if bool_decide (kv.1 ∈ PBR_Skybox_Texturing.allowed_keys_paths) then
    match kv.2 with
    | JStr s => PBR_Skybox_Texturing.VPath <$> resolved fn_path kv.2
    | JList l => Some (PBR_Skybox_Texturing.VPaths (omap (resolved fn_path) l))
    | _ => None
    end
  else None.

Definition store_item (fn_path : Path)
    (parameters : gmap string PBR_Skybox_Texturing.value) (kv : string * json)
    : gmap string PBR_Skybox_Texturing.value :=
  match expected_value fn_path kv with
  | Some x => <[kv.1 := x]> parameters
  | None => parameters
  end.

(** A cubemap entry the loader accepts: a non-empty name of an existing
    file, resolved against the directory of the JSON file. *)
Definition entry_ok (fs : filesystem) (fn_path : Path) (s : string) : bool :=
  pystr.nonempty s && is_file fs (pathlib.joinpath (pathlib.parent fn_path) s).

(** The cubemap paths the loader keeps: the resolved non-empty entries. *)
Definition kept_faces (fn_path : Path) (l : list string) : list Path :=
  pathlib.joinpath (pathlib.parent fn_path) <$> List.filter pystr.nonempty l.

(** The dictionary has a non-empty entry for the texture [name]. *)
Definition present (parameters : gmap string PBR_Skybox_Texturing.value)
    (name : string) : bool :=
  match parameters !! name with
  | Some x => PBR_Skybox_Texturing.value_truthy x
  | None => false
  end.

(** The file Froggie reads for a tissue: [<folder>/<tissue>.vtk]. *)
Definition tissue_source (path : Path) (tissue_name : string) : Path :=
  pathlib.mkPath (pathlib.root path) (pathlib.parts path ++ [tissue_name +:+ ".vtk"]).

(** A name that is a single path component without a suffix. *)
Definition plain_name (name : string) : Prop :=
  pathlib.of_string name = pathlib.mkPath "" [name]
  ∧ pathlib.name_suffix name = ""
  ∧ pystr.nonempty name = true.

(** An actor of Froggie with an opacity between 0 and 1 and a colour of
    the lookup table. *)
Definition frog_actor_ok (a : Froggie.actor) : Prop :=
  ∃ o, Froggie.Opacity a = Some o ∧ unit_interval o
       ∧ is_Some (Froggie.DiffuseColor a).

(** [get_texture] makes a texture of the file named [image_path]: it
    exists and has one of the seven raster extensions. *)
Definition loads (fs : filesystem) (image_path : string) : bool :=
  is_file fs (pathlib.of_string image_path)
  && pystr.in_list (pystr.lower (pathlib.suffix (pathlib.of_string image_path)))
       raster_formats.

(** The first of the file names that is not a file of the folder. *)
Definition first_missing (fs : filesystem) (folder_root : Path)
    (file_names : list string) : option string :=
  List.find (λ fn, negb (is_file fs (pathlib.joinpath folder_root fn))) file_names.

(** The loop of Froggie's [main] over the requested tissues, from its
    initial state. *)
Definition frog_loop (fs : filesystem) (path : Path) (tissues : list string)
    : py (option Path * list Froggie.actor * list string) :=
  for_each tissues
    (Froggie.main_tissue fs path Froggie.create_tissue_map Froggie.create_frog_lut)
    (None, [], ["Using the following tissues:"]).

(** What [get_parameters] stores under a key: a JSON value for the keys
    it copies, a path for the path keys, the list of paths for the
    cubemap. *)
Definition shaped (k : string) (x : PBR_Skybox_Texturing.value) : Prop :=
  match x with
  | PBR_Skybox_Texturing.VJson _ => k ∈ PBR_Skybox_Texturing.allowed_keys_no_paths
  | PBR_Skybox_Texturing.VPath _ =>
      k ∈ PBR_Skybox_Texturing.allowed_keys_paths ∧ k ≠ "cubemap"
  | PBR_Skybox_Texturing.VPaths _ => k = "cubemap"
  end.

(** The lines [display_parameters] has for a cubemap: the first path is
    labelled, the others are indented under it. *)
Definition cubemap_lines (l : list Path) : list string :=
  match l with
  | [] => []
  | p :: l =>
      (pystr.ljust 15 "cubemap" +:+ ": " +:+ pathlib.str p)
        :: ((λ p, pystr.spaces 17 +:+ pathlib.str p) <$> l)
  end.

(** The lines it has for the key [k]. *)
Definition shown (repr : PBR_Skybox_Texturing.value → string)
    (parameters : gmap string PBR_Skybox_Texturing.value) (k : string) : list string :=
  match parameters !! k with
  | None => []
  | Some x =>
      if String.eqb k "cubemap" then
        match x with PBR_Skybox_Texturing.VPaths l => cubemap_lines l | _ => [] end
      else [pystr.ljust 15 k +:+ ": " +:+ PBR_Skybox_Texturing.str_value repr x]
  end.

(** The lower-cased suffixes that [in '.hdr .pic'] accepts: the test
    looks for a substring, so the beginnings of the two extensions pass,
    and so does a name without a suffix. *)
Definition hdr_suffixes : list string :=
  [""; ".h"; ".hd"; ".hdr"; ".hdr "; ".p"; ".pi"; ".pic"].

(** What a suffix looks like: empty, or a dot followed by at least one
    character and no further dot. *)
Definition suffix_like (s : string) : bool :=
  match s with
  | EmptyString => true
  | String c r =>
      pystr.is_dot c && pystr.nonempty r
      && match pystr.rfind_dot r with Some _ => false | None => true end
  end.

(** The strings a string starts with, and the strings that occur in it. *)
Fixpoint prefixes (s : string) : list string :=
  "" :: match s with
        | EmptyString => []
        | String c r => String c <$> prefixes r
        end.

Fixpoint substrings (s : string) : list string :=
  prefixes s ++ match s with
                | EmptyString => []
                | String _ r => substrings r
                end.

(** The file has one of the extensions [read_texture] accepts. *)
Definition raster (p : Path) : bool :=
  pystr.in_list (pystr.lower (pathlib.suffix p)) raster_formats.

(** The four textures [main] asks [check_for_missing_textures] for. *)
Definition wanted_textures : list string :=
  ["albedo"; "normal"; "material"; "emissive"].

(** [equirectangular_file_to_texture] gives up on the file: it is not
    one of the three image formats, and the high dynamic range reader
    refuses it or does not name its extension. *)
Definition unreadable (hdr : vtk.vtkHDRReader) (p : Path) : bool :=
  let sfx := pystr.lower (pathlib.suffix p) in
  negb (pystr.in_list sfx [".jpeg"; ".jpg"; ".png"])
  && (negb (vtk.CanReadFile hdr (pathlib.str p))
      || negb (vtk.in_GetFileExtensions hdr sfx)).

End spec.

(** ** Concrete inputs *)

Module fixtures.

(** A file system given by the list of the paths it holds. *)
Definition files (l : list (string * node)) : filesystem :=
  λ p, snd <$> List.find (λ kv, String.eqb (fst kv) (pathlib.str p)) l.

Definition image : node := RegularFile None.

(** The material of an actor as [main] leaves it. *)
Definition material : vtk.vtkProperty :=
  {| vtk.Color := [1.0; 1.0; 1.0]%float;
     vtk.Diffuse := 1.0;
     vtk.Metallic := 0.0;
     vtk.Roughness := 0.3;
     vtk.OcclusionStrength := 1.0;
     vtk.NormalScale := 1.0;
     vtk.EmissiveFactor := [1.0; 1.0; 1.0]%float;
     vtk.BaseColorTexture := Some (vtk.mkTexture "/d/albedo.png");
     vtk.ORMTexture := Some (vtk.mkTexture "/d/orm.png");
     vtk.EmissiveTexture := Some (vtk.mkTexture "/d/emissive.png");
     vtk.NormalTexture := Some (vtk.mkTexture "/d/normal.png") |}.

(** A slider at 0, the actor's property at 1, the tone mapping pass at 2
    and a second slider at 3. *)
Definition scene : vtk.store :=
  <[0 := vtk.SliderWidget 0.5]>
    (<[1 := vtk.Property material]>
       (<[2 := vtk.ToneMappingPass 1.0]>
          (<[3 := vtk.SliderWidget 0.25]> ∅))).

(** Three texture files and a high dynamic range environment. *)
Definition textures : filesystem :=
  files [("/d", Directory); ("/d/albedo.png", image); ("/d/normal.PNG", image);
         ("/d/env.hdr", image)].

(** An installed toolkit, version 9.1.0. *)
Definition vtk_9_1 : vtk.build := vtk.mkBuild (Some 90100000000%Z) 9 1 0.

(** A frog folder with two of the tissues. *)
Definition frog : filesystem :=
  files [("frog", Directory); ("frog/skin.vtk", image); ("frog/liver.vtk", image)].

(** The six faces of a cubemap and the items of a parameter file. *)
Definition faces : list string :=
  ["px.jpg"; "nx.jpg"; "py.jpg"; "ny.jpg"; "pz.jpg"; "nz.jpg"].

Definition params : list (string * json) :=
  [("object", JStr "");
   ("objcolor", JStr "White");
   ("skybox", JBool true);
   ("comment", JInt 3);
   ("albedo", JStr "albedo.png");
   ("normal", JStr "/textures/normal.png");
   ("cubemap", JList (JStr <$> faces))].

(** That parameter file with its textures and cubemap, and two files
    with a malformed cubemap list. *)
Definition skybox : filesystem :=
  files
    [("/d/params.json", RegularFile (Some (JDict params)));
     ("/d/gap.json",
      RegularFile (Some (JDict
        [("cubemap", JList [JStr ""; JStr "absent.jpg"; JStr "py.jpg";
                            JStr "ny.jpg"; JStr "pz.jpg"; JStr "nz.jpg"])])));
     ("/d/five.json",
      RegularFile (Some (JDict
        [("cubemap", JList [JStr "px.jpg"; JStr "nx.jpg"; JStr "py.jpg";
                            JStr "ny.jpg"; JStr "pz.jpg"])])));
     ("/d/albedo.png", image); ("/textures/normal.png", image);
     ("/d/px.jpg", image); ("/d/nx.jpg", image); ("/d/py.jpg", image);
     ("/d/ny.jpg", image); ("/d/pz.jpg", image); ("/d/nz.jpg", image)].


(** A parameter file whose cubemap list names a missing file first and
    has an empty entry later. *)
Definition late_gap : filesystem :=
  files
    [("/d/late.json",
      RegularFile (Some (JDict
        [("cubemap", JList [JStr "absent.jpg"; JStr "nx.jpg"; JStr "";
                            JStr "ny.jpg"; JStr "pz.jpg"; JStr "nz.jpg"])])));
     ("/d/nx.jpg", image); ("/d/ny.jpg", image); ("/d/pz.jpg", image);
     ("/d/nz.jpg", image)].


(** A skybox folder with its six faces and two textures, and a second
    folder that lacks a face. *)
Definition skyboxes : filesystem :=
  files
    [("skybox2", Directory);
     ("skybox2/posx.jpg", image); ("skybox2/negx.jpg", image);
     ("skybox2/posy.jpg", image); ("skybox2/negy.jpg", image);
     ("skybox2/posz.jpg", image); ("skybox2/negz.jpg", image);
     ("skybox0", Directory);
     ("skybox0/right.jpg", image); ("skybox0/left.jpg", image);
     ("skybox0/bottom.jpg", image); ("skybox0/front.jpg", image);
     ("skybox0/back.jpg", image);
     ("sky", Directory);
     ("albedo.png", image); ("emissive.png", image); ("normal.hdr", image)].

Definition vtk_8_90 : vtk.build := vtk.mkBuild None 8 90 0.

(** A reader of high dynamic range images that accepts one file and
    names the two extensions of the format. *)
Definition hdr_reader : vtk.vtkHDRReader :=
  vtk.mkHDRReader (String.eqb "/s/env.hdr")
    (λ sfx, pystr.in_list sfx [".hdr"; ".pic"]).

(** A stand-in for Python's [repr]. *)
Definition repr (x : PBR_Skybox_Texturing.value) : string := "<repr>".

Definition studio_items : list (string * json) :=
  [("object", JStr "Torus");
   ("albedo", JStr "albedo.png");
   ("normal", JStr "normal.png");
   ("material", JStr "orm.hdr");
   ("emissive", JStr "emissive.png")].

(** Two parameter files with the same textures: one without a [skybox]
    entry, one with cubemap files and no skybox. *)
Definition studio : filesystem :=
  files
    [("/s/bare.json",
      RegularFile (Some (JDict (studio_items ++ [("equirectangular", JStr "env.hdr")]))));
     ("/s/faces.json",
      RegularFile (Some (JDict (studio_items
                                  ++ [("skybox", JBool false);
                                      ("cubemap", JList (JStr <$> faces))]))));
     ("/s/albedo.png", image); ("/s/normal.png", image); ("/s/orm.hdr", image);
     ("/s/emissive.png", image); ("/s/env.hdr", image);
     ("/s/px.jpg", image); ("/s/nx.jpg", image); ("/s/py.jpg", image);
     ("/s/ny.jpg", image); ("/s/pz.jpg", image); ("/s/nz.jpg", image)].

(** Two loaded dictionaries: cubemap files without a skybox, and a high
    dynamic range environment with one. *)
Definition with_faces : gmap string PBR_Skybox_Texturing.value :=
  <["skybox" := PBR_Skybox_Texturing.VJson (JBool false)]>
    (<["cubemap" := PBR_Skybox_Texturing.VPaths
                      (pathlib.of_string <$> ["/s/px.jpg"; "/s/nx.jpg"])]> ∅).

Definition with_hdr : gmap string PBR_Skybox_Texturing.value :=
  <["skybox" := PBR_Skybox_Texturing.VJson (JBool true)]>
    (<["equirectangular" := PBR_Skybox_Texturing.VPath
                              (pathlib.of_string "/s/env.hdr")]> ∅).

End fixtures.

(** * Properties *)

(** ** The version gate *)




(** ** The surface *)

Lemma in_surfaces_inv (name : string) (src : PhysicallyBasedRendering.source) :
  (name, src) ∈ spec.surfaces →
  name ∈ PhysicallyBasedRendering.available_surfaces
  ∧ PhysicallyBasedRendering.main_surface name = src.
Proof.
  unfold spec.surfaces. rewrite !elem_of_cons, elem_of_nil.
  intros H. repeat (destruct H as [H|H]); try done;
    injection H as -> ->; (split; [by vm_compute | reflexivity]).
Qed.

Lemma in_surfaces_json_inv (name : string) (src : PBR_Skybox_Texturing.source) :
  (name, src) ∈ spec.surfaces_json →
  name ∈ PBR_Skybox_Texturing.available_surfaces
  ∧ PBR_Skybox_Texturing.main_surface name = src.
Proof.
  unfold spec.surfaces_json. rewrite !elem_of_cons, elem_of_nil.
  intros H. repeat (destruct H as [H|H]); try done;
    injection H as -> ->; (split; [by vm_compute | reflexivity]).
Qed.

Lemma lower_char_idemp (c : ascii) : pystr.lower_char (pystr.lower_char c) = pystr.lower_char c.
Proof. destruct c as [[] [] [] [] [] [] [] []]; reflexivity. Qed.

Lemma lower_idemp (s : string) : pystr.lower (pystr.lower s) = pystr.lower s.
Proof. induction s as [|c s IH]; simpl; [done|]. by rewrite lower_char_idemp, IH. Qed.

Lemma main_surface_lower (s : string) :
  PhysicallyBasedRendering.main_surface (pystr.lower s)
  = PhysicallyBasedRendering.main_surface s.
Proof. unfold PhysicallyBasedRendering.main_surface. by rewrite lower_idemp. Qed.

Lemma main_surface_json_lower (s : string) :
  PBR_Skybox_Texturing.main_surface (pystr.lower s)
  = PBR_Skybox_Texturing.main_surface s.
Proof. unfold PBR_Skybox_Texturing.main_surface. by rewrite lower_idemp. Qed.

(** C9: for every requested surface string, when its lower-cased form is
    not one of the available surfaces of the script, the Boy surface is
    built, nothing is printed and nothing is raised; an available name
    selects its own factory.  The selection is a total function of the
    string. *)
Theorem surface_fallback (s : string) :
  (pystr.lower s ∉ PhysicallyBasedRendering.available_surfaces →
     PhysicallyBasedRendering.main_surface s = PhysicallyBasedRendering.get_boy)
  ∧ (pystr.lower s ∉ PBR_Skybox_Texturing.available_surfaces →
     PBR_Skybox_Texturing.main_surface s = PBR_Skybox_Texturing.get_boy)
  ∧ (∀ src, (pystr.lower s, src) ∈ spec.surfaces →
     PhysicallyBasedRendering.main_surface s = src)
  ∧ (∀ src, (pystr.lower s, src) ∈ spec.surfaces_json →
     PBR_Skybox_Texturing.main_surface s = src)
  ∧ (∀ parameters : gmap string PBR_Skybox_Texturing.value,
       parameters !! "object" = Some (PBR_Skybox_Texturing.VJson (JStr s)) →
       PBR_Skybox_Texturing.main_source parameters
       = ([], Ok (PBR_Skybox_Texturing.main_surface s))).
Proof.
  split; [|split; [|split; [|split]]].
  - intros Hout. unfold PhysicallyBasedRendering.main_surface. cbv zeta.
    by rewrite (bool_decide_eq_false_2 _ Hout).
  - intros Hout. unfold PBR_Skybox_Texturing.main_surface. cbv zeta.
    by rewrite (bool_decide_eq_false_2 _ Hout).
  - intros src Hin. rewrite <- main_surface_lower.
    by apply in_surfaces_inv.
  - intros src Hin. rewrite <- main_surface_json_lower.
    by apply in_surfaces_json_inv.
  - intros parameters Hobj. unfold PBR_Skybox_Texturing.main_source.
    by rewrite Hobj.
Qed.

Lemma surface_fallback_witness :
  PhysicallyBasedRendering.main_surface "ClippedSphere" = PhysicallyBasedRendering.get_boy
  ∧ PBR_Skybox_Texturing.main_surface "Klein Bottle" = PBR_Skybox_Texturing.get_boy
  ∧ PhysicallyBasedRendering.main_surface "TORUS" = PhysicallyBasedRendering.get_torus
  ∧ PBR_Skybox_Texturing.main_surface "ClippedSphere"
    = PBR_Skybox_Texturing.get_clipped_sphere.
Proof.
  split; [|split; [|split]].
  - destruct (surface_fallback "ClippedSphere") as (Hboy & _).
    apply Hboy. compute_done.
  - destruct (surface_fallback "Klein Bottle") as (_ & Hboy & _).
    apply Hboy. compute_done.
  - destruct (surface_fallback "TORUS") as (_ & _ & Hown & _).
    apply Hown. change (pystr.lower "TORUS") with "torus".
    unfold spec.surfaces. set_solver.
  - destruct (surface_fallback "ClippedSphere") as (_ & _ & _ & Hown & _).
    apply Hown. change (pystr.lower "ClippedSphere") with "clippedsphere".
    unfold spec.surfaces_json. set_solver.
Defined.

(** ** The tissue table *)

(** C6: every entry of the table [create_tissue_map] returns has a colour
    index between 0 and 16 that is an index of the 17-entry table of
    [create_frog_lut], a transform code that [SliceOrder.get] answers
    with a transform and no exception, and an opacity between 0 and 1. *)
Theorem tissue_map_entries :
  length Froggie.create_frog_lut = 17
  ∧ map_Forall (λ _ t,
      (0 ≤ Froggie.lut_index t ≤ 16)%Z
      ∧ is_Some (Froggie.create_frog_lut !! Z.to_nat (Froggie.lut_index t))
      ∧ Froggie.transform t ∈ spec.slice_orders
      ∧ (∃ tr, Froggie.SliceOrder.get (Froggie.transform t) = ([], Ok (Some tr)))
      ∧ spec.unit_interval (Froggie.opacity t))
    Froggie.create_tissue_map.
Proof.
  split; [reflexivity|].
  unfold Froggie.create_tissue_map. cbv zeta.
  repeat (apply map_Forall_insert_2;
          [ cbn [Froggie.lut_index Froggie.transform Froggie.opacity];
            split; [lia|]; split; [by eexists|];
            split; [unfold spec.slice_orders; set_solver|];
            split; [by eexists|]; split; reflexivity | ]).
  apply map_Forall_empty.
Qed.

(** ** The slider callbacks *)

Section sliders.

Variables (h : vtk.store) (caller r : vtk.ref) (v : float) (p : vtk.vtkProperty).
Hypothesis slider : h !! caller = Some (vtk.SliderWidget v).
Hypothesis property : h !! r = Some (vtk.Property p).

Lemma set_property_frame {T : Type} (f : float → vtk.vtkProperty → vtk.vtkProperty)
    (field : vtk.vtkProperty → float) (others : vtk.vtkProperty → T) :
  field (f v p) = v → others (f v p) = others p →
  spec.sets_only (value ← vtk.GetValue h caller; vtk.set_property (f value) r h)
                 h r p field others v.
Proof using slider property.
  intros Hfield Hothers. exists (<[r := vtk.Property (f v p)]> h), (f v p).
  unfold vtk.GetValue, vtk.set_property. rewrite slider, property.
  repeat split; try done.
  - intros l Hl. by rewrite lookup_insert_ne.
  - by rewrite lookup_insert_eq.
Qed.

End sliders.

(** C8: called on a slider whose current value is [v], each slider
    callback of either script stores [v] in its one field of the actor
    property it was given (metallic, roughness, occlusion strength, normal
    scale) and changes nothing else: the other fields of that property
    and every other object of the store are as before, and nothing is
    printed or raised. *)
Theorem slider_callbacks_frame (h : vtk.store) (caller r : vtk.ref) (v : float)
    (p : vtk.vtkProperty) :
  h !! caller = Some (vtk.SliderWidget v) →
  h !! r = Some (vtk.Property p) →
  spec.sets_only
    (PBR_Skybox_Texturing.call_SliderCallbackMetallic
       {| PBR_Skybox_Texturing.metallic_actor_property := r |} caller h)
    h r p vtk.Metallic spec.but_Metallic v
  ∧ spec.sets_only
    (PBR_Skybox_Texturing.call_SliderCallbackRoughness
       {| PBR_Skybox_Texturing.roughness_actorProperty := r |} caller h)
    h r p vtk.Roughness spec.but_Roughness v
  ∧ spec.sets_only
    (PBR_Skybox_Texturing.call_SliderCallbackOcclusionStrength
       {| PBR_Skybox_Texturing.occlusion_actorProperty := r |} caller h)
    h r p vtk.OcclusionStrength spec.but_OcclusionStrength v
  ∧ spec.sets_only
    (PBR_Skybox_Texturing.call_SliderCallbackNormalScale
       {| PBR_Skybox_Texturing.normal_actorProperty := r |} caller h)
    h r p vtk.NormalScale spec.but_NormalScale v
  ∧ spec.sets_only
    (PhysicallyBasedRendering.call_SliderCallbackMetallic
       {| PhysicallyBasedRendering.metallic_actor_property := r |} caller h)
    h r p vtk.Metallic spec.but_Metallic v
  ∧ spec.sets_only
    (PhysicallyBasedRendering.call_SliderCallbackRoughness
       {| PhysicallyBasedRendering.roughness_actorProperty := r |} caller h)
    h r p vtk.Roughness spec.but_Roughness v
  ∧ spec.sets_only
    (PhysicallyBasedRendering.call_SliderCallbackOcclusionStrength
       {| PhysicallyBasedRendering.occlusion_actorProperty := r |} caller h)
    h r p vtk.OcclusionStrength spec.but_OcclusionStrength v
  ∧ spec.sets_only
    (PhysicallyBasedRendering.call_SliderCallbackNormalScale
       {| PhysicallyBasedRendering.normal_actorProperty := r |} caller h)
    h r p vtk.NormalScale spec.but_NormalScale v.
Proof.
  intros Hslider Hproperty.
  repeat split.
  - exact (set_property_frame h caller r v p Hslider Hproperty
             vtk.with_Metallic vtk.Metallic spec.but_Metallic eq_refl eq_refl).
  - exact (set_property_frame h caller r v p Hslider Hproperty
             vtk.with_Roughness vtk.Roughness spec.but_Roughness eq_refl eq_refl).
  - exact (set_property_frame h caller r v p Hslider Hproperty
             vtk.with_OcclusionStrength vtk.OcclusionStrength
             spec.but_OcclusionStrength eq_refl eq_refl).
  - exact (set_property_frame h caller r v p Hslider Hproperty
             vtk.with_NormalScale vtk.NormalScale spec.but_NormalScale eq_refl eq_refl).
  - exact (set_property_frame h caller r v p Hslider Hproperty
             vtk.with_Metallic vtk.Metallic spec.but_Metallic eq_refl eq_refl).
  - exact (set_property_frame h caller r v p Hslider Hproperty
             vtk.with_Roughness vtk.Roughness spec.but_Roughness eq_refl eq_refl).
  - exact (set_property_frame h caller r v p Hslider Hproperty
             vtk.with_OcclusionStrength vtk.OcclusionStrength
             spec.but_OcclusionStrength eq_refl eq_refl).
  - exact (set_property_frame h caller r v p Hslider Hproperty
             vtk.with_NormalScale vtk.NormalScale spec.but_NormalScale eq_refl eq_refl).
Qed.

Lemma slider_callbacks_frame_witness :
  spec.sets_only
    (PBR_Skybox_Texturing.call_SliderCallbackRoughness
       {| PBR_Skybox_Texturing.roughness_actorProperty := 1 |} 0 fixtures.scene)
    fixtures.scene 1 fixtures.material vtk.Roughness spec.but_Roughness 0.5
  ∧ spec.sets_only
    (PhysicallyBasedRendering.call_SliderCallbackMetallic
       {| PhysicallyBasedRendering.metallic_actor_property := 1 |} 3 fixtures.scene)
    fixtures.scene 1 fixtures.material vtk.Metallic spec.but_Metallic 0.25.
Proof.
  split.
  - destruct (slider_callbacks_frame fixtures.scene 0 1 0.5 fixtures.material)
      as (_ & Hroughness & _); [reflexivity | reflexivity | exact Hroughness].
  - destruct (slider_callbacks_frame fixtures.scene 3 1 0.25 fixtures.material)
      as (_ & _ & _ & _ & Hmetallic & _); [reflexivity | reflexivity | exact Hmetallic].
Defined.

(** ** Running [py] computations *)

Lemma bind_ok {A B : Type} (f : A → py B) (out : list string) (a : A) :
  mbind f (out, Ok a) = (out ++ stdout (f a), outcome (f a)).
Proof. unfold mbind, py_bind, stdout, outcome. by destruct (f a). Qed.

Lemma bind_ret {A B : Type} (f : A → py B) (a : A) : mbind f (mret a) = f a.
Proof. unfold mbind, py_bind, mret, py_ret. by destruct (f a). Qed.

Lemma bind_raise {A B : Type} (f : A → py B) (out : list string) (e : exn) :
  mbind f (out, Raise e) = (out, Raise e).
Proof. reflexivity. Qed.

Lemma in_list_true (s : string) (l : list string) :
  pystr.in_list s l = true ↔ s ∈ l.
Proof.
  unfold pystr.in_list. rewrite existsb_exists, list_elem_of_In. split.
  - intros (x & Hin & Heq). apply String.eqb_eq in Heq. by subst.
  - intros Hin. exists s. split; [done|]. apply String.eqb_refl.
Qed.

Lemma in_list_false (s : string) (l : list string) :
  pystr.in_list s l = false ↔ s ∉ l.
Proof.
  rewrite <- in_list_true. destruct (pystr.in_list s l); split; done.
Qed.

(** ** Missing textures *)

Lemma check_texture_outcome (parameters : gmap string PBR_Skybox_Texturing.value)
    (name : string) (b : bool) :
  ∃ out b', PBR_Skybox_Texturing.check_texture parameters name b = (out, Ok b')
    ∧ (b = false → b' = false)
    ∧ (spec.missing parameters name →
       b' = false
       ∧ (("Missing texture: " +:+ name) ∈ out ∨ ("No texture path for: " +:+ name) ∈ out)).
Proof.
  unfold PBR_Skybox_Texturing.check_texture, spec.missing.
  destruct (parameters !! name) as [x|] eqn:Hx.
  - destruct (PBR_Skybox_Texturing.value_truthy x) eqn:Ht; simpl.
    + exists [], b. split; [done|]. split; [done|].
      intros [Hnone|(y & Hy & Hfalse)]; [done|]. congruence.
    + eexists _, false. split; [done|]. split; [done|].
      intros _. split; [done|]. right. set_solver.
  - eexists _, false. simpl. split; [done|]. split; [done|].
    intros _. split; [done|]. left. set_solver.
Qed.

Lemma check_textures_outcome (parameters : gmap string PBR_Skybox_Texturing.value)
    (wanted : list string) (b : bool) :
  ∃ out b', for_each wanted (PBR_Skybox_Texturing.check_texture parameters) b = (out, Ok b')
    ∧ (b = false → b' = false)
    ∧ (∀ name, name ∈ wanted → spec.missing parameters name →
       b' = false
       ∧ (("Missing texture: " +:+ name) ∈ out ∨ ("No texture path for: " +:+ name) ∈ out)).
Proof.
  revert b. induction wanted as [|x wanted IH]; intros b; simpl.
  - exists [], b. split; [done|]. split; [done|].
    intros name Hin. by apply elem_of_nil in Hin.
  - destruct (check_texture_outcome parameters x b) as (o1 & b1 & -> & Hb1 & Hx).
    destruct (IH b1) as (o2 & b2 & Hrest & Hb2 & Hwanted).
    rewrite bind_ok, Hrest. unfold stdout, outcome. simpl.
    exists (o1 ++ o2), b2. split; [done|]. split; [by auto|].
    intros name Hin Hmiss. apply elem_of_cons in Hin as [->|Hin].
    + destruct (Hx Hmiss) as [-> Hout]. split; [by auto|].
      destruct Hout; [left|right]; apply elem_of_app; by left.
    + destruct (Hwanted name Hin Hmiss) as [-> Hout]. split; [done|].
      destruct Hout; [left|right]; apply elem_of_app; by right.
Qed.

(** C5: a missing texture path is reported.  When a wanted texture has no
    entry in the parameter dictionary, or an empty one,
    [check_for_missing_textures] prints a message that names it and
    returns False; when the path given to [get_texture] is not an
    existing file it prints a message and returns None. *)
Theorem missing_texture_reported :
  (∀ (parameters : gmap string PBR_Skybox_Texturing.value) (wanted : list string)
     (name : string),
     name ∈ wanted → spec.missing parameters name →
     ∃ out,
       PBR_Skybox_Texturing.check_for_missing_textures parameters wanted = (out, Ok false)
       ∧ (("Missing texture: " +:+ name) ∈ out ∨ ("No texture path for: " +:+ name) ∈ out))
  ∧ (∀ (fs : filesystem) (image_path : string),
       is_file fs (pathlib.of_string image_path) = false →
       PhysicallyBasedRendering.get_texture fs image_path
       = (["Nonexistent texture file: " +:+ pathlib.str (pathlib.of_string image_path)],
          Ok None)).
Proof.
  split.
  - intros parameters wanted name Hin Hmiss.
    unfold PBR_Skybox_Texturing.check_for_missing_textures.
    destruct (check_textures_outcome parameters wanted true) as (out & b & -> & _ & Hw).
    destruct (Hw name Hin Hmiss) as [-> Hout]. by exists out.
  - intros fs image_path Hfile. unfold PhysicallyBasedRendering.get_texture.
    cbv zeta. by rewrite Hfile.
Qed.

Lemma missing_texture_reported_witness :
  (∃ out,
     PBR_Skybox_Texturing.check_for_missing_textures
       (<["albedo" := PBR_Skybox_Texturing.VPath (pathlib.of_string "/d/albedo.png")]> ∅)
       ["albedo"; "normal"; "material"; "emissive"] = (out, Ok false)
     ∧ ("Missing texture: normal" ∈ out ∨ "No texture path for: normal" ∈ out))
  ∧ PhysicallyBasedRendering.get_texture fixtures.textures "/d/material.png"
    = (["Nonexistent texture file: /d/material.png"], Ok None).
Proof.
  destruct missing_texture_reported as [Hcheck Hget]. split.
  - apply (Hcheck _ _ "normal").
    + set_solver.
    + left. reflexivity.
  - apply (Hget fixtures.textures "/d/material.png"). reflexivity.
Defined.

(** ** The formats of the texture loaders *)

(** C3, as stated, fails: [.hdr] is a listed format, the file exists, and
    both loaders print the wrong-extension message and return None. *)
Lemma texture_formats_counterexample :
  pystr.lower (pathlib.suffix (pathlib.of_string "/d/env.hdr")) ∈ spec.listed_formats
  ∧ is_file fixtures.textures (pathlib.of_string "/d/env.hdr") = true
  ∧ PBR_Skybox_Texturing.read_texture (pathlib.of_string "/d/env.hdr")
    = (["Unable to read the texture file (wrong extension): /d/env.hdr"], Ok None)
  ∧ PhysicallyBasedRendering.get_texture fixtures.textures "/d/env.hdr"
    = (["Unable to read the texture file (wrong extension): /d/env.hdr"], Ok None)
  ∧ ¬ (∀ p : Path,
         pystr.lower (pathlib.suffix p) ∈ spec.listed_formats →
         ∃ t, outcome (PBR_Skybox_Texturing.read_texture p) = Ok (Some t)).
Proof.
  split; [|split; [|split; [|split]]]; try reflexivity.
  - change (pystr.lower (pathlib.suffix (pathlib.of_string "/d/env.hdr"))) with ".hdr".
    compute_done.
  - intros Hall. destruct (Hall (pathlib.of_string "/d/env.hdr")) as [t Ht].
    + change (pystr.lower (pathlib.suffix (pathlib.of_string "/d/env.hdr"))) with ".hdr".
      compute_done.
    + discriminate Ht.
Qed.

(** C3, amended: the two loaders take the seven formats of the image
    reader factory.  For a path whose lower-cased extension is one of
    .jpg, .png, .bmp, .tiff, .pnm, .pgm, .ppm, [read_texture] returns a
    texture, and so does [get_texture] when the file exists; for every
    other extension, .hdr and .pic among them, each prints one message
    and returns None. *)
Theorem texture_formats :
  (∀ p : Path,
     pystr.lower (pathlib.suffix p) ∈ spec.raster_formats →
     PBR_Skybox_Texturing.read_texture p
     = ([], Ok (Some (vtk.mkTexture (pathlib.str p)))))
  ∧ (∀ p : Path,
       pystr.lower (pathlib.suffix p) ∉ spec.raster_formats →
       PBR_Skybox_Texturing.read_texture p
       = (["Unable to read the texture file (wrong extension): " +:+ pathlib.str p],
          Ok None))
  ∧ (∀ (fs : filesystem) (image_path : string),
       is_file fs (pathlib.of_string image_path) = true →
       pystr.lower (pathlib.suffix (pathlib.of_string image_path)) ∈ spec.raster_formats →
       PhysicallyBasedRendering.get_texture fs image_path
       = ([], Ok (Some (vtk.mkTexture (pathlib.str (pathlib.of_string image_path))))))
  ∧ (∀ (fs : filesystem) (image_path : string),
       pystr.lower (pathlib.suffix (pathlib.of_string image_path)) ∉ spec.raster_formats →
       (∃ line, PhysicallyBasedRendering.get_texture fs image_path = ([line], Ok None)))
  ∧ (".hdr" ∉ spec.raster_formats) ∧ (".pic" ∉ spec.raster_formats).
Proof.
  split; [|split; [|split; [|split; [|split]]]].
  - intros p Hin. unfold PBR_Skybox_Texturing.read_texture. cbv zeta.
    apply in_list_true in Hin.
    unfold spec.raster_formats in Hin. unfold PBR_Skybox_Texturing.valid_extensions.
    by rewrite Hin.
  - intros p Hout. unfold PBR_Skybox_Texturing.read_texture. cbv zeta.
    apply in_list_false in Hout.
    unfold spec.raster_formats in Hout. unfold PBR_Skybox_Texturing.valid_extensions.
    by rewrite Hout.
  - intros fs image_path Hfile Hin. unfold PhysicallyBasedRendering.get_texture.
    cbv zeta. rewrite Hfile. apply in_list_true in Hin.
    unfold spec.raster_formats in Hin. unfold PhysicallyBasedRendering.valid_extensions.
    by rewrite Hin.
  - intros fs image_path Hout. unfold PhysicallyBasedRendering.get_texture.
    cbv zeta. apply in_list_false in Hout.
    unfold spec.raster_formats in Hout. unfold PhysicallyBasedRendering.valid_extensions.
    rewrite Hout. destruct (is_file fs (pathlib.of_string image_path)); by eexists.
  - compute_done.
  - compute_done.
Qed.

Lemma texture_formats_witness :
  PBR_Skybox_Texturing.read_texture (pathlib.of_string "/d/normal.PNG")
  = ([], Ok (Some (vtk.mkTexture "/d/normal.PNG")))
  ∧ PBR_Skybox_Texturing.read_texture (pathlib.of_string "/d/env.pic")
    = (["Unable to read the texture file (wrong extension): /d/env.pic"], Ok None)
  ∧ PhysicallyBasedRendering.get_texture fixtures.textures "/d/albedo.png"
    = ([], Ok (Some (vtk.mkTexture "/d/albedo.png")))
  ∧ ∃ line, PhysicallyBasedRendering.get_texture fixtures.textures "/d/notes.txt"
            = ([line], Ok None).
Proof.
  destruct texture_formats as (Hread & Hreject & Hget & Hget_reject & _).
  split; [|split; [|split]].
  - apply (Hread (pathlib.of_string "/d/normal.PNG")).
    change (pystr.lower (pathlib.suffix (pathlib.of_string "/d/normal.PNG"))) with ".png".
    compute_done.
  - apply (Hreject (pathlib.of_string "/d/env.pic")).
    change (pystr.lower (pathlib.suffix (pathlib.of_string "/d/env.pic"))) with ".pic".
    compute_done.
  - apply (Hget fixtures.textures "/d/albedo.png").
    + reflexivity.
    + change (pystr.lower (pathlib.suffix (pathlib.of_string "/d/albedo.png"))) with ".png".
      compute_done.
  - apply (Hget_reject fixtures.textures "/d/notes.txt").
    change (pystr.lower (pathlib.suffix (pathlib.of_string "/d/notes.txt"))) with ".txt".
    compute_done.
Defined.

(** ** Suffixes *)

Lemma append_nil (b : string) : "" +:+ b = b.
Proof. reflexivity. Qed.

Lemma append_cons (c : ascii) (a b : string) : String c a +:+ b = String c (a +:+ b).
Proof. reflexivity. Qed.

Lemma length_append (a b : string) :
  String.length (a +:+ b) = String.length a + String.length b.
Proof.
  induction a as [|c a IH]; [done|].
  rewrite append_cons. simpl. by rewrite IH.
Qed.

Lemma rfind_dot_append (a b : string) :
  pystr.rfind_dot (a +:+ b)
  = match pystr.rfind_dot b with
    | Some i => Some (String.length a + i)
    | None => pystr.rfind_dot a
    end.
Proof.
  induction a as [|c a IH].
  - rewrite append_nil. by destruct (pystr.rfind_dot b).
  - rewrite append_cons. simpl. rewrite IH. by destruct (pystr.rfind_dot b).
Qed.

Lemma drop_append (a b : string) : pystr.drop (String.length a) (a +:+ b) = b.
Proof.
  induction a as [|c a IH]; [by destruct b|].
  rewrite append_cons. simpl. exact IH.
Qed.

Lemma rfind_dot_lt (s : string) (i : nat) :
  pystr.rfind_dot s = Some i → i < String.length s.
Proof.
  revert i. induction s as [|c s IH]; simpl; intros i; [done|].
  destruct (pystr.rfind_dot s) as [j|].
  - intros [= <-]. specialize (IH j eq_refl). lia.
  - destruct (pystr.is_dot c); intros [= <-]. lia.
Qed.

Lemma length_drop (i : nat) (s : string) :
  String.length (pystr.drop i s) = String.length s - i.
Proof.
  revert s. induction i as [|i IH]; intros s; simpl; [lia|].
  destruct s as [|c s]; simpl; [done|]. apply IH.
Qed.

Lemma take_nonempty (i : nat) (s : string) :
  0 < i → pystr.nonempty s = true → pystr.nonempty (pystr.take i s) = true.
Proof. destruct i, s; simpl; try done; lia. Qed.

(** A name that ends in one of the three suffixes has that suffix, as
    long as something precedes it. *)
Lemma name_suffix_append (stem ext : string) :
  pystr.nonempty stem = true →
  pystr.rfind_dot ext = Some 0 → 2 ≤ String.length ext →
  pathlib.name_suffix (stem +:+ ext) = ext.
Proof.
  intros Hstem Hdot Hlen. unfold pathlib.name_suffix.
  rewrite rfind_dot_append, Hdot, length_append, Nat.add_0_r, drop_append.
  assert (0 < String.length stem) by (destruct stem; simpl in *; [done | lia]).
  assert ((0 <? String.length stem) = true) as -> by (apply Nat.ltb_lt; lia).
  assert ((String.length stem <? String.length stem + String.length ext - 1) = true)
    as -> by (apply Nat.ltb_lt; lia).
  done.
Qed.

(** What [with_suffix] keeps of the old name is not empty. *)
Lemma stem_nonempty (nm : string) :
  pystr.nonempty nm = true →
  pystr.nonempty (pathlib.name_suffix nm) = true →
  pystr.nonempty
    (pystr.take (String.length nm - String.length (pathlib.name_suffix nm)) nm) = true.
Proof.
  intros Hnm. unfold pathlib.name_suffix.
  destruct (pystr.rfind_dot nm) as [i|] eqn:Hi; [|done].
  destruct (0 <? i) eqn:Hpos; [|done].
  destruct (i <? String.length nm - 1) eqn:Hlt; [|done]. simpl. intros _.
  apply Nat.ltb_lt in Hpos, Hlt. rewrite length_drop.
  apply take_nonempty; [lia | done].
Qed.

Lemma with_suffix_suffix (q p : Path) (ext : string) :
  ext ∈ PBR_Skybox_Texturing.valid_suffixes →
  pathlib.with_suffix q ext = Ok p →
  pathlib.suffix p = ext.
Proof.
  intros Hext.
  assert (pystr.has_sep ext = false ∧ pystr.nonempty ext = true
          ∧ pystr.startswith_dot ext = true ∧ String.eqb ext "." = false
          ∧ pystr.rfind_dot ext = Some 0 ∧ 2 ≤ String.length ext)
    as (Hsep & Hne & Hstart & Hdot & Hrfind & Hlen).
  { unfold PBR_Skybox_Texturing.valid_suffixes in Hext.
    rewrite !elem_of_cons, elem_of_nil in Hext.
    destruct Hext as [->|[->|[->|[]]]]; repeat split; simpl; lia. }
  unfold pathlib.with_suffix. rewrite Hsep, Hne, Hstart, Hdot. simpl.
  destruct (pystr.nonempty (pathlib.name q)) eqn:Hname; simpl; [|done].
  intros [= <-]. unfold pathlib.suffix at 1, pathlib.name at 1. simpl.
  rewrite last_last.
  destruct (pystr.nonempty (pathlib.suffix q)) eqn:Hold; simpl.
  - apply name_suffix_append; [|done..]. by apply stem_nonempty.
  - by apply name_suffix_append.
Qed.

(** ** The screenshot *)

(** The extension [PrintCallback] settles on, from the suffix of the
    absolute path. *)
Lemma chosen_extension (given : string) :
  let ext := if pystr.nonempty given then pystr.lower given else ".png" in
  let ext := if negb (pystr.in_list ext PBR_Skybox_Texturing.valid_suffixes)
             then ".png" else ext in
  ext ∈ spec.screenshot_suffixes
  ∧ (pystr.lower given ∉ spec.screenshot_suffixes → ext = ".png")
  ∧ (pystr.lower given ∈ spec.screenshot_suffixes → ext = pystr.lower given).
Proof.
  change PBR_Skybox_Texturing.valid_suffixes with spec.screenshot_suffixes.
  destruct given as [|c given].
  - simpl. split; [compute_done|]. split; [done|].
    intros Hin. apply in_list_true in Hin. discriminate Hin.
  - cbn [pystr.nonempty].
    destruct (pystr.in_list (pystr.lower (String c given)) spec.screenshot_suffixes)
      eqn:Hin; cbn [negb].
    + apply in_list_true in Hin. by repeat split.
    + apply in_list_false in Hin. split; [compute_done|]. by split.
Qed.

Lemma last_append {A : Type} (l1 l2 : list A) (d : A) :
  l2 ≠ [] → List.last (l1 ++ l2) d = List.last l2 d.
Proof.
  intros Hne. induction l1 as [|x l1 IH]; [done|].
  simpl. rewrite IH. destruct (l1 ++ l2) eqn:Happ; [|done].
  apply app_eq_nil in Happ as [_ ->]. done.
Qed.

(** Making a path absolute keeps its suffix, unless the path names no
    file at all (an empty name, or dots and slashes only). *)
Lemma suffix_absolute (cwd p : Path) :
  pathlib.parts p ≠ [] → pathlib.suffix (pathlib.absolute cwd p) = pathlib.suffix p.
Proof.
  intros Hparts. unfold pathlib.absolute.
  destruct (pystr.nonempty (pathlib.root p)); [done|].
  unfold pathlib.suffix, pathlib.name. cbn [pathlib.parts].
  by rewrite last_append.
Qed.

(** C7: a screenshot is written only for the key code 'k'.  The file
    written has suffix .jpeg, .jpg or .png: the lower-cased suffix of the
    given name when that is one of the three, and .png when the name has
    no suffix or another one.  The JPEG writer is used exactly for .jpeg
    and .jpg, the PNG writer otherwise.  The suffix of the given name is
    read off its absolute path, which has the same suffix whenever the
    name has a last component. *)
Theorem screenshot_suffix (cwd : Path) (caller : vtk.ref) (file_name : string)
    (quality : Z) (rgba : bool) (out : list string)
    (self : PBR_Skybox_Texturing.PrintCallback) (key_code : string) (w : vtk.written) :
  PBR_Skybox_Texturing.init_PrintCallback cwd caller file_name quality rgba = (out, Ok self) →
  outcome (PBR_Skybox_Texturing.call_PrintCallback self key_code) = Ok (Some w) →
  let given :=
    pystr.lower (pathlib.suffix (pathlib.absolute cwd (pathlib.of_string file_name))) in
  let written := pathlib.suffix (vtk.written_to w) in
  key_code = "k"
  ∧ PBR_Skybox_Texturing.path self = Some (vtk.written_to w)
  ∧ (pathlib.parts (pathlib.of_string file_name) ≠ [] →
     given = pystr.lower (pathlib.suffix (pathlib.of_string file_name)))
  ∧ written ∈ spec.screenshot_suffixes
  ∧ (given ∉ spec.screenshot_suffixes → written = ".png")
  ∧ (given ∈ spec.screenshot_suffixes → written = given)
  ∧ (vtk.written_by w = vtk.vtkJPEGWriter ↔ written = ".jpeg" ∨ written = ".jpg")
  ∧ (vtk.written_by w = vtk.vtkPNGWriter ↔ ¬ (written = ".jpeg" ∨ written = ".jpg")).
Proof.
  intros Hinit Hcall given written. subst written.
  unfold PBR_Skybox_Texturing.init_PrintCallback in Hinit.
  destruct (pystr.nonempty file_name).
  - cbn [negb] in Hinit. cbv zeta in Hinit.
    destruct (chosen_extension
                (pathlib.suffix (pathlib.absolute cwd (pathlib.of_string file_name))))
      as (Hvalid & Hpng & Hsame).
    fold given in Hpng, Hsame.
    set (ext := if negb (pystr.in_list _ PBR_Skybox_Texturing.valid_suffixes)
                then ".png" else _) in *.
    clearbody ext.
    destruct (pathlib.with_suffix _ ext) as [p|e] eqn:Hwith; [|discriminate Hinit].
    injection Hinit as <- <-.
    apply with_suffix_suffix in Hwith; [|exact Hvalid].
    unfold PBR_Skybox_Texturing.call_PrintCallback in Hcall. simpl in Hcall.
    destruct (String.eqb_spec key_code "k") as [->|Hkey]; [|discriminate Hcall].
    simpl in Hcall. injection Hcall as <-. simpl. rewrite Hwith.
    split; [done|]. split; [done|].
    split; [intros Hparts; unfold given; by rewrite suffix_absolute|].
    split; [done|]. split; [done|]. split; [done|].
    unfold spec.screenshot_suffixes in Hvalid.
    rewrite !elem_of_cons, elem_of_nil in Hvalid.
    destruct Hvalid as [->|[->|[->|[]]]]; simpl; split; split; try done;
      try (by left); try (by right); try (by intros [|]).
    + intros Hno. destruct Hno. by left.
    + intros Hno. destruct Hno. by right.
    + by intros _ [|].
  - simpl in Hinit. injection Hinit as <- <-. discriminate Hcall.
Qed.

Lemma screenshot_suffix_witness :
  (pathlib.suffix (pathlib.of_string "/home/u/shot.jpg") ∈ spec.screenshot_suffixes
   ∧ pathlib.suffix (pathlib.of_string "/home/u/shot.jpg") = ".jpg"
   ∧ (vtk.vtkJPEGWriter = vtk.vtkJPEGWriter
      ↔ pathlib.suffix (pathlib.of_string "/home/u/shot.jpg") = ".jpeg"
        ∨ pathlib.suffix (pathlib.of_string "/home/u/shot.jpg") = ".jpg"))
  ∧ pathlib.suffix (pathlib.of_string "/home/u/PBR_Skybox_Texturing.png") = ".png".
Proof.
  split.
  - pose proof
      (screenshot_suffix (pathlib.of_string "/home/u") 0 "shot.JPG" 1 false []
         (PBR_Skybox_Texturing.mkPrintCallback 0 1 false
            (Some (pathlib.of_string "/home/u/shot.jpg")) (Some ".jpg"))
         "k"
         (vtk.mkWritten vtk.vtkJPEGWriter (pathlib.of_string "/home/u/shot.jpg") 1 false)
         eq_refl eq_refl)
      as (_ & _ & _ & Hin & _ & Hsame & Hjpeg & _).
    split; [exact Hin|]. split; [|exact Hjpeg].
    apply Hsame. compute_done.
  - pose proof
      (screenshot_suffix (pathlib.of_string "/home/u") 0 "PBR_Skybox_Texturing" 1 false []
         (PBR_Skybox_Texturing.mkPrintCallback 0 1 false
            (Some (pathlib.of_string "/home/u/PBR_Skybox_Texturing.png")) (Some ".png"))
         "k"
         (vtk.mkWritten vtk.vtkPNGWriter
            (pathlib.of_string "/home/u/PBR_Skybox_Texturing.png") 1 false)
         eq_refl eq_refl)
      as (_ & _ & _ & _ & Hpng & _).
    apply Hpng. compute_done.
Defined.

(** ** Failures *)

Lemma slice_order_unknown (order : string) :
  order ∉ spec.slice_orders →
  Froggie.SliceOrder.get order = ([], Raise (Exception (spec.no_such_transform order))).
Proof.
  intros Hout. unfold Froggie.SliceOrder.get.
  repeat match goal with
         | |- context [String.eqb order ?code] =>
             destruct (String.eqb_spec order code) as [->|_];
             [exfalso; apply Hout; compute_done|]
         end.
  reflexivity.
Qed.

(** C1, as stated, fails at each of its three failure conditions.  An
    unknown slice order leaves [SliceOrder.get] as an exception and prints
    nothing; a parameter file that does not exist is announced by [main],
    which then goes on to open it; a data folder that is not a directory
    leaves the local [source] of Froggie's [main] unbound. *)
Lemma failures_counterexample :
  ("xy" ∉ spec.slice_orders)
  ∧ Froggie.SliceOrder.get "xy" = ([], Raise (Exception (spec.no_such_transform "xy")))
  ∧ is_file fixtures.textures (pathlib.of_string "/d/absent.json") = false
  ∧ PBR_Skybox_Texturing.main fixtures.vtk_9_1 fixtures.textures "/d/absent" ""
    = (["Unable to find:  /d/absent.json"], Raise FileNotFoundError)
  ∧ is_dir fixtures.frog (pathlib.of_string "frogs") = false
  ∧ Froggie.main fixtures.frog "frogs" ["skin"] = ([], Raise UnboundLocalError)
  ∧ ¬ (∀ order, order ∉ spec.slice_orders →
         stdout (Froggie.SliceOrder.get order) ≠ []
         ∧ ∀ e, outcome (Froggie.SliceOrder.get order) ≠ Raise e).
Proof.
  split; [compute_done|]. do 5 (split; [reflexivity|]).
  intros Hall. destruct (Hall "xy") as [Hprinted _]; [compute_done|].
  by apply Hprinted.
Qed.

(** C1, amended: an unknown slice-order code is signalled by
    [SliceOrder.get] with the exception [No such transform "<order>"
    exists.], nothing being printed; a parameter file that is not an
    existing file is reported by [main] of PBR_Skybox_Texturing with the
    printed line [Unable to find:  <path>]. *)
Theorem failures_by_design :
  (∀ order : string,
     order ∉ spec.slice_orders →
     Froggie.SliceOrder.get order
     = ([], Raise (Exception (spec.no_such_transform order))))
  ∧ (∀ (v : vtk.build) (fs : filesystem) (fn surface_name : string) (fn_path : Path),
       PBR_Skybox_Texturing.vtk_version_ok v 9 0 0 = true →
       spec.json_path fn = Ok fn_path →
       is_file fs fn_path = false →
       ∃ rest,
         stdout (PBR_Skybox_Texturing.main v fs fn surface_name)
         = ("Unable to find:  " +:+ pathlib.str fn_path) :: rest).
Proof.
  split; [exact slice_order_unknown|].
  intros v fs fn surface_name fn_path Hversion Hpath Hfile.
  unfold PBR_Skybox_Texturing.main. rewrite Hversion. cbn [negb].
  unfold spec.json_path in Hpath. cbv zeta in *.
  destruct (negb (pystr.nonempty (pathlib.suffix (pathlib.of_string fn)))).
  - rewrite Hpath. unfold builtins.lift. rewrite bind_ok.
    rewrite Hfile. cbn [negb]. cbv iota. unfold print2, print. rewrite bind_ok.
    simpl. by eexists.
  - injection Hpath as ->. rewrite bind_ret.
    rewrite Hfile. cbn [negb]. cbv iota. unfold print2, print. rewrite bind_ok.
    simpl. by eexists.
Qed.

Lemma failures_by_design_witness :
  Froggie.SliceOrder.get "xy" = ([], Raise (Exception (spec.no_such_transform "xy")))
  ∧ (∃ rest,
       stdout (PBR_Skybox_Texturing.main fixtures.vtk_9_1 fixtures.textures "/d/absent" "")
       = "Unable to find:  /d/absent.json" :: rest).
Proof.
  destruct failures_by_design as (Hunknown & Hmissing).
  split.
  - apply (Hunknown "xy"). compute_done.
  - apply (Hmissing fixtures.vtk_9_1 fixtures.textures "/d/absent" ""
             (pathlib.of_string "/d/absent.json")); reflexivity.
Defined.

(** ** The cubemap list *)

(** C4 fails on a cubemap list with an empty entry followed by the name
    of a file that does not exist: the message for the second is built
    from [cm[idx]], one past the end of [cm], and IndexError leaves
    [get_parameters] and [main]. *)
Theorem cubemap_gap_raises :
  PBR_Skybox_Texturing.get_parameters fixtures.skybox (pathlib.of_string "/d/gap.json") ""
  = (["A missing path in the cubemap."], Raise IndexError)
  ∧ PBR_Skybox_Texturing.main fixtures.vtk_9_1 fixtures.skybox "/d/gap.json" ""
    = (["A missing path in the cubemap."], Raise IndexError).
Proof. split; reflexivity. Qed.

(** A cubemap list of another length than six is reported and refused. *)
Example cubemap_five_refused :
  ∃ parameters,
    PBR_Skybox_Texturing.get_parameters fixtures.skybox (pathlib.of_string "/d/five.json") ""
    = (["There must be six filenames for the cubemap."], Ok (false, parameters)).
Proof. eexists. reflexivity. Qed.

(** ** The parameter loader on a valid file *)

Section loader.

Variables (fs : filesystem) (fn_path : Path).

Lemma omap_resolved (l : list string) :
  omap (spec.resolved fn_path) (JStr <$> l)
  = pathlib.joinpath (pathlib.parent fn_path) <$> l.
Proof.
  induction l as [|s l IH]; [done|].
  rewrite !fmap_cons. cbn [omap list_omap spec.resolved]. by f_equal.
Qed.

(** The loop over a cubemap list whose entries all name files: [done] is
    the part already visited, [rest] the part ahead. *)
Lemma cubemap_entries_valid (rest done : list string) (paths_ok : bool) :
  Forall (spec.names_file fs fn_path) rest →
  for_each (seq (length done) (length rest))
    (PBR_Skybox_Texturing.cubemap_entry fs fn_path (JList (JStr <$> (done ++ rest))))
    (pathlib.joinpath (pathlib.parent fn_path) <$> done, paths_ok)
  = ([], Ok (pathlib.joinpath (pathlib.parent fn_path) <$> (done ++ rest), paths_ok)).
Proof.
  revert done. induction rest as [|s rest IH]; intros done Hall.
  - simpl. by rewrite app_nil_r.
  - apply Forall_cons in Hall as [[Hne Hfile] Hall].
    cbn [length seq for_each].
    assert (PBR_Skybox_Texturing.cubemap_entry fs fn_path
              (JList (JStr <$> (done ++ s :: rest))) (length done)
              (pathlib.joinpath (pathlib.parent fn_path) <$> done, paths_ok)
            = ([], Ok (pathlib.joinpath (pathlib.parent fn_path) <$> (done ++ [s]),
                       paths_ok))) as ->.
    { unfold PBR_Skybox_Texturing.cubemap_entry, builtins.getitem.
      rewrite list_lookup_fmap, lookup_app_r, Nat.sub_diag by lia.
      cbn [lookup list_lookup fmap option_fmap option_map].
      rewrite bind_ret. cbn [builtins.truthy]. rewrite Hne.
      cbn [builtins.truediv]. rewrite bind_ret. rewrite Hfile.
      cbn [negb]. by rewrite fmap_app. }
    rewrite bind_ok. cbn [stdout outcome fst snd app].
    specialize (IH (done ++ [s]) Hall).
    rewrite length_app, Nat.add_1_r, <- app_assoc in IH. cbn [app] in IH.
    by rewrite IH.
Qed.

Lemma load_item_valid (kv : string * json)
    (parameters : gmap string PBR_Skybox_Texturing.value) :
  spec.valid_item fs fn_path kv →
  PBR_Skybox_Texturing.load_item fs fn_path kv (true, parameters)
  = ([], Ok (true, spec.store_item fn_path parameters kv)).
Proof.
  destruct kv as [k v]. unfold spec.valid_item, spec.store_item, spec.expected_value.
  unfold PBR_Skybox_Texturing.load_item. cbn [fst snd]. intros Hvalid.
  case_bool_decide as Hcopy; [done|].
  case_bool_decide as Hpath; [|done].
  specialize (Hvalid Hpath). destruct (decide (k = "cubemap")) as [->|Hk].
  - destruct Hvalid as (l & -> & Hlen & Hall).
    cbn [String.eqb Ascii.eqb Bool.eqb builtins.len]. rewrite bind_ret.
    rewrite length_fmap, Hlen. cbn [Nat.eqb negb].
    pose proof (cubemap_entries_valid l [] true Hall) as Hloop.
    cbn [length app fmap list_fmap] in Hloop. rewrite Hlen in Hloop.
    rewrite Hloop, bind_ok. cbn [stdout outcome fst snd app].
    by rewrite omap_resolved.
  - destruct Hvalid as (s & -> & Hne & Hfile).
    apply String.eqb_neq in Hk. rewrite Hk.
    cbn [builtins.truthy builtins.truediv]. rewrite Hne, bind_ret, Hfile.
    done.
Qed.

Lemma load_items_valid (items : list (string * json))
    (parameters : gmap string PBR_Skybox_Texturing.value) :
  Forall (spec.valid_item fs fn_path) items →
  for_each items (PBR_Skybox_Texturing.load_item fs fn_path) (true, parameters)
  = ([], Ok (true, foldl (spec.store_item fn_path) parameters items)).
Proof.
  revert parameters. induction items as [|kv items IH]; intros parameters Hall; [done|].
  apply Forall_cons in Hall as [Hkv Hall].
  cbn [for_each foldl]. rewrite (load_item_valid _ _ Hkv), bind_ok.
  by rewrite (IH _ Hall).
Qed.

Lemma lookup_store_item_ne (k : string) (kv : string * json)
    (parameters : gmap string PBR_Skybox_Texturing.value) :
  k ≠ kv.1 → spec.store_item fn_path parameters kv !! k = parameters !! k.
Proof.
  intros Hne. unfold spec.store_item.
  destruct (spec.expected_value fn_path kv); [|done].
  by rewrite lookup_insert_ne.
Qed.

Lemma lookup_store_item (kv : string * json)
    (parameters : gmap string PBR_Skybox_Texturing.value) :
  spec.store_item fn_path parameters kv !! kv.1
  = match spec.expected_value fn_path kv with
    | Some x => Some x
    | None => parameters !! kv.1
    end.
Proof.
  unfold spec.store_item.
  destruct (spec.expected_value fn_path kv); [|done].
  by rewrite lookup_insert_eq.
Qed.

Lemma lookup_stored_absent (k : string) (items : list (string * json))
    (parameters : gmap string PBR_Skybox_Texturing.value) :
  k ∉ items.*1 →
  foldl (spec.store_item fn_path) parameters items !! k = parameters !! k.
Proof.
  revert parameters. induction items as [|kv items IH]; intros parameters Hout; [done|].
  cbn [foldl]. rewrite fmap_cons, not_elem_of_cons in Hout. destruct Hout as [Hne Hout].
  rewrite (IH _ Hout). by apply lookup_store_item_ne.
Qed.

Lemma lookup_stored (kv : string * json) (items : list (string * json))
    (parameters : gmap string PBR_Skybox_Texturing.value) :
  NoDup items.*1 → kv ∈ items →
  foldl (spec.store_item fn_path) parameters items !! kv.1
  = match spec.expected_value fn_path kv with
    | Some x => Some x
    | None => parameters !! kv.1
    end.
Proof.
  revert parameters. induction items as [|kv' items IH]; intros parameters Hnodup Hin.
  - by apply elem_of_nil in Hin.
  - rewrite fmap_cons in Hnodup. apply NoDup_cons in Hnodup as [Hfresh Hnodup].
    cbn [foldl]. apply elem_of_cons in Hin as [<-|Hin].
    + rewrite (lookup_stored_absent _ _ _ Hfresh). apply lookup_store_item.
    + rewrite (IH _ Hnodup Hin).
      destruct (spec.expected_value fn_path kv); [done|].
      apply lookup_store_item_ne. intros Heq. apply Hfresh. rewrite <- Heq.
      by apply list_elem_of_fmap_2.
Qed.

End loader.

Lemma path_key_not_copied (k : string) :
  k ∈ PBR_Skybox_Texturing.allowed_keys_paths →
  k ∉ PBR_Skybox_Texturing.allowed_keys_no_paths.
Proof.
  unfold PBR_Skybox_Texturing.allowed_keys_paths,
    PBR_Skybox_Texturing.allowed_keys_no_paths.
  rewrite !elem_of_union, !elem_of_singleton.
  intros Hin Hcopy.
  repeat (destruct Hin as [Hin| ->]); try subst k;
    repeat (destruct Hcopy as [Hcopy|Hcopy]); discriminate Hcopy.
Qed.

(** C2: on a valid parameter file [get_parameters] prints nothing and
    returns [paths_ok = True] with the expected dictionary.  A key of
    {object, objcolor, bkgcolor, skybox} holds the JSON value as it is; a
    path key holds the entry resolved against the directory of the JSON
    file, [cubemap] the six resolved entries in order; a key outside both
    sets is dropped and no key is invented; [object] is always present: it
    is the [surface_name] argument when that is not empty, else the
    object entry of the file when that is not empty, else 'Boy'. *)
Theorem get_parameters_valid (fs : filesystem) (fn_path : Path)
    (items : list (string * json)) (surface_name : string) :
  spec.valid_parameter_file fs fn_path items →
  ∃ parameters : gmap string PBR_Skybox_Texturing.value,
    PBR_Skybox_Texturing.get_parameters fs fn_path surface_name
    = ([], Ok (true, parameters))
    ∧ (∀ k v, (k, v) ∈ items → k ∈ PBR_Skybox_Texturing.allowed_keys_no_paths →
         k ≠ "object" → parameters !! k = Some (PBR_Skybox_Texturing.VJson v))
    ∧ (∀ k s, (k, JStr s) ∈ items → k ∈ PBR_Skybox_Texturing.allowed_keys_paths →
         parameters !! k
         = Some (PBR_Skybox_Texturing.VPath
                   (pathlib.joinpath (pathlib.parent fn_path) s)))
    ∧ (∀ l, ("cubemap", JList (JStr <$> l)) ∈ items →
         parameters !! "cubemap"
         = Some (PBR_Skybox_Texturing.VPaths
                   (pathlib.joinpath (pathlib.parent fn_path) <$> l)))
    ∧ (∀ k, k ∉ PBR_Skybox_Texturing.allowed_keys_no_paths →
         k ∉ PBR_Skybox_Texturing.allowed_keys_paths → parameters !! k = None)
    ∧ (∀ k, k ≠ "object" → k ∉ items.*1 → parameters !! k = None)
    ∧ is_Some (parameters !! "object")
    ∧ (pystr.nonempty surface_name = true →
         parameters !! "object" = Some (PBR_Skybox_Texturing.VJson (JStr surface_name)))
    ∧ (pystr.nonempty surface_name = false →
         ∀ v, ("object", v) ∈ items → builtins.truthy v = true →
         parameters !! "object" = Some (PBR_Skybox_Texturing.VJson v))
    ∧ (pystr.nonempty surface_name = false →
         (∀ v, ("object", v) ∈ items → builtins.truthy v = false) →
         parameters !! "object" = Some (PBR_Skybox_Texturing.VJson (JStr "Boy"))).
Proof.
  intros (Hfile & Hnodup & Hvalid).
  set (loaded := foldl (spec.store_item fn_path) ∅ items).
  set (defaulted :=
         if PBR_Skybox_Texturing.object_unset loaded
         then <["object" := PBR_Skybox_Texturing.VJson (JStr "Boy")]> loaded
         else loaded).
  set (parameters :=
         if pystr.nonempty surface_name
         then <["object" := PBR_Skybox_Texturing.VJson (JStr surface_name)]> defaulted
         else defaulted).
  assert (Hother : ∀ k, k ≠ "object" → parameters !! k = loaded !! k).
  { intros k Hk. unfold parameters, defaulted.
    destruct (pystr.nonempty surface_name), (PBR_Skybox_Texturing.object_unset loaded);
      by rewrite ?lookup_insert_ne. }
  assert (Hobject : ∀ v, ("object", v) ∈ items →
            loaded !! "object" = Some (PBR_Skybox_Texturing.VJson v)).
  { intros v Hin. unfold loaded.
    by rewrite (lookup_stored fn_path ("object", v) items ∅ Hnodup Hin). }
  exists parameters. split; [|split; [|split; [|split; [|split; [|split; [|split; [|split; [|split]]]]]]]].
  - unfold PBR_Skybox_Texturing.get_parameters, open_json_load. rewrite Hfile.
    rewrite bind_ret. cbn [dict_items]. rewrite bind_ret.
    rewrite (load_items_valid fs fn_path items ∅ Hvalid), bind_ok. done.
  - intros k v Hin Hcopy Hk. rewrite (Hother k Hk). unfold loaded.
    rewrite (lookup_stored fn_path (k, v) items ∅ Hnodup Hin).
    unfold spec.expected_value. cbn [fst snd].
    by rewrite (bool_decide_eq_true_2 _ Hcopy).
  - intros k s Hin Hpath.
    assert (k ≠ "object") as Hk by (intros ->; by vm_compute in Hpath).
    rewrite (Hother k Hk). unfold loaded.
    rewrite (lookup_stored fn_path (k, JStr s) items ∅ Hnodup Hin).
    unfold spec.expected_value. cbn [fst snd].
    rewrite (bool_decide_eq_false_2 _ (path_key_not_copied k Hpath)).
    by rewrite (bool_decide_eq_true_2 _ Hpath).
  - intros l Hin. rewrite (Hother "cubemap") by done. unfold loaded.
    rewrite (lookup_stored fn_path ("cubemap", JList (JStr <$> l)) items ∅ Hnodup Hin).
    unfold spec.expected_value. cbn [fst snd].
    rewrite bool_decide_eq_false_2 by (by vm_compute).
    rewrite bool_decide_eq_true_2 by (by vm_compute).
    by rewrite omap_resolved.
  - intros k Hcopy Hpath.
    assert (k ≠ "object") as Hk by (intros ->; apply Hcopy; by vm_compute).
    rewrite (Hother k Hk). unfold loaded.
    destruct (decide (k ∈ items.*1)) as [Hin|Hout].
    + apply list_elem_of_fmap in Hin as ([k' v] & -> & Hin). cbn [fst] in *.
      rewrite (lookup_stored fn_path (k', v) items ∅ Hnodup Hin).
      unfold spec.expected_value. cbn [fst snd].
      by rewrite (bool_decide_eq_false_2 _ Hcopy), (bool_decide_eq_false_2 _ Hpath).
    + by rewrite lookup_stored_absent.
  - intros k Hk Hout. rewrite (Hother k Hk). unfold loaded.
    by rewrite lookup_stored_absent.
  - unfold parameters, defaulted, PBR_Skybox_Texturing.object_unset.
    destruct (pystr.nonempty surface_name); [by rewrite lookup_insert_eq|].
    destruct (loaded !! "object") as [x|] eqn:Hx.
    + destruct (PBR_Skybox_Texturing.value_truthy x); cbn [negb];
        [by rewrite Hx | by rewrite lookup_insert_eq].
    + by rewrite lookup_insert_eq.
  - intros Hname. unfold parameters. rewrite Hname. by rewrite lookup_insert_eq.
  - intros Hname v Hin Htruthy. unfold parameters, defaulted. rewrite Hname.
    unfold PBR_Skybox_Texturing.object_unset. rewrite (Hobject v Hin).
    cbn [PBR_Skybox_Texturing.value_truthy]. rewrite Htruthy. cbn [negb].
    exact (Hobject v Hin).
  - intros Hname Hempty. unfold parameters, defaulted. rewrite Hname.
    unfold PBR_Skybox_Texturing.object_unset.
    destruct (decide ("object" ∈ items.*1)) as [Hin|Hout].
    + apply list_elem_of_fmap in Hin as ([k' v] & Hk' & Hin). cbn [fst] in Hk'. subst k'.
      rewrite (Hobject v Hin). cbn [PBR_Skybox_Texturing.value_truthy].
      rewrite (Hempty v Hin). cbn [negb]. by rewrite lookup_insert_eq.
    + unfold loaded at 1. rewrite lookup_stored_absent by done.
      rewrite lookup_empty. by rewrite lookup_insert_eq.
Qed.

Lemma params_valid :
  spec.valid_parameter_file fixtures.skybox (pathlib.of_string "/d/params.json")
    fixtures.params.
Proof.
  split; [reflexivity|]. split; [compute_done|].
  unfold fixtures.params.
  repeat (apply Forall_cons; split); try apply Forall_nil_2;
    unfold spec.valid_item; cbn [fst snd]; intros Hpath;
    try (by vm_compute in Hpath);
    (destruct (decide _) as [Hcube|Hone];
     [try discriminate Hcube | try (by destruct Hone)]).
  - exists "albedo.png". by repeat split.
  - exists "/textures/normal.png". by repeat split.
  - exists fixtures.faces. split; [done|]. split; [done|].
    unfold fixtures.faces. repeat (apply Forall_cons; split); try apply Forall_nil_2;
      by split.
Qed.

Lemma get_parameters_valid_witness :
  ∃ parameters : gmap string PBR_Skybox_Texturing.value,
    PBR_Skybox_Texturing.get_parameters fixtures.skybox
      (pathlib.of_string "/d/params.json") "" = ([], Ok (true, parameters))
    ∧ parameters !! "object" = Some (PBR_Skybox_Texturing.VJson (JStr "Boy"))
    ∧ parameters !! "skybox" = Some (PBR_Skybox_Texturing.VJson (JBool true))
    ∧ parameters !! "normal"
      = Some (PBR_Skybox_Texturing.VPath (pathlib.of_string "/textures/normal.png"))
    ∧ parameters !! "cubemap"
      = Some (PBR_Skybox_Texturing.VPaths
                (pathlib.joinpath (pathlib.of_string "/d") <$> fixtures.faces))
    ∧ parameters !! "comment" = None.
Proof.
  destruct (get_parameters_valid fixtures.skybox (pathlib.of_string "/d/params.json")
              fixtures.params "" params_valid)
    as (parameters & Hrun & Hcopy & Hpath & Hcube & Hdrop & _ & _ & _ & _ & Hboy).
  exists parameters. split; [exact Hrun|]. split; [|split; [|split; [|split]]].
  - apply Hboy; [reflexivity|]. intros v Hin.
    unfold fixtures.params in Hin. rewrite !elem_of_cons, elem_of_nil in Hin.
    repeat (destruct Hin as [Hin|Hin]); try done; by injection Hin as ->.
  - apply Hcopy; [|compute_done|done].
    unfold fixtures.params. rewrite !elem_of_cons. tauto.
  - apply (Hpath "normal" "/textures/normal.png"); [|compute_done].
    unfold fixtures.params. rewrite !elem_of_cons. tauto.
  - apply (Hcube fixtures.faces).
    unfold fixtures.params. rewrite !elem_of_cons. tauto.
  - apply Hdrop; compute_done.
Defined.

(** * Further properties of the code *)

Set Warnings "-clear-no-such-hyp".

(** ** Inverting a run *)

Lemma bind_ok_inv {A B : Type} (f : A → py B) (m : py A) (out : list string) (b : B) :
  mbind f m = (out, Ok b) →
  ∃ o1 a o2, m = (o1, Ok a) ∧ f a = (o2, Ok b) ∧ out = o1 ++ o2.
Proof.
  destruct m as [o1 [a|e]]; [|done].
  rewrite bind_ok. destruct (f a) as [o2 r] eqn:Hf. unfold stdout, outcome. simpl.
  intros [= <- ->]. by exists o1, a, o2.
Qed.

(** A loop whose body keeps a flag up exactly when it prints nothing ends
    with the flag up exactly when the flag was up and nothing was
    printed. *)
Lemma for_each_quiet {A S : Type} (good : S → bool) (body : A → S → py S) (l : list A) :
  (∀ x s o s', x ∈ l → body x s = (o, Ok s') →
     (good s' = true ↔ good s = true ∧ o = [])) →
  ∀ s out s', for_each l body s = (out, Ok s') →
     (good s' = true ↔ good s = true ∧ out = []).
Proof.
  induction l as [|x l IH]; intros Hbody s out s' Hrun.
  - injection Hrun as <- <-. tauto.
  - cbn [for_each] in Hrun.
    apply bind_ok_inv in Hrun as (o1 & s1 & o2 & Hx & Hrest & ->).
    apply Hbody in Hx; [|by left].
    apply IH in Hrest; [|intros; eapply Hbody; [by right|done]].
    rewrite Hrest, Hx. split.
    + by intros [[? ->] ->].
    + intros [? [-> ->]%app_eq_nil]. tauto.
Qed.

(** ** The loader prints exactly when it refuses *)

Lemma ret_inv {A : Type} (a b : A) (out : list string) :
  (mret a : py A) = (out, Ok b) → out = [] ∧ a = b.
Proof. by intros [= <- <-]. Qed.

Lemma print_then_inv {A : Type} (line : string) (a b : A) (out : list string) :
  (print line;; mret a : py A) = (out, Ok b) → out = [line] ∧ a = b.
Proof. by intros [= <- <-]. Qed.

Lemma cubemap_entry_quiet (fs : filesystem) (fn_path : Path) (v : json) (idx : nat)
    (st st' : list Path * bool) (o : list string) :
  PBR_Skybox_Texturing.cubemap_entry fs fn_path v idx st = (o, Ok st') →
  (st'.2 = true ↔ st.2 = true ∧ o = []).
Proof.
  destruct st as [cm paths_ok]. unfold PBR_Skybox_Texturing.cubemap_entry.
  intros Hrun. apply bind_ok_inv in Hrun as (o1 & x & o2 & Hx & Hrun & ->).
  assert (o1 = []) as ->.
  { unfold builtins.getitem in Hx. destruct v; try done.
    - destruct (String.get idx s); by injection Hx as <- _.
    - destruct (l !! idx); by injection Hx as <- _. }
  destruct (builtins.truthy x).
  - apply bind_ok_inv in Hrun as (o3 & p & o4 & Hp & Hrun & ->).
    assert (o3 = []) as -> by (destruct x; try done; by injection Hp as <- _).
    destruct (is_file fs p); cbn [negb] in Hrun.
    + apply ret_inv in Hrun as [-> <-]. simpl. tauto.
    + apply bind_ok_inv in Hrun as (o5 & c & o6 & Hc & Hrun & ->).
      unfold print2 in Hrun. apply print_then_inv in Hrun as [-> <-]. simpl.
      split; [done|]. intros [_ Hnil]. by apply app_eq_nil in Hnil as [_ ?].
  - apply print_then_inv in Hrun as [-> <-]. simpl. split; [done|]. by intros [_ ?].
Qed.

Lemma load_item_quiet (fs : filesystem) (fn_path : Path) (kv : string * json)
    (st st' : bool * gmap string PBR_Skybox_Texturing.value) (o : list string) :
  PBR_Skybox_Texturing.load_item fs fn_path kv st = (o, Ok st') →
  (st'.1 = true ↔ st.1 = true ∧ o = []).
Proof.
  destruct kv as [k v], st as [paths_ok parameters].
  unfold PBR_Skybox_Texturing.load_item.
  case_bool_decide; [intros [-> <-]%ret_inv; simpl; tauto|].
  case_bool_decide; [|intros [-> <-]%ret_inv; simpl; tauto].
  destruct (String.eqb k "cubemap").
  - intros Hrun. apply bind_ok_inv in Hrun as (o1 & n & o2 & Hn & Hrun & ->).
    assert (o1 = []) as -> by (destruct v; try done; by injection Hn as <- _).
    apply bind_ok_inv in Hrun as (o3 & [cm ok] & o4 & Hloop & Hrun & ->).
    apply ret_inv in Hrun as [-> <-]. rewrite app_nil_r. cbn [fst app].
    destruct (n =? 6); cbn [negb] in Hloop.
    + eapply (for_each_quiet snd) in Hloop; [exact Hloop|].
      intros idx s o s' _. apply cubemap_entry_quiet.
    + apply print_then_inv in Hloop as [-> [= <- <-]]. split; [done|]. by intros [_ ?].
  - destruct (builtins.truthy v).
    + intros Hrun. apply bind_ok_inv in Hrun as (o1 & p & o2 & Hp & Hrun & ->).
      assert (o1 = []) as -> by (destruct v; try done; by injection Hp as <- _).
      destruct (is_file fs p || is_dir fs p); cbn [negb] in Hrun.
      * apply ret_inv in Hrun as [-> <-]. simpl. tauto.
      * unfold print2 in Hrun. apply print_then_inv in Hrun as [-> <-].
        split; [done|]. by intros [_ ?].
    + unfold print2. intros [-> <-]%print_then_inv. split; [done|]. by intros [_ ?].
Qed.

(** X1: whenever [get_parameters] returns, [paths_ok] is True exactly when
    nothing was printed: every refusal comes with a message and every
    message with a refusal. *)
Theorem get_parameters_quiet (fs : filesystem) (fn_path : Path) (surface_name : string)
    (out : list string) (paths_ok : bool)
    (parameters : gmap string PBR_Skybox_Texturing.value) :
  PBR_Skybox_Texturing.get_parameters fs fn_path surface_name
  = (out, Ok (paths_ok, parameters)) →
  (paths_ok = true ↔ out = []).
Proof.
  unfold PBR_Skybox_Texturing.get_parameters. intros Hrun.
  apply bind_ok_inv in Hrun as (o1 & j & o2 & Hopen & Hrun & ->).
  assert (o1 = []) as ->.
  { unfold open_json_load in Hopen. destruct (fs fn_path) as [[|[c|]]|]; try done.
    by injection Hopen as <- _. }
  apply bind_ok_inv in Hrun as (o3 & items & o4 & Hitems & Hrun & ->).
  assert (o3 = []) as -> by (destruct j; try done; by injection Hitems as <- _).
  apply bind_ok_inv in Hrun as (o5 & [ok loaded] & o6 & Hloop & Hrun & ->).
  apply ret_inv in Hrun as [-> [= <- _]]. rewrite app_nil_r. cbn [app].
  eapply (for_each_quiet fst) in Hloop.
  - cbn [fst] in Hloop. rewrite Hloop. tauto.
  - intros kv s o s' _. apply load_item_quiet.
Qed.

Lemma get_parameters_quiet_witness :
  ∃ parameters,
    PBR_Skybox_Texturing.get_parameters fixtures.skybox (pathlib.of_string "/d/five.json") ""
    = (["There must be six filenames for the cubemap."], Ok (false, parameters))
    ∧ (false = true ↔ ["There must be six filenames for the cubemap."] = []).
Proof.
  destruct cubemap_five_refused as [parameters Hrun]. exists parameters.
  split; [exact Hrun|].
  exact (get_parameters_quiet _ _ _ _ _ _ Hrun).
Defined.

(** ** The keys of the loaded dictionary *)

Lemma for_each_invariant {A S : Type} (P : S → Prop) (body : A → S → py S) (l : list A) :
  (∀ x s o s', body x s = (o, Ok s') → P s → P s') →
  ∀ s out s', for_each l body s = (out, Ok s') → P s → P s'.
Proof.
  intros Hbody. induction l as [|x l IH]; intros s out s' Hrun Hs.
  - by injection Hrun as _ <-.
  - cbn [for_each] in Hrun.
    apply bind_ok_inv in Hrun as (o1 & s1 & o2 & Hx & Hrest & _).
    eapply IH; [exact Hrest|]. by eapply Hbody.
Qed.

Lemma load_item_keys (fs : filesystem) (fn_path : Path) (kv : string * json)
    (st st' : bool * gmap string PBR_Skybox_Texturing.value) (o : list string) :
  PBR_Skybox_Texturing.load_item fs fn_path kv st = (o, Ok st') →
  st'.2 = st.2
  ∨ (kv.1 ∈ PBR_Skybox_Texturing.allowed_keys_no_paths
            ∪ PBR_Skybox_Texturing.allowed_keys_paths
     ∧ ∃ x, st'.2 = <[kv.1 := x]> st.2).
Proof.
  destruct kv as [k v], st as [paths_ok parameters].
  unfold PBR_Skybox_Texturing.load_item. cbn [fst snd].
  case_bool_decide as Hcopy.
  { intros [_ <-]%ret_inv. right. split; [set_solver|]. by eexists. }
  case_bool_decide as Hpath; [|intros [_ <-]%ret_inv; by left].
  assert (k ∈ PBR_Skybox_Texturing.allowed_keys_no_paths
              ∪ PBR_Skybox_Texturing.allowed_keys_paths) as Hk by set_solver.
  destruct (String.eqb k "cubemap").
  - intros Hrun. apply bind_ok_inv in Hrun as (o1 & n & o2 & _ & Hrun & _).
    apply bind_ok_inv in Hrun as (o3 & [cm ok] & o4 & _ & Hrun & _).
    apply ret_inv in Hrun as [_ <-]. right. split; [done|]. by eexists.
  - destruct (builtins.truthy v).
    + intros Hrun. apply bind_ok_inv in Hrun as (o1 & p & o2 & _ & Hrun & _).
      destruct (negb (is_file fs p || is_dir fs p)).
      * unfold print2 in Hrun. apply print_then_inv in Hrun as [_ <-].
        right. split; [done|]. by eexists.
      * apply ret_inv in Hrun as [_ <-]. right. split; [done|]. by eexists.
    + unfold print2. intros [_ <-]%print_then_inv. by left.
Qed.

(** X2: whatever the parameter file holds, the dictionary [get_parameters]
    returns has no key outside the two allowed sets, and it has an
    [object] entry that is not empty. *)
Theorem get_parameters_keys (fs : filesystem) (fn_path : Path) (surface_name : string)
    (out : list string) (paths_ok : bool)
    (parameters : gmap string PBR_Skybox_Texturing.value) :
  PBR_Skybox_Texturing.get_parameters fs fn_path surface_name
  = (out, Ok (paths_ok, parameters)) →
  dom parameters ⊆ PBR_Skybox_Texturing.allowed_keys_no_paths
                   ∪ PBR_Skybox_Texturing.allowed_keys_paths
  ∧ ∃ x, parameters !! "object" = Some x
         ∧ PBR_Skybox_Texturing.value_truthy x = true.
Proof.
  unfold PBR_Skybox_Texturing.get_parameters. intros Hrun.
  apply bind_ok_inv in Hrun as (o1 & j & o2 & _ & Hrun & _).
  apply bind_ok_inv in Hrun as (o3 & items & o4 & _ & Hrun & _).
  apply bind_ok_inv in Hrun as (o5 & [ok loaded] & o6 & Hloop & Hrun & _).
  apply ret_inv in Hrun as [_ [= _ <-]].
  assert (dom loaded ⊆ PBR_Skybox_Texturing.allowed_keys_no_paths
                       ∪ PBR_Skybox_Texturing.allowed_keys_paths) as Hdom.
  { eapply (for_each_invariant
              (λ s : bool * gmap string PBR_Skybox_Texturing.value,
                 dom s.2 ⊆ PBR_Skybox_Texturing.allowed_keys_no_paths
                           ∪ PBR_Skybox_Texturing.allowed_keys_paths)) in Hloop.
    - exact Hloop.
    - intros kv s o s' Hitem Hs. apply load_item_keys in Hitem as [->|(Hk & x & ->)].
      + exact Hs.
      + rewrite dom_insert. set_solver.
    - cbn [snd]. rewrite dom_empty. set_solver. }
  assert ("object" ∈ PBR_Skybox_Texturing.allowed_keys_no_paths
                     ∪ PBR_Skybox_Texturing.allowed_keys_paths) as Hobj by compute_done.
  destruct (pystr.nonempty surface_name) eqn:Hname.
  - split.
    + rewrite dom_insert. destruct (PBR_Skybox_Texturing.object_unset loaded);
        rewrite ?dom_insert; set_solver.
    + eexists. rewrite lookup_insert_eq. split; [done|]. exact Hname.
  - unfold PBR_Skybox_Texturing.object_unset.
    destruct (loaded !! "object") as [x|] eqn:Hx.
    + destruct (PBR_Skybox_Texturing.value_truthy x) eqn:Htruthy; cbn [negb].
      * split; [done|]. by exists x.
      * split; [rewrite dom_insert; set_solver|].
        eexists. by rewrite lookup_insert_eq.
    + split; [rewrite dom_insert; set_solver|].
      eexists. by rewrite lookup_insert_eq.
Qed.

Lemma get_parameters_keys_witness :
  ∃ parameters,
    PBR_Skybox_Texturing.get_parameters fixtures.skybox (pathlib.of_string "/d/five.json") ""
    = (["There must be six filenames for the cubemap."], Ok (false, parameters))
    ∧ dom parameters ⊆ PBR_Skybox_Texturing.allowed_keys_no_paths
                       ∪ PBR_Skybox_Texturing.allowed_keys_paths
    ∧ ∃ x, parameters !! "object" = Some x
           ∧ PBR_Skybox_Texturing.value_truthy x = true.
Proof.
  destruct cubemap_five_refused as [parameters Hrun]. exists parameters.
  split; [exact Hrun|].
  exact (get_parameters_keys _ _ _ _ _ _ Hrun).
Defined.

(** ** The cubemap list, entry by entry *)

Section cubemap.

Variables (fs : filesystem) (fn_path : Path).

Let resolve := pathlib.joinpath (pathlib.parent fn_path).

Lemma lookup_entry (done more : list string) (s : string) :
  (JStr <$> (done ++ s :: more)) !! length done = Some (JStr s).
Proof. by rewrite list_lookup_fmap, lookup_app_r, Nat.sub_diag by lia. Qed.

Lemma entry_file (done more : list string) (s : string) (cm : list Path) (ok : bool) :
  pystr.nonempty s = true → is_file fs (resolve s) = true →
  PBR_Skybox_Texturing.cubemap_entry fs fn_path (JList (JStr <$> (done ++ s :: more)))
    (length done) (cm, ok)
  = ([], Ok (cm ++ [resolve s], ok)).
Proof using Type.
  intros Hne Hfile. unfold PBR_Skybox_Texturing.cubemap_entry, builtins.getitem.
  rewrite lookup_entry, bind_ret. cbn [builtins.truthy builtins.truediv].
  rewrite Hne, bind_ret. fold resolve. by rewrite Hfile.
Qed.

Lemma entry_empty (done more : list string) (cm : list Path) (ok : bool) :
  PBR_Skybox_Texturing.cubemap_entry fs fn_path (JList (JStr <$> (done ++ "" :: more)))
    (length done) (cm, ok)
  = (["A missing path in the cubemap."], Ok (cm, false)).
Proof using Type.
  unfold PBR_Skybox_Texturing.cubemap_entry, builtins.getitem.
  by rewrite lookup_entry, bind_ret.
Qed.

Lemma entry_absent (done more : list string) (s : string) (cm : list Path) (ok : bool) :
  pystr.nonempty s = true → is_file fs (resolve s) = false →
  length cm = length done →
  PBR_Skybox_Texturing.cubemap_entry fs fn_path (JList (JStr <$> (done ++ s :: more)))
    (length done) (cm, ok)
  = (["Not a file: " +:+ pathlib.str (resolve s)], Ok (cm ++ [resolve s], false)).
Proof using Type.
  intros Hne Hfile Hlen. unfold PBR_Skybox_Texturing.cubemap_entry, builtins.getitem.
  rewrite lookup_entry, bind_ret. cbn [builtins.truthy builtins.truediv].
  rewrite Hne, bind_ret. fold resolve. rewrite Hfile. cbn [negb].
  unfold builtins.list_getitem.
  by rewrite lookup_app_r, Hlen, Nat.sub_diag by lia.
Qed.

Lemma entry_absent_after_gap (done more : list string) (s : string) (cm : list Path)
    (ok : bool) :
  pystr.nonempty s = true → is_file fs (resolve s) = false →
  length cm < length done →
  PBR_Skybox_Texturing.cubemap_entry fs fn_path (JList (JStr <$> (done ++ s :: more)))
    (length done) (cm, ok)
  = ([], Raise IndexError).
Proof using Type.
  intros Hne Hfile Hlen. unfold PBR_Skybox_Texturing.cubemap_entry, builtins.getitem.
  rewrite lookup_entry, bind_ret. cbn [builtins.truthy builtins.truediv].
  rewrite Hne, bind_ret. fold resolve. rewrite Hfile. cbn [negb].
  unfold builtins.list_getitem.
  by rewrite lookup_ge_None_2 by (rewrite length_app; simpl; lia).
Qed.

(** Entries that are all non-empty: every one is resolved and kept, and
    the flag stays up when they are all files. *)
Lemma entries_named (rest done tail : list string) (cm : list Path) (ok : bool) :
  Forall (λ s, pystr.nonempty s = true) rest →
  length cm = length done →
  ∃ out,
    for_each (seq (length done) (length rest))
      (PBR_Skybox_Texturing.cubemap_entry fs fn_path
         (JList (JStr <$> (done ++ rest ++ tail))))
      (cm, ok)
    = (out, Ok (cm ++ (resolve <$> rest),
                ok && forallb (spec.entry_ok fs fn_path) rest)).
Proof using Type.
  revert done cm ok. induction rest as [|s rest IH]; intros done cm ok Hall Hlen.
  - exists []. simpl. by rewrite app_nil_r, andb_true_r.
  - apply Forall_cons in Hall as [Hne Hall].
    cbn [length seq for_each app].
    specialize (IH (done ++ [s]) (cm ++ [resolve s])).
    rewrite !length_app in IH. cbn [length] in IH.
    rewrite !Nat.add_1_r, <- app_assoc in IH. cbn [app] in IH.
    cbn [forallb fmap list_fmap].
    unfold spec.entry_ok at 1. fold resolve. rewrite Hne. cbn [andb].
    destruct (is_file fs (resolve s)) eqn:Hfile.
    + rewrite (entry_file done (rest ++ tail) s cm ok Hne Hfile), bind_ok.
      destruct (IH ok Hall) as [out ->]; [lia|]. exists out.
      cbn [stdout outcome fst snd app andb]. by rewrite <- app_assoc.
    + rewrite (entry_absent done (rest ++ tail) s cm ok Hne Hfile Hlen), bind_ok.
      destruct (IH false Hall) as [out ->]; [lia|]. eexists.
      cbn [stdout outcome fst snd app andb]. rewrite <- app_assoc, andb_false_r.
      done.
Qed.

(** Entries that are each empty or the name of a file: nothing is looked
    up in [cm], the named ones are kept and the flag falls with the first
    empty one. *)
Lemma entries_present (rest done tail : list string) (cm : list Path) (ok : bool) :
  Forall (λ s, pystr.nonempty s = false ∨ is_file fs (resolve s) = true) rest →
  ∃ out,
    for_each (seq (length done) (length rest))
      (PBR_Skybox_Texturing.cubemap_entry fs fn_path
         (JList (JStr <$> (done ++ rest ++ tail))))
      (cm, ok)
    = (out, Ok (cm ++ spec.kept_faces fn_path rest,
                ok && forallb (spec.entry_ok fs fn_path) rest)).
Proof using Type.
  revert done cm ok. induction rest as [|s rest IH]; intros done cm ok Hall.
  - exists []. simpl. by rewrite app_nil_r, andb_true_r.
  - apply Forall_cons in Hall as [Hs Hall].
    cbn [length seq for_each app].
    specialize (IH (done ++ [s])).
    rewrite !length_app in IH. cbn [length] in IH.
    rewrite !Nat.add_1_r, <- app_assoc in IH. cbn [app] in IH.
    unfold spec.kept_faces. cbn [forallb List.filter].
    unfold spec.entry_ok at 1. fold resolve.
    destruct (pystr.nonempty s) eqn:Hne.
    + destruct Hs as [?|Hfile]; [done|]. rewrite Hfile. cbn [andb].
      rewrite (entry_file done (rest ++ tail) s cm ok Hne Hfile), bind_ok.
      destruct (IH (cm ++ [resolve s]) ok Hall) as [out ->]. exists out.
      cbn [stdout outcome fst snd app fmap list_fmap].
      unfold spec.kept_faces. fold resolve. by rewrite <- app_assoc.
    + destruct s; [|done].
      rewrite (entry_empty done (rest ++ tail) cm ok), bind_ok.
      destruct (IH cm false Hall) as [out ->]. eexists.
      cbn [stdout outcome fst snd app andb]. by rewrite andb_false_r.
Qed.

(** Once an entry has been skipped, [cm] is shorter than the index, and
    the first later entry that names no file raises. *)
Lemma entries_after_gap (rest done : list string) (cm : list Path) (ok : bool) :
  length cm < length done →
  Exists (λ s, pystr.nonempty s = true ∧ is_file fs (resolve s) = false) rest →
  outcome
    (for_each (seq (length done) (length rest))
       (PBR_Skybox_Texturing.cubemap_entry fs fn_path (JList (JStr <$> (done ++ rest))))
       (cm, ok))
  = Raise IndexError.
Proof using Type.
  revert done cm ok. induction rest as [|s rest IH]; intros done cm ok Hlen Hex.
  - by apply Exists_nil in Hex.
  - cbn [length seq for_each].
    specialize (IH (done ++ [s])).
    rewrite !length_app in IH. cbn [length] in IH.
    rewrite !Nat.add_1_r, <- app_assoc in IH. cbn [app] in IH.
    destruct (pystr.nonempty s) eqn:Hne.
    + destruct (is_file fs (resolve s)) eqn:Hfile.
      * rewrite (entry_file done rest s cm ok Hne Hfile), bind_ok.
        cbn [outcome snd]. apply IH; [rewrite length_app; simpl; lia|].
        apply Exists_cons in Hex as [[_ Habsent]|Hex]; [congruence|done].
      * by rewrite (entry_absent_after_gap done rest s cm ok Hne Hfile Hlen).
    + destruct s; [|done].
      rewrite (entry_empty done rest cm ok), bind_ok.
      cbn [outcome snd]. apply IH; [lia|].
      apply Exists_cons in Hex as [[Hne' _]|Hex]; [done|done].
Qed.

End cubemap.

(** ** The cubemap list inside a parameter file *)

Lemma for_each_app {A S : Type} (l1 l2 : list A) (body : A → S → py S) (s : S) :
  for_each (l1 ++ l2) body s = (s' ← for_each l1 body s; for_each l2 body s').
Proof.
  revert s. induction l1 as [|x l1 IH]; intros s; cbn [app for_each].
  - by rewrite bind_ret.
  - destruct (body x s) as [o [s1|e]]; [|done].
    rewrite !bind_ok, IH. destruct (for_each l1 body s1) as [o1 [s2|e]].
    + rewrite !bind_ok. unfold stdout, outcome. simpl.
      destruct (for_each l2 body s2). simpl. by rewrite app_assoc.
    + done.
Qed.

Section cubemap_file.

Variables (fs : filesystem) (fn_path : Path).

(** A valid item is stored whatever the flag is, and leaves the flag as
    it is. *)
Lemma load_item_valid_flag (kv : string * json) (paths_ok : bool)
    (parameters : gmap string PBR_Skybox_Texturing.value) :
  spec.valid_item fs fn_path kv →
  PBR_Skybox_Texturing.load_item fs fn_path kv (paths_ok, parameters)
  = ([], Ok (paths_ok, spec.store_item fn_path parameters kv)).
Proof using Type.
  destruct kv as [k v]. unfold spec.valid_item, spec.store_item, spec.expected_value.
  unfold PBR_Skybox_Texturing.load_item. cbn [fst snd]. intros Hvalid.
  case_bool_decide as Hcopy; [done|].
  case_bool_decide as Hpath; [|done].
  specialize (Hvalid Hpath). destruct (decide (k = "cubemap")) as [->|Hk].
  - destruct Hvalid as (l & -> & Hlen & Hall).
    cbn [String.eqb Ascii.eqb Bool.eqb builtins.len]. rewrite bind_ret.
    rewrite length_fmap, Hlen. cbn [Nat.eqb negb].
    pose proof (cubemap_entries_valid fs fn_path l [] paths_ok Hall) as Hloop.
    cbn [length app fmap list_fmap] in Hloop. rewrite Hlen in Hloop.
    rewrite Hloop, bind_ok. cbn [stdout outcome fst snd app].
    by rewrite omap_resolved.
  - destruct Hvalid as (s & -> & Hne & Hfile).
    apply String.eqb_neq in Hk. rewrite Hk.
    cbn [builtins.truthy builtins.truediv]. rewrite Hne, bind_ret, Hfile.
    done.
Qed.

Lemma load_items_valid_flag (items : list (string * json)) (paths_ok : bool)
    (parameters : gmap string PBR_Skybox_Texturing.value) :
  Forall (spec.valid_item fs fn_path) items →
  for_each items (PBR_Skybox_Texturing.load_item fs fn_path) (paths_ok, parameters)
  = ([], Ok (paths_ok, foldl (spec.store_item fn_path) parameters items)).
Proof using Type.
  revert parameters. induction items as [|kv items IH]; intros parameters Hall; [done|].
  apply Forall_cons in Hall as [Hkv Hall].
  cbn [for_each foldl]. rewrite (load_item_valid_flag _ _ _ Hkv), bind_ok.
  by rewrite (IH _ Hall).
Qed.

(** The cubemap item alone, for a list of six names in which every name
    of a missing file comes before every empty entry. *)
Lemma load_cubemap_reported (pre rest : list string) (paths_ok : bool)
    (parameters : gmap string PBR_Skybox_Texturing.value) :
  length (pre ++ rest) = 6 →
  Forall (λ s, pystr.nonempty s = true) pre →
  Forall (λ s, pystr.nonempty s = false
               ∨ is_file fs (pathlib.joinpath (pathlib.parent fn_path) s) = true) rest →
  ∃ out,
    PBR_Skybox_Texturing.load_item fs fn_path
      ("cubemap", JList (JStr <$> (pre ++ rest))) (paths_ok, parameters)
    = (out, Ok (paths_ok && forallb (spec.entry_ok fs fn_path) (pre ++ rest),
                <["cubemap" := PBR_Skybox_Texturing.VPaths
                                 (spec.kept_faces fn_path (pre ++ rest))]> parameters)).
Proof using Type.
  intros Hlen Hpre Hrest. unfold PBR_Skybox_Texturing.load_item.
  rewrite bool_decide_eq_false_2 by compute_done.
  rewrite bool_decide_eq_true_2 by compute_done.
  cbn [String.eqb Ascii.eqb Bool.eqb builtins.len]. rewrite bind_ret.
  rewrite length_fmap, Hlen. cbn [Nat.eqb negb].
  rewrite length_app in Hlen.
  replace 6 with (length pre + length rest) by exact Hlen.
  rewrite seq_app, for_each_app. cbn [Nat.add].
  destruct (entries_named fs fn_path pre [] rest [] paths_ok Hpre eq_refl) as [o1 Hfirst].
  cbn [length app] in Hfirst. rewrite Hfirst, bind_ok.
  destruct (entries_present fs fn_path rest pre [] (pathlib.joinpath (pathlib.parent fn_path) <$> pre)
              (paths_ok && forallb (spec.entry_ok fs fn_path) pre) Hrest) as [o2 Hsecond].
  rewrite app_nil_r in Hsecond. rewrite Hsecond.
  cbn [stdout outcome fst snd]. rewrite bind_ok. cbn [stdout outcome fst snd].
  assert (spec.kept_faces fn_path (pre ++ rest)
          = (pathlib.joinpath (pathlib.parent fn_path) <$> pre)
            ++ spec.kept_faces fn_path rest) as ->.
  { unfold spec.kept_faces. rewrite List.filter_app, fmap_app. f_equal. f_equal.
    apply forallb_filter_id. apply forallb_forall. apply List.Forall_forall.
    exact Hpre. }
  rewrite forallb_app, andb_assoc. by eexists.
Qed.

(** The cubemap item alone, for a list in which the name of a missing
    file comes after an empty entry. *)
Lemma load_cubemap_gap (pre rest : list string) (paths_ok : bool)
    (parameters : gmap string PBR_Skybox_Texturing.value) :
  length (pre ++ "" :: rest) = 6 →
  Forall (λ s, pystr.nonempty s = true) pre →
  Exists (λ s, pystr.nonempty s = true
               ∧ is_file fs (pathlib.joinpath (pathlib.parent fn_path) s) = false) rest →
  outcome
    (PBR_Skybox_Texturing.load_item fs fn_path
       ("cubemap", JList (JStr <$> (pre ++ "" :: rest))) (paths_ok, parameters))
  = Raise IndexError.
Proof using Type.
  intros Hlen Hpre Hrest. unfold PBR_Skybox_Texturing.load_item.
  rewrite bool_decide_eq_false_2 by compute_done.
  rewrite bool_decide_eq_true_2 by compute_done.
  cbn [String.eqb Ascii.eqb Bool.eqb builtins.len]. rewrite bind_ret.
  rewrite length_fmap, Hlen. cbn [Nat.eqb negb].
  rewrite length_app in Hlen. cbn [length] in Hlen.
  replace 6 with (length pre + S (length rest)) by exact Hlen.
  rewrite seq_app, for_each_app. cbn [Nat.add seq for_each].
  destruct (entries_named fs fn_path pre [] ("" :: rest) [] paths_ok Hpre eq_refl)
    as [o1 Hfirst].
  cbn [length app] in Hfirst. rewrite Hfirst, bind_ok.
  rewrite (entry_empty fs fn_path pre rest), bind_ok.
  pose proof (entries_after_gap fs fn_path rest (pre ++ [""])
                (pathlib.joinpath (pathlib.parent fn_path) <$> pre) false) as Hgap.
  rewrite length_app, <- app_assoc in Hgap. cbn [length app] in Hgap.
  rewrite Nat.add_1_r in Hgap. rewrite length_fmap in Hgap.
  specialize (Hgap ltac:(lia) Hrest).
  destruct (for_each (seq (S (length pre)) (length rest)) _ _) as [o2 r2].
  cbn [outcome snd] in Hgap. rewrite Hgap. reflexivity.
Qed.

End cubemap_file.

(** X3: a parameter file whose cubemap list has six names, with an empty
    entry somewhere and the name of a missing file somewhere after it,
    makes [get_parameters] raise IndexError, whatever the other valid
    items before it and whatever follows it. *)
Theorem cubemap_gap_always_raises (fs : filesystem) (fn_path : Path)
    (before after : list (string * json)) (pre rest : list string)
    (surface_name : string) :
  fs fn_path
  = Some (RegularFile (Some (JDict
      (before ++ ("cubemap", JList (JStr <$> (pre ++ "" :: rest))) :: after)))) →
  Forall (spec.valid_item fs fn_path) before →
  length (pre ++ "" :: rest) = 6 →
  Forall (λ s, pystr.nonempty s = true) pre →
  Exists (λ s, pystr.nonempty s = true
               ∧ is_file fs (pathlib.joinpath (pathlib.parent fn_path) s) = false) rest →
  outcome (PBR_Skybox_Texturing.get_parameters fs fn_path surface_name)
  = Raise IndexError.
Proof.
  intros Hfile Hbefore Hlen Hpre Hrest.
  unfold PBR_Skybox_Texturing.get_parameters, open_json_load. rewrite Hfile.
  rewrite bind_ret. cbn [dict_items]. rewrite bind_ret.
  rewrite for_each_app, (load_items_valid_flag fs fn_path before true ∅ Hbefore), bind_ok.
  cbn [for_each].
  pose proof (load_cubemap_gap fs fn_path pre rest true
                (foldl (spec.store_item fn_path) ∅ before) Hlen Hpre Hrest) as Hgap.
  destruct (PBR_Skybox_Texturing.load_item _ _ _ _) as [o r].
  cbn [outcome snd] in Hgap. subst r. reflexivity.
Qed.

Lemma cubemap_gap_always_raises_witness :
  outcome (PBR_Skybox_Texturing.get_parameters fixtures.skybox
             (pathlib.of_string "/d/gap.json") "Torus")
  = Raise IndexError.
Proof.
  apply (cubemap_gap_always_raises fixtures.skybox (pathlib.of_string "/d/gap.json")
           [] [] [] ["absent.jpg"; "py.jpg"; "ny.jpg"; "pz.jpg"; "nz.jpg"] "Torus").
  - reflexivity.
  - apply Forall_nil_2.
  - reflexivity.
  - apply Forall_nil_2.
  - apply Exists_cons_hd. by split.
Defined.

(** X4: a parameter file whose other items are valid and whose cubemap
    list has six names in which no empty entry comes before the name of a
    missing file is loaded without an exception: [paths_ok] is True
    exactly when all six entries name existing files, and the cubemap
    entry of the dictionary holds the resolved non-empty names. *)
Theorem cubemap_reported (fs : filesystem) (fn_path : Path)
    (before after : list (string * json)) (pre rest : list string)
    (surface_name : string) :
  fs fn_path
  = Some (RegularFile (Some (JDict
      (before ++ ("cubemap", JList (JStr <$> (pre ++ rest))) :: after)))) →
  Forall (spec.valid_item fs fn_path) before →
  Forall (spec.valid_item fs fn_path) after →
  "cubemap" ∉ after.*1 →
  length (pre ++ rest) = 6 →
  Forall (λ s, pystr.nonempty s = true) pre →
  Forall (λ s, pystr.nonempty s = false
               ∨ is_file fs (pathlib.joinpath (pathlib.parent fn_path) s) = true) rest →
  ∃ out parameters,
    PBR_Skybox_Texturing.get_parameters fs fn_path surface_name
    = (out, Ok (forallb (spec.entry_ok fs fn_path) (pre ++ rest), parameters))
    ∧ parameters !! "cubemap"
      = Some (PBR_Skybox_Texturing.VPaths (spec.kept_faces fn_path (pre ++ rest))).
Proof.
  intros Hfile Hbefore Hafter Hfresh Hlen Hpre Hrest.
  unfold PBR_Skybox_Texturing.get_parameters, open_json_load. rewrite Hfile.
  rewrite bind_ret. cbn [dict_items]. rewrite bind_ret.
  rewrite for_each_app, (load_items_valid_flag fs fn_path before true ∅ Hbefore), bind_ok.
  cbn [for_each].
  destruct (load_cubemap_reported fs fn_path pre rest true
              (foldl (spec.store_item fn_path) ∅ before) Hlen Hpre Hrest) as [o ->].
  rewrite bind_ok, (load_items_valid_flag fs fn_path after _ _ Hafter).
  cbn [stdout outcome fst snd andb]. rewrite bind_ok. cbn [stdout outcome fst snd].
  eexists _, _. split; [reflexivity|].
  assert (∀ m : gmap string PBR_Skybox_Texturing.value,
            (if pystr.nonempty surface_name
             then <["object" := PBR_Skybox_Texturing.VJson (JStr surface_name)]>
                    (if PBR_Skybox_Texturing.object_unset m
                     then <["object" := PBR_Skybox_Texturing.VJson (JStr "Boy")]> m
                     else m)
             else if PBR_Skybox_Texturing.object_unset m
                  then <["object" := PBR_Skybox_Texturing.VJson (JStr "Boy")]> m
                  else m) !! "cubemap" = m !! "cubemap") as ->.
  { intros m. destruct (pystr.nonempty surface_name),
      (PBR_Skybox_Texturing.object_unset m); by rewrite ?lookup_insert_ne. }
  rewrite lookup_stored_absent by done. by rewrite lookup_insert_eq.
Qed.

Lemma cubemap_reported_witness :
  ∃ out parameters,
    PBR_Skybox_Texturing.get_parameters fixtures.late_gap
      (pathlib.of_string "/d/late.json") ""
    = (out, Ok (false, parameters))
    ∧ parameters !! "cubemap"
      = Some (PBR_Skybox_Texturing.VPaths
                (pathlib.of_string <$> ["/d/absent.jpg"; "/d/nx.jpg"; "/d/ny.jpg";
                                        "/d/pz.jpg"; "/d/nz.jpg"])).
Proof.
  apply (cubemap_reported fixtures.late_gap (pathlib.of_string "/d/late.json")
           [] [] ["absent.jpg"; "nx.jpg"] [""; "ny.jpg"; "pz.jpg"; "nz.jpg"] "").
  - reflexivity.
  - apply Forall_nil_2.
  - apply Forall_nil_2.
  - apply not_elem_of_nil.
  - reflexivity.
  - by repeat constructor.
  - repeat constructor; by (left + right).
Defined.

(** ** The texture check, both ways *)

Lemma check_texture_step (parameters : gmap string PBR_Skybox_Texturing.value)
    (name : string) (b : bool) :
  ∃ out,
    PBR_Skybox_Texturing.check_texture parameters name b
    = (out, Ok (b && spec.present parameters name))
    ∧ length out = if spec.present parameters name then 0 else 1.
Proof.
  unfold PBR_Skybox_Texturing.check_texture, spec.present.
  destruct (parameters !! name) as [x|].
  - destruct (PBR_Skybox_Texturing.value_truthy x); cbn [negb].
    + exists []. by rewrite andb_true_r.
    + eexists. rewrite andb_false_r. by split.
  - eexists. rewrite andb_false_r. by split.
Qed.

Lemma check_textures_run (parameters : gmap string PBR_Skybox_Texturing.value)
    (wanted : list string) (b : bool) :
  ∃ out,
    for_each wanted (PBR_Skybox_Texturing.check_texture parameters) b
    = (out, Ok (b && forallb (spec.present parameters) wanted))
    ∧ length out
      = length (List.filter (λ name, negb (spec.present parameters name)) wanted).
Proof.
  revert b. induction wanted as [|name wanted IH]; intros b.
  - exists []. simpl. by rewrite andb_true_r.
  - cbn [for_each forallb List.filter].
    destruct (check_texture_step parameters name b) as (o1 & -> & Hone).
    destruct (IH (b && spec.present parameters name)) as (o2 & Hrest & Htwo).
    rewrite bind_ok, Hrest. exists (o1 ++ o2).
    cbn [stdout outcome fst snd]. rewrite andb_assoc. split; [done|].
    rewrite length_app, Hone, Htwo.
    by destruct (spec.present parameters name).
Qed.

(** X5: [check_for_missing_textures] never raises; it returns True exactly
    when every wanted texture has a non-empty entry, and it prints one
    line for each wanted texture that has none. *)
Theorem check_for_missing_textures_exact
    (parameters : gmap string PBR_Skybox_Texturing.value) (wanted : list string) :
  ∃ out,
    PBR_Skybox_Texturing.check_for_missing_textures parameters wanted
    = (out, Ok (forallb (spec.present parameters) wanted))
    ∧ length out
      = length (List.filter (λ name, negb (spec.present parameters name)) wanted).
Proof.
  unfold PBR_Skybox_Texturing.check_for_missing_textures.
  destruct (check_textures_run parameters wanted true) as (out & Hrun & Hlen).
  by exists out.
Qed.

(** ** Calling the screenshot callback *)

(** X6: a [PrintCallback] that its constructor returned never raises when
    it is called.  Without a file name every call prints that one is
    required and writes nothing; with one, a call writes a single file,
    at the path fixed by the constructor, for the key code 'k', and
    neither prints nor writes for any other key. *)
Theorem print_callback_calls (cwd : Path) (caller : vtk.ref) (file_name : string)
    (quality : Z) (rgba : bool) (out : list string)
    (self : PBR_Skybox_Texturing.PrintCallback) (key_code : string) :
  PBR_Skybox_Texturing.init_PrintCallback cwd caller file_name quality rgba
  = (out, Ok self) →
  match PBR_Skybox_Texturing.path self with
  | None =>
      file_name = ""
      ∧ out = ["A file name is required."]
      ∧ PBR_Skybox_Texturing.call_PrintCallback self key_code
        = (["A file name is required."], Ok None)
  | Some p =>
      out = []
      ∧ if String.eqb key_code "k" then
          ∃ w, PBR_Skybox_Texturing.call_PrintCallback self key_code
               = (["Screenshot saved to: " +:+ pathlib.str p], Ok (Some w))
               ∧ vtk.written_to w = p
               ∧ vtk.written_scale w = quality
               ∧ vtk.written_rgba w = rgba
        else PBR_Skybox_Texturing.call_PrintCallback self key_code = ([], Ok None)
  end.
Proof.
  unfold PBR_Skybox_Texturing.init_PrintCallback.
  destruct file_name as [|c file_name]; cbn [pystr.nonempty negb].
  - intros [= <- <-]. cbn [PBR_Skybox_Texturing.path]. by repeat split.
  - cbv zeta. destruct (pathlib.with_suffix _ _) as [p|e]; [|done].
    intros [= <- <-]. cbn [PBR_Skybox_Texturing.path]. split; [done|].
    unfold PBR_Skybox_Texturing.call_PrintCallback.
    cbn [PBR_Skybox_Texturing.path PBR_Skybox_Texturing.suffix
         PBR_Skybox_Texturing.image_quality PBR_Skybox_Texturing.rgba].
    destruct (String.eqb key_code "k"); [|done].
    rewrite bind_ret. eexists. split; [reflexivity|]. done.
Qed.

Lemma print_callback_calls_witness :
  PBR_Skybox_Texturing.call_PrintCallback
    (PBR_Skybox_Texturing.mkPrintCallback 0 1 false
       (Some (pathlib.of_string "/home/u/shot.jpg")) (Some ".jpg")) "q"
  = ([], Ok None).
Proof.
  pose proof
    (print_callback_calls (pathlib.of_string "/home/u") 0 "shot.JPG" 1 false []
       (PBR_Skybox_Texturing.mkPrintCallback 0 1 false
          (Some (pathlib.of_string "/home/u/shot.jpg")) (Some ".jpg"))
       "q" eq_refl) as [_ Hcall].
  exact Hcall.
Defined.

(** ** Froggie: the folder and the tissues *)

Lemma removelast_snoc {A : Type} (l : list A) (x : A) : removelast (l ++ [x]) = l.
Proof. apply removelast_last. Qed.

(** The path built for a tissue with a plain name. *)
Lemma source_of_plain (path : Path) (name : string) :
  spec.plain_name name →
  pathlib.with_suffix (pathlib.joinpath path name) ".vtk"
  = Ok (spec.tissue_source path name).
Proof.
  intros (Hparse & Hsuffix & Hne).
  unfold pathlib.joinpath. rewrite Hparse. cbn [pathlib.root pathlib.parts pystr.nonempty].
  unfold pathlib.with_suffix, pathlib.suffix, pathlib.name.
  cbn [pathlib.root pathlib.parts]. rewrite last_last, removelast_snoc, Hne, Hsuffix.
  reflexivity.
Qed.

(** Every name of the tissue table is plain, and its entry has a known
    transform, a colour of the table and an opacity between 0 and 1. *)
Lemma known_tissue (name : string) (t : Froggie.tissue) :
  Froggie.create_tissue_map !! name = Some t →
  spec.plain_name name
  ∧ (∃ tr, Froggie.SliceOrder.get (Froggie.transform t) = ([], Ok (Some tr)))
  ∧ is_Some (Froggie.create_frog_lut !! Z.to_nat (Froggie.lut_index t))
  ∧ spec.unit_interval (Froggie.opacity t).
Proof.
  revert name t. apply map_Forall_lookup.
  unfold Froggie.create_tissue_map. cbv zeta.
  repeat (apply map_Forall_insert_2;
          [ cbn [Froggie.lut_index Froggie.transform Froggie.opacity];
            split; [by repeat split|];
            split; [by eexists|]; split; [by eexists|]; split; reflexivity | ]).
  apply map_Forall_empty.
Qed.

Lemma create_frog_actor_built (file_name tissue_name transform : string)
    (tr : Froggie.SliceOrder.transform) :
  Froggie.SliceOrder.get transform = ([], Ok (Some tr)) →
  Froggie.create_frog_actor file_name tissue_name transform
  = ([], Ok (Froggie.mkActor file_name (Some tr) (String.eqb tissue_name "brainbin")
               None None)).
Proof.
  intros Htr. unfold Froggie.create_frog_actor. rewrite Htr, bind_ok.
  by destruct (String.eqb tissue_name "brainbin").
Qed.

Lemma main_tissue_unbound (fs : filesystem) (path : Path)
    (tm : gmap string Froggie.tissue) (lut : list Froggie.lut_entry)
    (tissue_name : string) (actors : list Froggie.actor) (res : list string) :
  is_dir fs path = false →
  Froggie.main_tissue fs path tm lut tissue_name (None, actors, res)
  = ([], Raise UnboundLocalError).
Proof. intros Hdir. unfold Froggie.main_tissue. by rewrite Hdir. Qed.

(** X7: when the data folder is not a directory, Froggie's [main] prints
    nothing and raises UnboundLocalError at the first tissue; no message
    about the folder is ever printed. *)
Theorem froggie_folder_missing (fs : filesystem) (data_folder tissue_name : string)
    (tissues : list string) :
  is_dir fs (pathlib.of_string data_folder) = false →
  Froggie.main fs data_folder (tissue_name :: tissues) = ([], Raise UnboundLocalError).
Proof.
  intros Hdir. unfold Froggie.main. cbv zeta. cbn [for_each].
  by rewrite (main_tissue_unbound _ _ _ _ _ _ _ Hdir).
Qed.

Lemma froggie_folder_missing_witness :
  Froggie.main fixtures.frog "frog/skin.vtk" ["skin"; "liver"]
  = ([], Raise UnboundLocalError).
Proof. apply froggie_folder_missing. reflexivity. Defined.

Lemma run_eta {A : Type} (m : py A) : (stdout m, outcome m) = m.
Proof. by destruct m. Qed.

Section froggie_folder.

Variables (fs : filesystem) (path : Path).
Hypothesis folder : is_dir fs path = true.

Let has_file (name : string) : bool := is_file fs (spec.tissue_source path name).
Let source_name (name : string) : string := pathlib.str (spec.tissue_source path name).

Lemma main_tissue_known (name : string) (t : Froggie.tissue) (source : option Path)
    (actors : list Froggie.actor) (res : list string) :
  Froggie.create_tissue_map !! name = Some t →
  if has_file name then
    ∃ a line,
      Froggie.main_tissue fs path Froggie.create_tissue_map Froggie.create_frog_lut
        name (source, actors, res)
      = ([], Ok (Some (spec.tissue_source path name), actors ++ [a], res ++ [line]))
      ∧ Froggie.reader_file a = source_name name
      ∧ spec.frog_actor_ok a
  else
    ∃ line,
      Froggie.main_tissue fs path Froggie.create_tissue_map Froggie.create_frog_lut
        name (source, actors, res)
      = ([line], Ok (Some (spec.tissue_source path name), actors, res)).
Proof using folder.
  intros Hname.
  destruct (known_tissue name t Hname) as (Hplain & [tr Htr] & Hcolour & Hopacity).
  unfold Froggie.main_tissue. rewrite folder, (source_of_plain path name Hplain).
  unfold builtins.lift. rewrite bind_ok. cbn [stdout outcome fst snd app].
  unfold has_file. destruct (is_file fs (spec.tissue_source path name)); cbn [negb].
  - eexists _, _. split; [|split].
    + rewrite run_eta, bind_ret. cbn [Froggie.read_local].
      rewrite bind_ret. unfold Froggie.tissue_getitem. rewrite Hname, bind_ret.
      rewrite (create_frog_actor_built _ name _ tr Htr), bind_ok.
      cbn [app]. rewrite run_eta. reflexivity.
    + reflexivity.
    + exists (Froggie.opacity t). split; [reflexivity|].
      split; [exact Hopacity | exact Hcolour].
  - eexists. rewrite run_eta. unfold print. rewrite bind_ok. reflexivity.
Qed.

Lemma main_tissues_known (tissues : list string) (source : option Path)
    (actors : list Froggie.actor) (res : list string) :
  Forall (λ name, is_Some (Froggie.create_tissue_map !! name)) tissues →
  ∃ out source' added res',
    for_each tissues
      (Froggie.main_tissue fs path Froggie.create_tissue_map Froggie.create_frog_lut)
      (source, actors, res)
    = (out, Ok (source', actors ++ added, res'))
    ∧ Froggie.reader_file <$> added = source_name <$> List.filter has_file tissues
    ∧ length out = length (List.filter (λ name, negb (has_file name)) tissues)
    ∧ Forall spec.frog_actor_ok added.
Proof using folder.
  revert source actors res.
  induction tissues as [|name tissues IH]; intros source actors res Hknown.
  - exists [], source, [], res. cbn [for_each]. rewrite app_nil_r. by repeat split.
  - apply Forall_cons in Hknown as [[t Hname] Hknown].
    pose proof (main_tissue_known name t source actors res Hname) as Hstep.
    cbn [for_each List.filter]. destruct (has_file name); cbn [negb].
    + destruct Hstep as (a & line & -> & Hfile & Hok).
      destruct (IH (Some (spec.tissue_source path name)) (actors ++ [a]) (res ++ [line])
                  Hknown) as (out & source' & added & res' & Hrest & Hfiles & Hout & Hall).
      rewrite bind_ok, Hrest. exists out, source', (a :: added), res'.
      cbn [stdout outcome fst snd app]. rewrite <- app_assoc. cbn [app].
      split; [done|]. rewrite fmap_cons, Hfile, Hfiles.
      split; [done|]. split; [done|]. by apply Forall_cons.
    + destruct Hstep as (line & ->).
      destruct (IH (Some (spec.tissue_source path name)) actors res Hknown)
        as (out & source' & added & res' & Hrest & Hfiles & Hout & Hall).
      rewrite bind_ok, Hrest. exists (line :: out), source', added, res'.
      cbn [stdout outcome fst snd app]. split; [done|]. split; [done|].
      split; [|done]. simpl. by rewrite Hout.
Qed.

End froggie_folder.

(** X8: when the data folder is a directory and every requested tissue is
    a name of the tissue table, Froggie's [main] raises nothing.  It
    makes one actor for each tissue whose file [<folder>/<tissue>.vtk]
    exists, in the order requested, each with an opacity between 0 and 1
    and a colour of the lookup table, and prints one line for each
    tissue whose file is missing and then the summary. *)
Theorem froggie_known_tissues (fs : filesystem) (data_folder : string)
    (tissues : list string) :
  let path := pathlib.of_string data_folder in
  let has_file name := is_file fs (spec.tissue_source path name) in
  is_dir fs path = true →
  Forall (λ name, is_Some (Froggie.create_tissue_map !! name)) tissues →
  ∃ out actors,
    Froggie.main fs data_folder tissues = (out, Ok actors)
    ∧ Froggie.reader_file <$> actors
      = (λ name, pathlib.str (spec.tissue_source path name))
          <$> List.filter has_file tissues
    ∧ length out = S (length (List.filter (λ name, negb (has_file name)) tissues))
    ∧ Forall spec.frog_actor_ok actors.
Proof.
  intros path has_file Hdir Hknown. unfold Froggie.main. cbv zeta.
  destruct (main_tissues_known fs path Hdir tissues None []
              ["Using the following tissues:"] Hknown)
    as (out & source' & added & res' & Hrun & Hfiles & Hout & Hall).
  fold path. rewrite Hrun, bind_ok. cbn [app].
  exists (out ++ [pystr.join_lines res']), added.
  split; [reflexivity|]. split; [exact Hfiles|]. split; [|exact Hall].
  rewrite length_app, Hout. cbn [length]. rewrite Nat.add_1_r. reflexivity.
Qed.

Lemma froggie_known_tissues_witness :
  ∃ out actors,
    Froggie.main fixtures.frog "frog" ["skin"; "heart"; "liver"] = (out, Ok actors)
    ∧ Froggie.reader_file <$> actors = ["frog/skin.vtk"; "frog/liver.vtk"]
    ∧ length out = 2
    ∧ Forall spec.frog_actor_ok actors.
Proof.
  apply (froggie_known_tissues fixtures.frog "frog" ["skin"; "heart"; "liver"]).
  - reflexivity.
  - repeat constructor; by eexists.
Defined.

Section froggie_unknown.

Variables (fs : filesystem) (path : Path).
Hypothesis folder : is_dir fs path = true.

(** In a folder that exists, an iteration does not read [source]. *)
Lemma main_tissue_rebinds (name : string) (s1 s2 : option Path)
    (actors : list Froggie.actor) (res : list string) :
  Froggie.main_tissue fs path Froggie.create_tissue_map Froggie.create_frog_lut
    name (s1, actors, res)
  = Froggie.main_tissue fs path Froggie.create_tissue_map Froggie.create_frog_lut
      name (s2, actors, res).
Proof using folder. unfold Froggie.main_tissue. by rewrite folder. Qed.

Lemma main_tissue_unknown (name : string) (src : Path) (source : option Path)
    (actors : list Froggie.actor) (res : list string) :
  pathlib.with_suffix (pathlib.joinpath path name) ".vtk" = Ok src →
  Froggie.create_tissue_map !! name = None →
  Froggie.main_tissue fs path Froggie.create_tissue_map Froggie.create_frog_lut
    name (source, actors, res)
  = if is_file fs src then ([], Raise KeyError)
    else (["The file: " +:+ pathlib.str src +:+ " does not exist."],
          Ok (Some src, actors, res)).
Proof using folder.
  intros Hsrc Hname. unfold Froggie.main_tissue. rewrite folder, Hsrc.
  unfold builtins.lift. rewrite bind_ok. cbn [app].
  destruct (is_file fs src); cbn [negb].
  - rewrite run_eta, bind_ret. cbn [Froggie.read_local]. rewrite bind_ret.
    unfold Froggie.tissue_getitem. by rewrite Hname.
  - rewrite run_eta. unfold print. rewrite bind_ok. reflexivity.
Qed.

(** The actors and the lines of the loop do not depend on the [source]
    it starts with. *)
Lemma main_tissues_rebind (tissues : list string) (s1 s2 : option Path)
    (actors : list Froggie.actor) (res : list string) :
  let run s :=
    for_each tissues
      (Froggie.main_tissue fs path Froggie.create_tissue_map Froggie.create_frog_lut)
      (s, actors, res) in
  stdout (run s1) = stdout (run s2)
  ∧ match outcome (run s1), outcome (run s2) with
    | Ok (_, a1, r1), Ok (_, a2, r2) => a1 = a2 ∧ r1 = r2
    | Raise e1, Raise e2 => e1 = e2
    | _, _ => False
    end.
Proof using folder.
  cbv zeta. destruct tissues as [|name tissues]; [done|].
  cbn [for_each]. rewrite (main_tissue_rebinds name s1 s2).
  destruct (Froggie.main_tissue _ _ _ _ _ _) as [o [[[s a] r]|e]]; [|done].
  rewrite bind_ok. cbn [stdout outcome fst snd]. split; [done|].
  destruct (for_each tissues _ _) as [o' [[[s' a'] r']|e']]; done.
Qed.

End froggie_unknown.

Lemma frog_main_loop (fs : filesystem) (data_folder : string) (tissues : list string) :
  Froggie.main fs data_folder tissues
  = ('(_, actors, res) ← spec.frog_loop fs (pathlib.of_string data_folder) tissues;
     print (pystr.join_lines res);;
     mret actors).
Proof. reflexivity. Qed.

(** X9: in a data folder that exists, a tissue that is not in the tissue
    table, wherever it stands in the request.  If an earlier tissue has
    already raised, nothing changes.  Otherwise the tissue raises KeyError
    exactly when its file exists; when the file is missing it is skipped
    with the message about the file, printed after the lines of the
    tissues before it, and [main] goes on with the other tissues as if
    it had not been named: same actors, same later lines, same outcome. *)
Theorem froggie_unknown_tissue (fs : filesystem) (data_folder name : string)
    (before after : list string) (src : Path) :
  let path := pathlib.of_string data_folder in
  is_dir fs path = true →
  pathlib.with_suffix (pathlib.joinpath path name) ".vtk" = Ok src →
  Froggie.create_tissue_map !! name = None →
  match outcome (spec.frog_loop fs path before) with
  | Raise e =>
      Froggie.main fs data_folder (before ++ name :: after)
      = (stdout (spec.frog_loop fs path before), Raise e)
  | Ok _ =>
      if is_file fs src then
        Froggie.main fs data_folder (before ++ name :: after)
        = (stdout (spec.frog_loop fs path before), Raise KeyError)
      else
        ∃ rest,
          Froggie.main fs data_folder (before ++ after)
          = (stdout (spec.frog_loop fs path before) ++ rest,
             outcome (Froggie.main fs data_folder (before ++ after)))
          ∧ Froggie.main fs data_folder (before ++ name :: after)
            = (stdout (spec.frog_loop fs path before)
                 ++ ("The file: " +:+ pathlib.str src +:+ " does not exist.") :: rest,
               outcome (Froggie.main fs data_folder (before ++ after)))
  end.
Proof.
  intros path Hdir Hsrc Hname. rewrite !frog_main_loop. fold path.
  unfold spec.frog_loop. rewrite !for_each_app.
  destruct (for_each before _ _) as [o [[[s a] r]|e]]; cbn [outcome stdout fst snd].
  2: { by rewrite !bind_raise. }
  rewrite !bind_ok. cbn [for_each].
  rewrite (main_tissue_unknown fs path Hdir name src s a r Hsrc Hname).
  destruct (is_file fs src).
  { rewrite bind_raise. cbn [stdout outcome fst snd]. by rewrite bind_raise, app_nil_r. }
  rewrite bind_ok.
  destruct (main_tissues_rebind fs path Hdir after (Some src) s a r) as [Hout Hres].
  cbv zeta in Hout, Hres.
  destruct (for_each after _ (Some src, a, r)) as [o1 r1].
  destruct (for_each after _ (s, a, r)) as [o2 r2].
  cbn [stdout outcome fst snd] in Hout, Hres. subst o2.
  destruct r1 as [[[s1 a1] l1]|e1], r2 as [[[s2 a2] l2]|e2]; try done.
  - destruct Hres as [-> ->]. cbn [stdout outcome fst snd app].
    rewrite !bind_ok. cbn [stdout outcome fst snd app].
    rewrite <- !app_assoc. eexists. split; reflexivity.
  - subst e2. cbn [stdout outcome fst snd app]. rewrite !bind_raise.
    cbn [stdout outcome fst snd app]. rewrite <- ?app_assoc.
    eexists. split; reflexivity.
Qed.

Lemma froggie_unknown_tissue_witness :
  Froggie.main fixtures.frog "frog" ["liver"; "skin.x"; "skin"]
  = (stdout (spec.frog_loop fixtures.frog (pathlib.of_string "frog") ["liver"]),
     Raise KeyError)
  ∧ ∃ rest,
      Froggie.main fixtures.frog "frog" ["liver"; "skin"]
      = (stdout (spec.frog_loop fixtures.frog (pathlib.of_string "frog") ["liver"])
           ++ rest,
         outcome (Froggie.main fixtures.frog "frog" ["liver"; "skin"]))
      ∧ Froggie.main fixtures.frog "frog" ["liver"; "tongue"; "skin"]
        = (stdout (spec.frog_loop fixtures.frog (pathlib.of_string "frog") ["liver"])
             ++ "The file: frog/tongue.vtk does not exist." :: rest,
           outcome (Froggie.main fixtures.frog "frog" ["liver"; "skin"])).
Proof.
  split.
  - exact (froggie_unknown_tissue fixtures.frog "frog" "skin.x" ["liver"] ["skin"]
             (pathlib.of_string "frog/skin.vtk") eq_refl eq_refl eq_refl).
  - exact (froggie_unknown_tissue fixtures.frog "frog" "tongue" ["liver"] ["skin"]
             (pathlib.of_string "frog/tongue.vtk") eq_refl eq_refl eq_refl).
Defined.

(** ** PhysicallyBasedRendering: the cube map and the textures *)

Lemma build_file_names_run (fs : filesystem) (folder_root : Path)
    (file_names : list string) (fns : list Path) :
  PhysicallyBasedRendering.build_file_names fs folder_root file_names fns
  = match spec.first_missing fs folder_root file_names with
    | Some fn =>
        (["Nonexistent texture file: "
            +:+ pathlib.str (pathlib.joinpath folder_root fn)], Ok None)
    | None => ([], Ok (Some (fns ++ (pathlib.joinpath folder_root <$> file_names))))
    end.
Proof.
  revert fns. induction file_names as [|fn file_names IH]; intros fns.
  - simpl. by rewrite app_nil_r.
  - cbn [PhysicallyBasedRendering.build_file_names]. cbv zeta.
    unfold spec.first_missing. cbn [List.find].
    destruct (negb (is_file fs (pathlib.joinpath folder_root fn))); [done|].
    rewrite IH. unfold spec.first_missing.
    destruct (List.find _ file_names); [done|].
    by rewrite fmap_cons, <- app_assoc.
Qed.

Lemma read_cube_map_run (fs : filesystem) (folder_root : Path)
    (file_names : list string) :
  PhysicallyBasedRendering.read_cube_map fs folder_root file_names
  = match spec.first_missing fs folder_root file_names with
    | Some fn =>
        (["Nonexistent texture file: "
            +:+ pathlib.str (pathlib.joinpath folder_root fn)], Ok None)
    | None =>
        ([], Ok (Some (vtk.mkCubeMap
                         ((λ fn, pathlib.str (pathlib.joinpath folder_root fn))
                            <$> file_names))))
    end.
Proof.
  unfold PhysicallyBasedRendering.read_cube_map. rewrite build_file_names_run.
  destruct (spec.first_missing fs folder_root file_names); [done|].
  rewrite bind_ok. cbn [app stdout outcome fst snd]. by rewrite <- list_fmap_compose.
Qed.

(** X10: what [read_cube_map] itself decides (the image readers are
    recorded, not run).  When a face is missing it prints one line, naming
    the first missing face, and returns None without looking at the later
    ones; when all faces exist it prints nothing and returns a cube map
    whose inputs are the faces in the order given.  It raises in neither
    case. *)
Theorem read_cube_map_exact (fs : filesystem) (folder_root : Path)
    (file_names : list string) :
  PhysicallyBasedRendering.read_cube_map fs folder_root file_names
  = match spec.first_missing fs folder_root file_names with
    | Some fn =>
        (["Nonexistent texture file: "
            +:+ pathlib.str (pathlib.joinpath folder_root fn)], Ok None)
    | None =>
        ([], Ok (Some (vtk.mkCubeMap
                         ((λ fn, pathlib.str (pathlib.joinpath folder_root fn))
                            <$> file_names))))
    end.
Proof. apply read_cube_map_run. Qed.

Lemma get_texture_run (fs : filesystem) (image_path : string) :
  ∃ out,
    PhysicallyBasedRendering.get_texture fs image_path
    = (out, Ok (if spec.loads fs image_path
                then Some (vtk.mkTexture (pathlib.str (pathlib.of_string image_path)))
                else None)).
Proof.
  unfold PhysicallyBasedRendering.get_texture, spec.loads. cbv zeta.
  change PhysicallyBasedRendering.valid_extensions with spec.raster_formats.
  destruct (is_file fs (pathlib.of_string image_path)); cbn [negb andb].
  - destruct (pystr.in_list _ spec.raster_formats); by eexists.
  - by eexists.
Qed.

(** X11: the cube map folder of PhysicallyBasedRendering.  A path that
    is not a directory is reported and [main] returns; a directory whose
    name is not one of skybox0, skybox1, skybox2 raises KeyError; a known
    folder that lacks a face has the missing face reported twice, once
    for the cube map and once for the skybox, before AttributeError is
    raised on the skybox that was not built. *)
Theorem pbr_main_folder (v : vtk.build) (fs : filesystem)
    (path material_fn albedo_fn normal_fn emissive_fn surface : string) :
  let cube_path := pathlib.of_string path in
  let run :=
    PhysicallyBasedRendering.main v fs path material_fn albedo_fn normal_fn
      emissive_fn surface in
  PhysicallyBasedRendering.vtk_version_ok v 8 90 0 = true →
  (is_dir fs cube_path = false →
     run = (["This path does not exist: " +:+ pathlib.str cube_path], Ok None))
  ∧ (is_dir fs cube_path = true →
     PhysicallyBasedRendering.skybox_files !! pathlib.name cube_path = None →
     run = ([], Raise KeyError))
  ∧ (is_dir fs cube_path = true →
     ∀ files fn,
       PhysicallyBasedRendering.skybox_files !! pathlib.name cube_path = Some files →
       spec.first_missing fs cube_path files = Some fn →
       let line :=
         "Nonexistent texture file: "
           +:+ pathlib.str (pathlib.joinpath cube_path fn) in
       run = ([line; line], Raise AttributeError)).
Proof.
  intros cube_path run Hversion. subst run.
  unfold PhysicallyBasedRendering.main. rewrite Hversion. cbn [negb]. cbv zeta.
  fold cube_path. split; [|split].
  - by intros ->.
  - intros -> Hname. cbn [negb].
    unfold PhysicallyBasedRendering.skybox_files_getitem. by rewrite Hname.
  - intros -> files fn Hname Hmissing. cbn [negb].
    unfold PhysicallyBasedRendering.skybox_files_getitem. rewrite Hname, bind_ret.
    rewrite read_cube_map_run, Hmissing, bind_ok.
    rewrite bind_ret, read_cube_map_run, Hmissing, bind_ok.
    reflexivity.
Qed.

Lemma pbr_main_folder_witness :
  PhysicallyBasedRendering.main fixtures.vtk_8_90 fixtures.skyboxes
    "nowhere" "m.png" "albedo.png" "n.png" "emissive.png" "Boy"
  = (["This path does not exist: nowhere"], Ok None)
  ∧ PhysicallyBasedRendering.main fixtures.vtk_8_90 fixtures.skyboxes
      "sky" "m.png" "albedo.png" "n.png" "emissive.png" "Boy"
    = ([], Raise KeyError)
  ∧ PhysicallyBasedRendering.main fixtures.vtk_8_90 fixtures.skyboxes
      "skybox0" "m.png" "albedo.png" "n.png" "emissive.png" "Boy"
    = (["Nonexistent texture file: skybox0/top.jpg";
        "Nonexistent texture file: skybox0/top.jpg"], Raise AttributeError).
Proof.
  split; [|split].
  - apply (pbr_main_folder fixtures.vtk_8_90 fixtures.skyboxes "nowhere");
      reflexivity.
  - apply (pbr_main_folder fixtures.vtk_8_90 fixtures.skyboxes "sky"); reflexivity.
  - destruct (pbr_main_folder fixtures.vtk_8_90 fixtures.skyboxes "skybox0"
                "m.png" "albedo.png" "n.png" "emissive.png" "Boy" eq_refl)
      as (_ & _ & Hface).
    eapply (Hface eq_refl _ "top.jpg"); reflexivity.
Defined.

(** X12: the textures of PhysicallyBasedRendering, in a known folder with
    all its faces.  [main] reaches the scene exactly when the albedo and
    the emissive textures load; if one of them does not, AttributeError is
    raised.  The material and the normal textures are not checked: when
    one does not load the scene is built with None in its place. *)
Theorem pbr_main_textures (v : vtk.build) (fs : filesystem)
    (path material_fn albedo_fn normal_fn emissive_fn surface : string)
    (files : list string) :
  let cube_path := pathlib.of_string path in
  let run :=
    PhysicallyBasedRendering.main v fs path material_fn albedo_fn normal_fn
      emissive_fn surface in
  PhysicallyBasedRendering.vtk_version_ok v 8 90 0 = true →
  is_dir fs cube_path = true →
  PhysicallyBasedRendering.skybox_files !! pathlib.name cube_path = Some files →
  spec.first_missing fs cube_path files = None →
  if spec.loads fs albedo_fn && spec.loads fs emissive_fn then
    ∃ out sc,
      run = (out, Ok (Some sc))
      ∧ (PhysicallyBasedRendering.scene_material sc = None
         ↔ spec.loads fs material_fn = false)
      ∧ (PhysicallyBasedRendering.scene_normal sc = None
         ↔ spec.loads fs normal_fn = false)
      ∧ PhysicallyBasedRendering.scene_cubemap sc
        = Some (PhysicallyBasedRendering.scene_skybox sc)
      ∧ vtk.cube_faces (PhysicallyBasedRendering.scene_skybox sc)
        = (λ fn, pathlib.str (pathlib.joinpath cube_path fn)) <$> files
      ∧ PhysicallyBasedRendering.scene_source sc
        = PhysicallyBasedRendering.main_surface surface
  else outcome run = Raise AttributeError.
Proof.
  intros cube_path run Hversion Hdir Hname Hfaces. subst run.
  unfold PhysicallyBasedRendering.main. rewrite Hversion. cbn [negb]. cbv zeta.
  fold cube_path. rewrite Hdir. cbn [negb].
  unfold PhysicallyBasedRendering.skybox_files_getitem. rewrite Hname, bind_ret.
  rewrite read_cube_map_run, Hfaces, bind_ok.
  rewrite bind_ret, read_cube_map_run, Hfaces, bind_ok.
  cbn [stdout outcome fst snd app PhysicallyBasedRendering.method_of].
  rewrite bind_ret.
  destruct (get_texture_run fs material_fn) as [o1 ->].
  destruct (get_texture_run fs albedo_fn) as [o2 ->].
  destruct (get_texture_run fs normal_fn) as [o3 ->].
  destruct (get_texture_run fs emissive_fn) as [o4 ->].
  rewrite !bind_ok.
  destruct (spec.loads fs albedo_fn); cbn [andb PhysicallyBasedRendering.method_of];
    [|reflexivity].
  rewrite bind_ret, !bind_ok.
  destruct (spec.loads fs emissive_fn); cbn [PhysicallyBasedRendering.method_of];
    [|reflexivity].
  rewrite bind_ret. eexists _, _. split; [reflexivity|].
  cbn [PhysicallyBasedRendering.scene_material PhysicallyBasedRendering.scene_normal
       PhysicallyBasedRendering.scene_cubemap PhysicallyBasedRendering.scene_skybox
       PhysicallyBasedRendering.scene_source vtk.cube_faces].
  split; [by destruct (spec.loads fs material_fn)|].
  split; [by destruct (spec.loads fs normal_fn)|]. done.
Qed.

Lemma pbr_main_textures_witness :
  (∃ out sc,
     PhysicallyBasedRendering.main fixtures.vtk_8_90 fixtures.skyboxes
       "skybox2" "material.png" "albedo.png" "normal.hdr" "emissive.png" "Torus"
     = (out, Ok (Some sc))
     ∧ PhysicallyBasedRendering.scene_material sc = None
     ∧ PhysicallyBasedRendering.scene_normal sc = None)
  ∧ outcome
      (PhysicallyBasedRendering.main fixtures.vtk_8_90 fixtures.skyboxes
         "skybox2" "albedo.png" "normal.hdr" "albedo.png" "emissive.png" "Torus")
    = Raise AttributeError.
Proof.
  split.
  - destruct (pbr_main_textures fixtures.vtk_8_90 fixtures.skyboxes
                "skybox2" "material.png" "albedo.png" "normal.hdr" "emissive.png" "Torus"
                _ eq_refl eq_refl eq_refl eq_refl)
      as (out & sc & Hrun & Hmaterial & Hnormal & _).
    exists out, sc. split; [exact Hrun|]. split.
    + by apply Hmaterial.
    + by apply Hnormal.
  - exact (pbr_main_textures fixtures.vtk_8_90 fixtures.skyboxes
             "skybox2" "albedo.png" "normal.hdr" "albedo.png" "emissive.png" "Torus"
             _ eq_refl eq_refl eq_refl eq_refl).
Defined.

(** ** The slice orders that return nothing *)

(** X13: what [SliceOrder.get] returns for the codes it knows.  Each of
    the thirteen codes returns without printing; for 'ap' and 'pa', whose
    methods return the value of [t.Scale] and not the transform, the
    result is None, and for the eleven others it is a transform.  Given
    such a None, [create_frog_actor] raises AttributeError when the tissue
    is brainbin, the one tissue for which it calls methods of the
    transform, and for any other tissue it returns an actor whose filter
    was handed None as its transform. *)
Theorem slice_order_results :
  (∀ order : string,
     order ∈ spec.slice_orders →
     ∃ r, Froggie.SliceOrder.get order = ([], Ok r)
          ∧ (r = None ↔ order ∈ ["ap"; "pa"]))
  ∧ (∀ file_name tissue_name order : string,
       Froggie.SliceOrder.get order = ([], Ok None) →
       Froggie.create_frog_actor file_name tissue_name order
       = if String.eqb tissue_name "brainbin" then ([], Raise AttributeError)
         else ([], Ok (Froggie.mkActor file_name None false None None))).
Proof.
  split.
  - intros order. unfold spec.slice_orders. rewrite !elem_of_cons, elem_of_nil.
    intros H. repeat (destruct H as [H|H]); try done; subst order;
      eexists; (split; [reflexivity|]); split; try done; set_solver.
  - intros file_name tissue_name order Hnone.
    unfold Froggie.create_frog_actor. rewrite Hnone, bind_ok.
    by destruct (String.eqb tissue_name "brainbin").
Qed.

Lemma slice_order_results_witness :
  Froggie.SliceOrder.get "pa" = ([], Ok None)
  ∧ Froggie.create_frog_actor "frog/brainbin.vtk" "brainbin" "ap"
    = ([], Raise AttributeError)
  ∧ Froggie.create_frog_actor "frog/skin.vtk" "skin" "ap"
    = ([], Ok (Froggie.mkActor "frog/skin.vtk" None false None None)).
Proof.
  destruct slice_order_results as [Hknown Hactor].
  split; [|split].
  - destruct (Hknown "pa") as (r & Hrun & Hnone); [compute_done|].
    rewrite Hrun. f_equal. f_equal. apply Hnone. compute_done.
  - exact (Hactor "frog/brainbin.vtk" "brainbin" "ap" eq_refl).
  - exact (Hactor "frog/skin.vtk" "skin" "ap" eq_refl).
Defined.

(** ** What the loaded dictionary holds *)

Lemma load_item_shaped (fs : filesystem) (fn_path : Path) (kv : string * json)
    (st st' : bool * gmap string PBR_Skybox_Texturing.value) (o : list string) :
  PBR_Skybox_Texturing.load_item fs fn_path kv st = (o, Ok st') →
  map_Forall spec.shaped st.2 → map_Forall spec.shaped st'.2.
Proof.
  destruct kv as [k v], st as [paths_ok parameters].
  unfold PBR_Skybox_Texturing.load_item. cbn [fst snd].
  case_bool_decide as Hcopy.
  { intros [_ <-]%ret_inv Hs. cbn [snd]. by apply map_Forall_insert_2. }
  case_bool_decide as Hpath; [|by intros [_ <-]%ret_inv].
  destruct (String.eqb k "cubemap") eqn:Hk.
  - apply String.eqb_eq in Hk as ->.
    intros Hrun Hs. apply bind_ok_inv in Hrun as (o1 & n & o2 & _ & Hrun & _).
    apply bind_ok_inv in Hrun as (o3 & [cm ok] & o4 & _ & Hrun & _).
    apply ret_inv in Hrun as [_ <-]. cbn [snd]. by apply map_Forall_insert_2.
  - apply String.eqb_neq in Hk.
    destruct (builtins.truthy v).
    + intros Hrun Hs. apply bind_ok_inv in Hrun as (o1 & p & o2 & _ & Hrun & _).
      destruct (negb (is_file fs p || is_dir fs p)).
      * unfold print2 in Hrun. apply print_then_inv in Hrun as [_ <-].
        cbn [snd]. by apply map_Forall_insert_2.
      * apply ret_inv in Hrun as [_ <-]. cbn [snd]. by apply map_Forall_insert_2.
    + unfold print2. by intros [_ <-]%print_then_inv.
Qed.

Lemma get_parameters_shaped (fs : filesystem) (fn_path : Path) (surface_name : string)
    (out : list string) (paths_ok : bool)
    (parameters : gmap string PBR_Skybox_Texturing.value) :
  PBR_Skybox_Texturing.get_parameters fs fn_path surface_name
  = (out, Ok (paths_ok, parameters)) →
  map_Forall spec.shaped parameters.
Proof.
  unfold PBR_Skybox_Texturing.get_parameters. intros Hrun.
  apply bind_ok_inv in Hrun as (o1 & j & o2 & _ & Hrun & _).
  apply bind_ok_inv in Hrun as (o3 & items & o4 & _ & Hrun & _).
  apply bind_ok_inv in Hrun as (o5 & [ok loaded] & o6 & Hloop & Hrun & _).
  apply ret_inv in Hrun as [_ [= _ <-]].
  assert (map_Forall spec.shaped loaded) as Hloaded.
  { eapply (for_each_invariant
              (λ s : bool * gmap string PBR_Skybox_Texturing.value,
                 map_Forall spec.shaped s.2)) in Hloop.
    - exact Hloop.
    - intros kv s o s' Hitem Hs. by eapply load_item_shaped.
    - cbn [snd]. apply map_Forall_empty. }
  assert (spec.shaped "object" (PBR_Skybox_Texturing.VJson (JStr "Boy"))) as Hboy
    by (cbn; compute_done).
  destruct (pystr.nonempty surface_name);
    destruct (PBR_Skybox_Texturing.object_unset loaded);
    repeat apply map_Forall_insert_2; try done; cbn; compute_done.
Qed.

Example studio_faces_loaded :
  ∃ parameters,
    PBR_Skybox_Texturing.get_parameters fixtures.studio
      (pathlib.of_string "/s/faces.json") ""
    = ([], Ok (true, parameters))
    ∧ parameters !! "cubemap"
      = Some (PBR_Skybox_Texturing.VPaths
                (pathlib.of_string <$>
                   ["/s/px.jpg"; "/s/nx.jpg"; "/s/py.jpg"; "/s/ny.jpg"; "/s/pz.jpg";
                    "/s/nz.jpg"]))
    ∧ parameters !! "albedo"
      = Some (PBR_Skybox_Texturing.VPath (pathlib.of_string "/s/albedo.png"))
    ∧ parameters !! "emissive"
      = Some (PBR_Skybox_Texturing.VPath (pathlib.of_string "/s/emissive.png"))
    ∧ parameters !! "material"
      = Some (PBR_Skybox_Texturing.VPath (pathlib.of_string "/s/orm.hdr"))
    ∧ parameters !! "normal"
      = Some (PBR_Skybox_Texturing.VPath (pathlib.of_string "/s/normal.png"))
    ∧ forallb (spec.present parameters) spec.wanted_textures = true.
Proof. eexists. split; [reflexivity|]. by vm_compute. Qed.

(** X14: the type of each value of the dictionary [get_parameters]
    returns follows from its key.  Under object, objcolor, bkgcolor and
    skybox it is the JSON value of the file (or the name of the surface);
    under cubemap it is a list of paths; under every other path key it is
    one path. *)
Theorem get_parameters_shapes (fs : filesystem) (fn_path : Path) (surface_name : string)
    (out : list string) (paths_ok : bool)
    (parameters : gmap string PBR_Skybox_Texturing.value) :
  PBR_Skybox_Texturing.get_parameters fs fn_path surface_name
  = (out, Ok (paths_ok, parameters)) →
  ∀ k x, parameters !! k = Some x → spec.shaped k x.
Proof. intros Hrun k x Hk. by eapply get_parameters_shaped. Qed.

Lemma get_parameters_shapes_witness :
  ∃ parameters,
    PBR_Skybox_Texturing.get_parameters fixtures.studio
      (pathlib.of_string "/s/faces.json") ""
    = ([], Ok (true, parameters))
    ∧ spec.shaped "cubemap"
        (PBR_Skybox_Texturing.VPaths
           (pathlib.of_string <$>
              ["/s/px.jpg"; "/s/nx.jpg"; "/s/py.jpg"; "/s/ny.jpg"; "/s/pz.jpg";
               "/s/nz.jpg"])).
Proof.
  destruct studio_faces_loaded as (parameters & Hrun & Hcube & _).
  exists parameters. split; [exact Hrun|].
  exact (get_parameters_shapes _ _ _ _ _ _ Hrun _ _ Hcube).
Defined.

(** ** The display of the parameters *)

Section display.

Variables (repr : PBR_Skybox_Texturing.value → string)
  (parameters : gmap string PBR_Skybox_Texturing.value).

Lemma display_cubemap_step (k : string) (l : list Path) (idx : nat) (p : Path)
    (res : list string) :
  parameters !! k = Some (PBR_Skybox_Texturing.VPaths l) →
  l !! idx = Some p →
  PBR_Skybox_Texturing.display_cubemap repr parameters k idx res
  = ([], Ok (res ++ [if (idx =? 0)%nat
                     then pystr.ljust 15 k +:+ ": " +:+ pathlib.str p
                     else pystr.spaces 17 +:+ pathlib.str p])).
Proof.
  intros Hk Hp.
  unfold PBR_Skybox_Texturing.display_cubemap, PBR_Skybox_Texturing.parameters_getitem.
  rewrite Hk. cbv iota. rewrite !bind_ret.
  cbn [PBR_Skybox_Texturing.value_getitem]. unfold builtins.list_getitem.
  rewrite Hp. cbv iota. rewrite !bind_ret. by destruct (idx =? 0)%nat.
Qed.

Lemma display_cubemap_rest (k : string) (l : list Path) :
  parameters !! k = Some (PBR_Skybox_Texturing.VPaths l) →
  ∀ l2 l1 res, l = l1 ++ l2 → l1 ≠ [] →
    for_each (seq (length l1) (length l2))
      (PBR_Skybox_Texturing.display_cubemap repr parameters k) res
    = ([], Ok (res ++ ((λ p, pystr.spaces 17 +:+ pathlib.str p) <$> l2))).
Proof.
  intros Hk. induction l2 as [|p l2 IH]; intros l1 res Hl Hl1.
  - simpl. by rewrite app_nil_r.
  - cbn [length seq for_each].
    rewrite (display_cubemap_step k l (length l1) p res Hk)
      by (by rewrite Hl, lookup_app_r, Nat.sub_diag).
    destruct (length l1 =? 0)%nat eqn:Hzero.
    { apply Nat.eqb_eq in Hzero. by destruct l1. }
    rewrite bind_ok.
    specialize (IH (l1 ++ [p]) (res ++ [pystr.spaces 17 +:+ pathlib.str p])).
    rewrite length_app in IH. cbn [length] in IH. rewrite Nat.add_1_r in IH.
    rewrite IH.
    + cbn [stdout outcome fst snd app]. by rewrite <- app_assoc.
    + by rewrite <- app_assoc.
    + by destruct l1.
Qed.

Lemma display_parameter_shown (k : string) (res : list string) :
  map_Forall spec.shaped parameters →
  PBR_Skybox_Texturing.display_parameter repr parameters k res
  = ([], Ok (res ++ spec.shown repr parameters k)).
Proof.
  intros Hshaped.
  unfold PBR_Skybox_Texturing.display_parameter, spec.shown,
    PBR_Skybox_Texturing.has_key, PBR_Skybox_Texturing.parameters_getitem.
  destruct (parameters !! k) as [x|] eqn:Hx.
  2: { destruct (String.eqb k "cubemap"); cbn [negb]; by rewrite app_nil_r. }
  destruct (String.eqb k "cubemap") eqn:Hk; cbn [negb].
  2: by rewrite bind_ret.
  apply String.eqb_eq in Hk as ->.
  pose proof (Hshaped _ _ Hx) as Hshape.
  destruct x as [j|p|l]; cbn in Hshape.
  - exfalso. revert Hshape. compute_done.
  - by destruct Hshape.
  - rewrite bind_ret. cbn [PBR_Skybox_Texturing.value_len]. rewrite bind_ret.
    destruct l as [|p l]; [simpl; by rewrite app_nil_r|].
    cbn [length seq for_each].
    rewrite (display_cubemap_step "cubemap" (p :: l) 0 p res Hx) by done.
    rewrite bind_ok.
    rewrite (display_cubemap_rest "cubemap" (p :: l) Hx l [p]) by done.
    cbn [stdout outcome fst snd app Nat.eqb spec.cubemap_lines].
    by rewrite <- app_assoc.
Qed.

End display.

Lemma for_each_collect {A B : Type} (body : A → list B → py (list B))
    (g : A → list B) (l : list A) :
  (∀ x res, body x res = ([], Ok (res ++ g x))) →
  ∀ res, for_each l body res = ([], Ok (res ++ concat (g <$> l))).
Proof.
  intros Hbody. induction l as [|x l IH]; intros res.
  - simpl. by rewrite app_nil_r.
  - cbn [for_each]. rewrite Hbody, bind_ok, IH.
    cbn [stdout outcome fst snd app fmap list_fmap concat]. by rewrite <- app_assoc.
Qed.

Lemma display_parameters_run (repr : PBR_Skybox_Texturing.value → string)
    (parameters : gmap string PBR_Skybox_Texturing.value) :
  map_Forall spec.shaped parameters →
  PBR_Skybox_Texturing.display_parameters repr parameters
  = ([], Ok (concat (spec.shown repr parameters
                       <$> PBR_Skybox_Texturing.parameter_keys))).
Proof.
  intros Hshaped. unfold PBR_Skybox_Texturing.display_parameters.
  rewrite (for_each_collect _ (spec.shown repr parameters)); [done|].
  intros k res. by apply display_parameter_shown.
Qed.

(** X15: [display_parameters] on a dictionary that [get_parameters]
    returned.  It raises nothing and prints nothing; it returns, for the
    twelve keys in their fixed order, one line for each key that is
    present, the key padded to fifteen characters, a colon and the value,
    except that the cubemap gives one line for each of its paths, the
    first one labelled in that way and the others indented by seventeen
    spaces.  A key that is absent, and a cubemap without paths, gives no
    line. *)
Theorem display_parameters_loaded (repr : PBR_Skybox_Texturing.value → string)
    (fs : filesystem) (fn_path : Path) (surface_name : string)
    (out : list string) (paths_ok : bool)
    (parameters : gmap string PBR_Skybox_Texturing.value) :
  PBR_Skybox_Texturing.get_parameters fs fn_path surface_name
  = (out, Ok (paths_ok, parameters)) →
  PBR_Skybox_Texturing.display_parameters repr parameters
  = ([], Ok (concat (spec.shown repr parameters
                       <$> PBR_Skybox_Texturing.parameter_keys))).
Proof. intros Hrun. apply display_parameters_run. by eapply get_parameters_shaped. Qed.

Lemma display_parameters_loaded_witness :
  ∃ parameters,
    PBR_Skybox_Texturing.get_parameters fixtures.studio
      (pathlib.of_string "/s/faces.json") ""
    = ([], Ok (true, parameters))
    ∧ PBR_Skybox_Texturing.display_parameters fixtures.repr parameters
      = ([], Ok (concat (spec.shown fixtures.repr parameters
                           <$> PBR_Skybox_Texturing.parameter_keys))).
Proof.
  destruct studio_faces_loaded as (parameters & Hrun & _).
  exists parameters. split; [exact Hrun|].
  exact (display_parameters_loaded fixtures.repr _ _ _ _ _ _ Hrun).
Defined.

(** ** The environment *)

Section environment.

Import PBR_Skybox_Texturing.

Variables (hdr : vtk.vtkHDRReader) (parameters : gmap string value).

Lemma use_cubemap_ignored :
  spec.present parameters "skybox" = false →
  main_environment hdr parameters true = main_environment hdr parameters false.
Proof.
  unfold spec.present, main_environment, parameters_getitem.
  destruct (parameters !! "skybox") as [x|]; [|done].
  intros Hx. rewrite !bind_ret. cbv beta. by rewrite Hx.
Qed.

End environment.

Ltac py_inv H :=
  repeat
    (let o1 := fresh "o" in let a := fresh "a" in let o2 := fresh "o" in
     let Hm := fresh "Hm" in
     apply bind_ok_inv in H as (o1 & a & o2 & Hm & H & _));
  try (apply ret_inv in H as [_ H]).

Section environment_flags.

Import PBR_Skybox_Texturing.

Variables (hdr : vtk.vtkHDRReader) (parameters : gmap string value).

Lemma equirectangular_file_to_cubemap_inv (p : Path) (flip : bool) (out : list string)
    (c : cube_map_texture) :
  equirectangular_file_to_cubemap hdr p flip = (out, Ok c) →
  ∃ t, c = EquirectangularToCubeMap t.
Proof.
  unfold equirectangular_file_to_cubemap. intros Hrun. py_inv Hrun. by eexists.
Qed.

Lemma read_cubemap_inv (x : value) (out : list string) (c : cube_map_texture) :
  read_cubemap x = (out, Ok c) → ∃ inputs, c = CubeMapFiles inputs.
Proof. unfold read_cubemap. intros Hrun. py_inv Hrun. by eexists. Qed.

Lemma main_environment_flags (use_cubemap : bool) (out : list string) (env : environment) :
  main_environment hdr parameters use_cubemap = (out, Ok (Some env)) →
  gamma_correct env = is_hdr env
  ∧ has_cube_map env
    = spec.present parameters "skybox" || negb (spec.present parameters "equirectangular")
  ∧ (if has_env_texture env then
       ∃ p, parameters !! "equirectangular" = Some (VPath p)
            ∧ is_hdr env
              = pystr.contains (pystr.lower (pathlib.suffix p)) ".hdr .pic"
            ∧ (∃ o, equirectangular_file_to_texture hdr p false
                    = (o, Ok (env_texture env)))
            ∧ (if has_cube_map env
               then ∃ t, cube_map env = Some (EquirectangularToCubeMap t)
               else cube_map env = None)
     else
       is_hdr env = false ∧ has_cube_map env = true ∧ env_texture env = None
       ∧ ∃ inputs, cube_map env = Some (CubeMapFiles inputs)).
Proof.
  unfold main_environment, parameters_getitem, spec.present, key_truthy, has_key.
  destruct (parameters !! "skybox") as [s|] eqn:Hs; [|done].
  rewrite bind_ret. cbv beta zeta.
  destruct ((if negb (value_truthy s) then false else use_cubemap)
            && match parameters !! "cubemap" with Some _ => true | None => false end)
    eqn:Hfirst.
  { intros Hrun. py_inv Hrun. injection Hrun as <-. cbn.
    destruct (value_truthy s); [|done]. cbn.
    apply read_cubemap_inv in Hm1 as [inputs ->]. repeat split; by eexists. }
  destruct (parameters !! "equirectangular") as [e|] eqn:He.
  - destruct (value_truthy e) eqn:Hte.
    + intros Hrun.
      apply bind_ok_inv in Hrun as (o1 & [] & o2 & _ & Hrun & _).
      apply bind_ok_inv in Hrun as (o3 & e' & o4 & [_ <-]%ret_inv & Hrun & _).
      apply bind_ok_inv in Hrun as (o5 & p & o6 & Hp & Hrun & _).
      destruct e as [j|p'|l]; try done. apply ret_inv in Hp as [_ ->].
      apply bind_ok_inv in Hrun as (o7 & t & o8 & Ht & Hrun & _).
      rewrite bind_ret in Hrun. rewrite orb_false_r.
      destruct (value_truthy s).
      * apply bind_ok_inv in Hrun as (o9 & c & o10 & Hc & Hrun & _).
        apply ret_inv in Hrun as [_ [= <-]]. cbn.
        apply equirectangular_file_to_cubemap_inv in Hc as [t' ->].
        repeat split; eexists; repeat split; by eexists.
      * apply ret_inv in Hrun as [_ [= <-]]. cbn.
        repeat split. eexists. repeat split. by eexists.
    + destruct (parameters !! "cubemap") as [c|] eqn:Hc; [|done].
      destruct (value_truthy c); [|done].
      intros Hrun. py_inv Hrun. injection Hrun as <-. cbn.
      apply read_cubemap_inv in Hm1 as [inputs ->].
      rewrite orb_true_r. repeat split; by eexists.
  - destruct (parameters !! "cubemap") as [c|] eqn:Hc; [|done].
    destruct (value_truthy c); [|done].
    intros Hrun. py_inv Hrun. injection Hrun as <-. cbn.
    apply read_cubemap_inv in Hm1 as [inputs ->].
    rewrite orb_true_r. repeat split; by eexists.
Qed.

End environment_flags.

(** ** The test for a high dynamic range file *)

Lemma startswith_prefixes (s t : string) :
  pystr.startswith t s = true ↔ t ∈ spec.prefixes s.
Proof.
  revert t. induction s as [|c s IH]; intros t.
  - destruct t; simpl; [split; [intros _; by left|done]|].
    split; [done|]. intros [Heq|Hin]%elem_of_cons; [done|by apply elem_of_nil in Hin].
  - destruct t as [|a t]; cbn [pystr.startswith spec.prefixes].
    { split; [intros _; by left|done]. }
    rewrite andb_true_iff, Ascii.eqb_eq, IH, elem_of_cons, list_elem_of_fmap.
    split.
    + intros [-> Ht]. right. by exists t.
    + intros [Heq|(u & [= -> ->] & Hu)]; done.
Qed.

Lemma contains_substrings (s t : string) :
  pystr.contains t s = true ↔ t ∈ spec.substrings s.
Proof.
  induction s as [|c s IH]; cbn [pystr.contains spec.substrings].
  - rewrite orb_false_r, app_nil_r. apply startswith_prefixes.
  - rewrite orb_true_iff, elem_of_app, IH. by rewrite startswith_prefixes.
Qed.

Lemma is_dot_lower_char (c : ascii) : pystr.is_dot (pystr.lower_char c) = pystr.is_dot c.
Proof. by destruct c as [[] [] [] [] [] [] [] []]. Qed.

Lemma rfind_dot_lower (s : string) : pystr.rfind_dot (pystr.lower s) = pystr.rfind_dot s.
Proof.
  induction s as [|c s IH]; [done|]. simpl. by rewrite IH, is_dot_lower_char.
Qed.

Lemma suffix_like_lower (s : string) :
  spec.suffix_like (pystr.lower s) = spec.suffix_like s.
Proof.
  destruct s as [|c s]; [done|]. cbn [pystr.lower spec.suffix_like].
  rewrite is_dot_lower_char, rfind_dot_lower. by destruct s.
Qed.

Lemma rfind_dot_drop (s : string) (i : nat) :
  pystr.rfind_dot s = Some i →
  ∃ c r, pystr.drop i s = String c r ∧ pystr.is_dot c = true
         ∧ pystr.rfind_dot r = None.
Proof.
  revert i. induction s as [|c s IH]; intros i; simpl; [done|].
  destruct (pystr.rfind_dot s) as [j|] eqn:Hj.
  - intros [= <-]. simpl. by apply IH.
  - destruct (pystr.is_dot c) eqn:Hc; intros [= <-]. simpl. by exists c, s.
Qed.

Lemma name_suffix_like (nm : string) :
  spec.suffix_like (pathlib.name_suffix nm) = true.
Proof.
  unfold pathlib.name_suffix.
  destruct (pystr.rfind_dot nm) as [i|] eqn:Hi; [|done].
  destruct ((0 <? i) && (i <? String.length nm - 1)) eqn:Hin; [|done].
  apply andb_true_iff in Hin as [_ Hlt%Nat.ltb_lt].
  pose proof (length_drop i nm) as Hlen.
  destruct (rfind_dot_drop nm i Hi) as (c & r & Hdrop & Hc & Hr).
  rewrite Hdrop in Hlen |- *. cbn [spec.suffix_like]. rewrite Hc, Hr.
  destruct r; [simpl in Hlen; lia|done].
Qed.

Lemma hdr_suffix_test (p : Path) :
  pystr.contains (pystr.lower (pathlib.suffix p)) ".hdr .pic" = true
  ↔ pystr.lower (pathlib.suffix p) ∈ spec.hdr_suffixes.
Proof.
  split.
  - intros Hin%contains_substrings.
    assert (spec.suffix_like (pystr.lower (pathlib.suffix p)) = true) as Hlike.
    { rewrite suffix_like_lower. apply name_suffix_like. }
    assert (pystr.lower (pathlib.suffix p)
              ∈ List.filter spec.suffix_like (spec.substrings ".hdr .pic")) as Hsome.
    { apply list_elem_of_In, List.filter_In. by rewrite <- list_elem_of_In. }
    revert Hsome. generalize (pystr.lower (pathlib.suffix p)). intros sfx.
    vm_compute List.filter. unfold spec.hdr_suffixes. set_solver.
  - intros Hin. apply contains_substrings. revert Hin.
    generalize (pystr.lower (pathlib.suffix p)). intros sfx.
    unfold spec.hdr_suffixes. vm_compute spec.substrings. set_solver.
Qed.

(** ** The textures of the environment and of the surface *)

Lemma bind_raise_inv {A B : Type} (f : A → py B) (m : py A) (e : exn) :
  outcome (mbind f m) = Raise e →
  outcome m = Raise e ∨ ∃ o a, m = (o, Ok a) ∧ outcome (f a) = Raise e.
Proof.
  destruct m as [o [a|e']].
  - rewrite bind_ok. intros Hf. right. exists o, a. split; [reflexivity|exact Hf].
  - rewrite bind_raise. intros [= ->]. by left.
Qed.

Lemma read_texture_run (p : Path) :
  ∃ out,
    PBR_Skybox_Texturing.read_texture p
    = (out, Ok (if spec.raster p then Some (vtk.mkTexture (pathlib.str p)) else None)).
Proof.
  unfold PBR_Skybox_Texturing.read_texture, spec.raster. cbv zeta.
  change PBR_Skybox_Texturing.valid_extensions with spec.raster_formats.
  destruct (pystr.in_list _ spec.raster_formats); by eexists.
Qed.

Lemma equirectangular_file_to_texture_run (hdr : vtk.vtkHDRReader) (p : Path)
    (flip_x : bool) :
  ∃ out,
    PBR_Skybox_Texturing.equirectangular_file_to_texture hdr p flip_x
    = (out,
       Ok (if spec.unreadable hdr p then None
           else Some (PBR_Skybox_Texturing.mkEquirectangular (pathlib.str p)
                        (negb (pystr.in_list (pystr.lower (pathlib.suffix p))
                                 [".jpeg"; ".jpg"; ".png"]))
                        flip_x)))
    ∧ length out = if spec.unreadable hdr p then 1 else 0.
Proof.
  unfold PBR_Skybox_Texturing.equirectangular_file_to_texture, spec.unreadable.
  cbv zeta.
  destruct (pystr.in_list _ [".jpeg"; ".jpg"; ".png"]); cbn [negb andb].
  { by eexists. }
  destruct (vtk.CanReadFile hdr (pathlib.str p)); cbn [negb orb].
  - destruct (vtk.in_GetFileExtensions hdr _); cbn [negb]; by eexists.
  - by eexists.
Qed.

Lemma equirectangular_file_to_cubemap_run (hdr : vtk.vtkHDRReader) (p : Path)
    (flip_x : bool) :
  ∃ out,
    PBR_Skybox_Texturing.equirectangular_file_to_cubemap hdr p flip_x
    = (out,
       Ok (PBR_Skybox_Texturing.EquirectangularToCubeMap
             (if spec.unreadable hdr p then None
              else Some (PBR_Skybox_Texturing.mkEquirectangular (pathlib.str p)
                           (negb (pystr.in_list (pystr.lower (pathlib.suffix p))
                                    [".jpeg"; ".jpg"; ".png"]))
                           flip_x))))
    ∧ length out = if spec.unreadable hdr p then 1 else 0.
Proof.
  unfold PBR_Skybox_Texturing.equirectangular_file_to_cubemap.
  destruct (equirectangular_file_to_texture_run hdr p flip_x) as (out & -> & Hlen).
  exists out. rewrite bind_ok. cbn [stdout outcome fst snd mret py_ret].
  by rewrite app_nil_r.
Qed.

Section scene.

Import PBR_Skybox_Texturing.

Variables (hdr : vtk.vtkHDRReader) (parameters : gmap string value).
Hypothesis shaped : map_Forall spec.shaped parameters.

Lemma shaped_path (k : string) (x : value) :
  k ∈ allowed_keys_paths → k ≠ "cubemap" →
  parameters !! k = Some x → ∃ p, x = VPath p.
Proof.
  intros Hk Hcube Hx. pose proof (shaped _ _ Hx) as Hshape.
  destruct x as [j|p|l]; cbn in Hshape.
  - exfalso. revert Hk Hshape. unfold allowed_keys_paths, allowed_keys_no_paths.
    set_solver.
  - by exists p.
  - done.
Qed.

Lemma shaped_cubemap (x : value) :
  parameters !! "cubemap" = Some x → ∃ l, x = VPaths l.
Proof.
  intros Hx. pose proof (shaped _ _ Hx) as Hshape.
  destruct x as [j|p|l]; cbn in Hshape.
  - exfalso. revert Hshape. compute_done.
  - by destruct Hshape.
  - by exists l.
Qed.

Lemma read_parameter_run (k : string) :
  k ∈ allowed_keys_paths → k ≠ "cubemap" →
  spec.present parameters k = true →
  ∃ p out,
    parameters !! k = Some (VPath p)
    ∧ read_parameter parameters k
      = (out, Ok (if spec.raster p then Some (vtk.mkTexture (pathlib.str p))
                  else None)).
Proof.
  intros Hk Hcube. unfold spec.present, read_parameter, parameters_getitem.
  destruct (parameters !! k) as [x|] eqn:Hx; [|done]. intros _.
  destruct (shaped_path k x Hk Hcube Hx) as [p ->].
  destruct (read_texture_run p) as [out Hrun].
  exists p, out. split; [done|]. rewrite bind_ret. cbn [as_path]. by rewrite bind_ret.
Qed.

Lemma main_environment_raises (use_cubemap : bool) (e : exn) :
  outcome (main_environment hdr parameters use_cubemap) = Raise e →
  e = KeyError ∧ parameters !! "skybox" = None.
Proof.
  unfold main_environment, parameters_getitem, key_truthy, has_key.
  destruct (parameters !! "skybox") as [s|] eqn:Hs; [|by intros [= <-]].
  rewrite bind_ret. cbv beta zeta.
  assert (∀ c, parameters !! "cubemap" = Some c →
            outcome
              (print "Using the cubemap files to generate the environment texture.";;
               cubemap ← (mret c : py value);
               cube_map ← read_cubemap cubemap;
               mret (Some (mkEnvironment (Some cube_map) None false false true false)))
            = Raise e → False) as Hfiles.
  { intros c Hc. destruct (shaped_cubemap c Hc) as [l ->]. done. }
  destruct ((if negb (value_truthy s) then false else use_cubemap)
            && match parameters !! "cubemap" with Some _ => true | None => false end)
    eqn:Hfirst.
  { destruct (parameters !! "cubemap") as [c|] eqn:Hc;
      [|by rewrite andb_false_r in Hfirst].
    intros Hrun. by destruct (Hfiles c eq_refl Hrun). }
  destruct (parameters !! "equirectangular") as [x|] eqn:Hx.
  - destruct (value_truthy x).
    + destruct (shaped_path "equirectangular" x) as [p ->]; [compute_done|done|done|].
      destruct (equirectangular_file_to_texture_run hdr p false) as (o1 & Hone & _).
      destruct (equirectangular_file_to_cubemap_run hdr p true) as (o2 & Htwo & _).
      unfold print.
      rewrite bind_ok, bind_ret. cbn [as_path]. rewrite bind_ret, Hone, bind_ok, bind_ret.
      destruct (value_truthy s).
      * by rewrite Htwo, bind_ok.
      * done.
    + destruct (parameters !! "cubemap") as [c|] eqn:Hc; [|done].
      destruct (value_truthy c); [|done].
      intros Hrun. by destruct (Hfiles c eq_refl Hrun).
  - destruct (parameters !! "cubemap") as [c|] eqn:Hc; [|done].
    destruct (value_truthy c); [|done].
    intros Hrun. by destruct (Hfiles c eq_refl Hrun).
Qed.

Lemma main_textures_run :
  forallb (spec.present parameters) spec.wanted_textures = true →
  ∃ a n m e,
    parameters !! "albedo" = Some (VPath a)
    ∧ parameters !! "normal" = Some (VPath n)
    ∧ parameters !! "material" = Some (VPath m)
    ∧ parameters !! "emissive" = Some (VPath e)
    ∧ if spec.raster a && spec.raster e then
        ∃ out,
          main_textures parameters
          = (out,
             Ok (mkTextures (vtk.mkTexture (pathlib.str a))
                   (if spec.raster n then Some (vtk.mkTexture (pathlib.str n))
                    else None)
                   (if spec.raster m then Some (vtk.mkTexture (pathlib.str m))
                    else None)
                   (vtk.mkTexture (pathlib.str e))))
      else outcome (main_textures parameters) = Raise AttributeError.
Proof.
  cbn [forallb spec.wanted_textures].
  rewrite !andb_true_iff. intros (Ha & Hn & Hm & He & _).
  destruct (read_parameter_run "albedo") as (a & o1 & Hka & Hra);
    [compute_done|done|done|].
  destruct (read_parameter_run "normal") as (n & o2 & Hkn & Hrn);
    [compute_done|done|done|].
  destruct (read_parameter_run "material") as (m & o3 & Hkm & Hrm);
    [compute_done|done|done|].
  destruct (read_parameter_run "emissive") as (e & o4 & Hke & Hre);
    [compute_done|done|done|].
  exists a, n, m, e. do 4 (split; [done|]).
  unfold main_textures. rewrite Hra, Hrn, Hrm, Hre. rewrite !bind_ok.
  destruct (spec.raster a); cbn [andb method_of]; [|reflexivity].
  rewrite bind_ret, !bind_ok.
  destruct (spec.raster e); cbn [method_of]; [|reflexivity].
  rewrite bind_ret. by eexists.
Qed.

End scene.

Section chosen.

Import PBR_Skybox_Texturing.

Variables (hdr : vtk.vtkHDRReader) (parameters : gmap string value)
  (use_cubemap : bool) (out : list string) (env : environment).
Hypothesis chosen : main_environment hdr parameters use_cubemap = (out, Ok (Some env)).

Lemma environment_actors_run :
  (skybox_actor env = None
   ↔ spec.present parameters "skybox" = false
     ∧ spec.present parameters "equirectangular" = true)
  ∧ (∀ c g, skybox_actor env = Some (c, g) →
       is_Some c ∧ g = (renderer_environment env).1)
  ∧ match (renderer_environment env).2 with
    | FromCubeMap c => ∃ inputs, c = Some (CubeMapFiles inputs)
    | FromEquirectangular t =>
        ∃ p, parameters !! "equirectangular" = Some (VPath p)
             ∧ (t = None ↔ spec.unreadable hdr p = true)
             ∧ (renderer_environment env).1
               = pystr.contains (pystr.lower (pathlib.suffix p)) ".hdr .pic"
    end.
Proof using chosen.
  destruct (main_environment_flags hdr parameters use_cubemap out env chosen)
    as (Hgamma & Hcube & Hrest).
  unfold skybox_actor, renderer_environment. rewrite Hgamma.
  destruct (has_env_texture env).
  - destruct Hrest as (p & Hp & Hhdr & [o Htexture] & Hmap).
    assert (spec.present parameters "equirectangular" = true) as Hpresent.
    { unfold spec.present. by rewrite Hp. }
    rewrite Hpresent, orb_false_r in Hcube.
    split; [|split].
    + rewrite Hcube.
      destruct (spec.present parameters "skybox"); [|done].
      destruct (is_hdr env); split; try done; by intros [? _].
    + intros c g. rewrite Hcube in Hmap |- *.
      destruct (spec.present parameters "skybox"); [|done].
      destruct Hmap as [t Hmap]. rewrite Hmap.
      destruct (is_hdr env); intros [= <- <-]; by split.
    + assert (env_texture env = None ↔ spec.unreadable hdr p = true) as Hnone.
      { destruct (equirectangular_file_to_texture_run hdr p false) as (o' & Hrun & _).
        rewrite Htexture in Hrun. injection Hrun as _ ->.
        by destruct (spec.unreadable hdr p). }
      destruct (is_hdr env); cbn [fst snd]; by exists p.
  - destruct Hrest as (Hhdr & Hhas & Htexture & inputs & Hmap).
    rewrite Hhas, Hhdr, Hmap. cbn [fst snd]. rewrite Hhas in Hcube.
    split; [|split].
    + split; [done|]. intros [Hsky Hequi]. by rewrite Hsky, Hequi in Hcube.
    + intros c g [= <- <-]. by split.
    + by exists inputs.
Qed.

Lemma hdr_by_substring_run :
  has_env_texture env = true →
  ∃ p, parameters !! "equirectangular" = Some (VPath p)
       ∧ (is_hdr env = true ↔ pystr.lower (pathlib.suffix p) ∈ spec.hdr_suffixes).
Proof using chosen.
  intros Hhas.
  destruct (main_environment_flags hdr parameters use_cubemap out env chosen)
    as (_ & _ & Hrest).
  rewrite Hhas in Hrest. destruct Hrest as (p & Hp & Hhdr & _).
  exists p. split; [done|]. rewrite Hhdr. apply hdr_suffix_test.
Qed.

End chosen.

(** X16: what lines 262 to 271 and 298 to 305 of [main] do with the
    environment that lines 120 to 153 chose.  No skybox actor is added
    exactly when the skybox entry is false or empty and the
    equirectangular entry is not; when one is added it has a cube map, and it is
    gamma corrected exactly when the renderer uses spherical harmonics.
    The renderer is given either a cube map read from the cubemap files,
    or the texture of the equirectangular file, which is None exactly when
    [equirectangular_file_to_texture] gave up on the file (the renderer is
    handed that None); in that second case spherical harmonics are on
    exactly when the lower-cased suffix of the file occurs in the string
    '.hdr .pic'. *)
Theorem environment_actors (hdr : vtk.vtkHDRReader)
    (parameters : gmap string PBR_Skybox_Texturing.value) (use_cubemap : bool)
    (out : list string) (env : PBR_Skybox_Texturing.environment) :
  PBR_Skybox_Texturing.main_environment hdr parameters use_cubemap
  = (out, Ok (Some env)) →
  (PBR_Skybox_Texturing.skybox_actor env = None
   ↔ spec.present parameters "skybox" = false
     ∧ spec.present parameters "equirectangular" = true)
  ∧ (∀ c g, PBR_Skybox_Texturing.skybox_actor env = Some (c, g) →
       is_Some c ∧ g = (PBR_Skybox_Texturing.renderer_environment env).1)
  ∧ match (PBR_Skybox_Texturing.renderer_environment env).2 with
    | PBR_Skybox_Texturing.FromCubeMap c =>
        ∃ inputs, c = Some (PBR_Skybox_Texturing.CubeMapFiles inputs)
    | PBR_Skybox_Texturing.FromEquirectangular t =>
        ∃ p, parameters !! "equirectangular" = Some (PBR_Skybox_Texturing.VPath p)
             ∧ (t = None ↔ spec.unreadable hdr p = true)
             ∧ (PBR_Skybox_Texturing.renderer_environment env).1
               = pystr.contains (pystr.lower (pathlib.suffix p)) ".hdr .pic"
    end.
Proof. apply environment_actors_run. Qed.

Lemma environment_actors_witness :
  ∃ out env,
    PBR_Skybox_Texturing.main_environment fixtures.hdr_reader fixtures.with_faces true
    = (out, Ok (Some env))
    ∧ PBR_Skybox_Texturing.skybox_actor env ≠ None.
Proof.
  eexists _, _. split; [reflexivity|].
  destruct (environment_actors fixtures.hdr_reader fixtures.with_faces true _ _ eq_refl)
    as (Hnone & _).
  intros [_ Hequi]%Hnone. revert Hequi. by vm_compute.
Defined.

(** X17: line 138 of [main] tests the suffix with [in] against the
    string '.hdr .pic', which is a substring test.  When the environment
    comes from an equirectangular file, the file is treated as a high
    dynamic range image exactly when its lower-cased suffix is one of
    '', '.h', '.hd', '.hdr', '.hdr ', '.p', '.pi' and '.pic': a file
    without a suffix counts as one, and so does a file named like a C
    header. *)
Theorem hdr_by_substring (hdr : vtk.vtkHDRReader)
    (parameters : gmap string PBR_Skybox_Texturing.value) (use_cubemap : bool)
    (out : list string) (env : PBR_Skybox_Texturing.environment) :
  PBR_Skybox_Texturing.main_environment hdr parameters use_cubemap
  = (out, Ok (Some env)) →
  PBR_Skybox_Texturing.has_env_texture env = true →
  ∃ p, parameters !! "equirectangular" = Some (PBR_Skybox_Texturing.VPath p)
       ∧ (PBR_Skybox_Texturing.is_hdr env = true
          ↔ pystr.lower (pathlib.suffix p) ∈ spec.hdr_suffixes).
Proof. apply hdr_by_substring_run. Qed.

Lemma hdr_by_substring_witness :
  ∃ out env,
    PBR_Skybox_Texturing.main_environment fixtures.hdr_reader fixtures.with_hdr false
    = (out, Ok (Some env))
    ∧ PBR_Skybox_Texturing.is_hdr env = true.
Proof.
  eexists _, _. split; [reflexivity|].
  destruct (hdr_by_substring fixtures.hdr_reader fixtures.with_hdr false _ _
              eq_refl eq_refl) as (p & Hp & Hhdr).
  vm_compute in Hp. injection Hp as <-. apply Hhdr. compute_done.
Defined.

(** X18: lines 156 to 161 of [main], on a dictionary that
    [get_parameters] returned and that has a non-empty entry for each of
    albedo, normal, material and emissive.  The four entries are paths.
    When the albedo and the emissive file both have one of the seven
    extensions of [read_texture], the four textures are read and nothing
    is raised: the normal and the material texture are None when their
    file has another extension.  Otherwise AttributeError is raised, on
    the None that [read_texture] returned for the albedo or the emissive
    file. *)
Theorem textures_checked (fs : filesystem) (fn_path : Path) (surface_name : string)
    (out : list string) (paths_ok : bool)
    (parameters : gmap string PBR_Skybox_Texturing.value) :
  PBR_Skybox_Texturing.get_parameters fs fn_path surface_name
  = (out, Ok (paths_ok, parameters)) →
  forallb (spec.present parameters) spec.wanted_textures = true →
  ∃ a n m e,
    parameters !! "albedo" = Some (PBR_Skybox_Texturing.VPath a)
    ∧ parameters !! "normal" = Some (PBR_Skybox_Texturing.VPath n)
    ∧ parameters !! "material" = Some (PBR_Skybox_Texturing.VPath m)
    ∧ parameters !! "emissive" = Some (PBR_Skybox_Texturing.VPath e)
    ∧ if spec.raster a && spec.raster e then
        ∃ out',
          PBR_Skybox_Texturing.main_textures parameters
          = (out',
             Ok (PBR_Skybox_Texturing.mkTextures (vtk.mkTexture (pathlib.str a))
                   (if spec.raster n then Some (vtk.mkTexture (pathlib.str n))
                    else None)
                   (if spec.raster m then Some (vtk.mkTexture (pathlib.str m))
                    else None)
                   (vtk.mkTexture (pathlib.str e))))
      else outcome (PBR_Skybox_Texturing.main_textures parameters)
           = Raise AttributeError.
Proof.
  intros Hrun Hhave. apply main_textures_run; [|done].
  by eapply get_parameters_shaped.
Qed.

Lemma textures_checked_witness :
  ∃ parameters out',
    PBR_Skybox_Texturing.get_parameters fixtures.studio
      (pathlib.of_string "/s/faces.json") ""
    = ([], Ok (true, parameters))
    ∧ PBR_Skybox_Texturing.main_textures parameters
      = (out',
         Ok (PBR_Skybox_Texturing.mkTextures (vtk.mkTexture "/s/albedo.png")
               (Some (vtk.mkTexture "/s/normal.png")) None
               (vtk.mkTexture "/s/emissive.png"))).
Proof.
  destruct studio_faces_loaded
    as (parameters & Hrun & _ & Halbedo & Hemissive & Hmaterial & Hnormal & Hhave).
  destruct (textures_checked _ _ _ _ _ _ Hrun Hhave)
    as (a & n & m & e & Ha & Hn & Hm & He & Htextures).
  assert (a = pathlib.of_string "/s/albedo.png") as -> by congruence.
  assert (e = pathlib.of_string "/s/emissive.png") as -> by congruence.
  assert (m = pathlib.of_string "/s/orm.hdr") as -> by congruence.
  assert (n = pathlib.of_string "/s/normal.png") as -> by congruence.
  destruct Htextures as [out' Htextures]. exists parameters, out'. by split.
Defined.

(** ** [main] from the parameters to the pipeline *)

Lemma main_proceeds (v : vtk.build) (fs : filesystem) (fn surface_name : string)
    (out : list string) (parameters : gmap string PBR_Skybox_Texturing.value) :
  PBR_Skybox_Texturing.main v fs fn surface_name
  = (out, Ok (PBR_Skybox_Texturing.Proceeds parameters)) →
  ∃ fn_path out',
    PBR_Skybox_Texturing.get_parameters fs fn_path surface_name
    = (out', Ok (true, parameters)).
Proof.
  unfold PBR_Skybox_Texturing.main.
  destruct (negb (PBR_Skybox_Texturing.vtk_version_ok v 9 0 0)); [done|]. cbv zeta.
  intros Hrun. apply bind_ok_inv in Hrun as (o1 & fn_path & o2 & _ & Hrun & _).
  apply bind_ok_inv in Hrun as (o3 & [] & o4 & _ & Hrun & _).
  apply bind_ok_inv in Hrun as (o5 & [paths_ok loaded] & o6 & Hget & Hrun & _).
  destruct paths_ok; cbn [negb] in Hrun; [|done].
  apply ret_inv in Hrun as [_ [= <-]]. by exists fn_path, o5.
Qed.

Lemma loaded_object (fs : filesystem) (fn_path : Path) (surface_name : string)
    (out : list string) (paths_ok : bool)
    (parameters : gmap string PBR_Skybox_Texturing.value) :
  PBR_Skybox_Texturing.get_parameters fs fn_path surface_name
  = (out, Ok (paths_ok, parameters)) →
  is_Some (parameters !! "object").
Proof.
  unfold PBR_Skybox_Texturing.get_parameters. intros Hrun.
  apply bind_ok_inv in Hrun as (o1 & j & o2 & _ & Hrun & _).
  apply bind_ok_inv in Hrun as (o3 & items & o4 & _ & Hrun & _).
  apply bind_ok_inv in Hrun as (o5 & [ok loaded] & o6 & _ & Hrun & _).
  apply ret_inv in Hrun as [_ [= _ <-]].
  destruct (pystr.nonempty surface_name); [by rewrite lookup_insert_eq|].
  unfold PBR_Skybox_Texturing.object_unset.
  destruct (loaded !! "object") as [x|] eqn:Hx.
  - destruct (PBR_Skybox_Texturing.value_truthy x); cbn [negb];
      [by rewrite Hx|by rewrite lookup_insert_eq].
  - by rewrite lookup_insert_eq.
Qed.

Lemma main_source_raises (parameters : gmap string PBR_Skybox_Texturing.value)
    (e : exn) :
  is_Some (parameters !! "object") →
  outcome (PBR_Skybox_Texturing.main_source parameters) = Raise e →
  e = AttributeError.
Proof.
  unfold PBR_Skybox_Texturing.main_source. intros [x ->].
  destruct x as [[]| |]; by intros [= <-].
Qed.

Lemma main_defaults_skybox (parameters : gmap string PBR_Skybox_Texturing.value) :
  is_Some (parameters !! "skybox") →
  PBR_Skybox_Texturing.main_defaults parameters !! "skybox" = parameters !! "skybox".
Proof.
  intros [s Hs]. unfold PBR_Skybox_Texturing.main_defaults, PBR_Skybox_Texturing.has_key.
  cbv zeta.
  destruct (parameters !! "bkgcolor") eqn:Hb; cbn [negb];
    rewrite ?(lookup_insert_ne _ "bkgcolor" "objcolor") by done;
    destruct (parameters !! "objcolor") eqn:Ho; cbn [negb];
    rewrite ?(lookup_insert_ne _ "objcolor" "skybox"),
      ?(lookup_insert_ne _ "bkgcolor" "skybox") by done;
    rewrite Hs; cbn [negb];
    rewrite ?(lookup_insert_ne _ "objcolor" "skybox"),
      ?(lookup_insert_ne _ "bkgcolor" "skybox") by done; done.
Qed.

Section proceeds.

Import PBR_Skybox_Texturing.

Variables (hdr : vtk.vtkHDRReader) (repr : value → string) (v : vtk.build)
  (fs : filesystem) (fn surface_name : string) (out0 : list string)
  (parameters : gmap string value).
Hypothesis proceeds : main v fs fn surface_name = (out0, Ok (Proceeds parameters)).

Lemma proceeds_shaped : map_Forall spec.shaped parameters.
Proof using proceeds.
  destruct (main_proceeds _ _ _ _ _ _ proceeds) as (fn_path & out' & Hget).
  by eapply get_parameters_shaped.
Qed.

Lemma proceeds_object : is_Some (parameters !! "object").
Proof using proceeds.
  destruct (main_proceeds _ _ _ _ _ _ proceeds) as (fn_path & out' & Hget).
  by eapply loaded_object.
Qed.

(** What is left of [main] once the textures have been checked. *)
Let tail (use_cubemap : bool) : py (option scene) :=
  if negb (forallb (spec.present parameters) spec.wanted_textures) then mret None
  else
    env ← main_environment hdr parameters use_cubemap;
    match env with
    | None => mret None
    | Some env =>
        t ← main_textures parameters;
        source ← main_source parameters;
        mret (Some (mkScene (main_defaults parameters) env t source))
    end.

Lemma main_scene_run :
  ∃ shown : list string,
    ∀ use_cubemap,
      main_scene hdr repr v fs fn surface_name use_cubemap
      = (out0 ++ shown ++ stdout (tail use_cubemap), outcome (tail use_cubemap)).
Proof using proceeds.
  destruct (check_textures_run parameters spec.wanted_textures true) as (oc & Hcheck & _).
  cbn [andb] in Hcheck.
  exists ([pystr.join_lines
             (concat (spec.shown repr parameters <$> parameter_keys)); ""] ++ oc).
  intros use_cubemap. unfold main_scene. rewrite proceeds, bind_ok.
  rewrite (display_parameters_run repr parameters proceeds_shaped), bind_ok.
  unfold print. rewrite !bind_ok.
  unfold check_for_missing_textures.
  change ["albedo"; "normal"; "material"; "emissive"] with spec.wanted_textures.
  rewrite Hcheck, bind_ok. fold (tail use_cubemap).
  reflexivity.
Qed.

Lemma main_scene_flag :
  spec.present parameters "skybox" = false →
  main_scene hdr repr v fs fn surface_name true
  = main_scene hdr repr v fs fn surface_name false.
Proof using proceeds.
  intros Hsky. destruct main_scene_run as [shown Hrun]. rewrite !Hrun.
  unfold tail. by rewrite (use_cubemap_ignored hdr parameters Hsky).
Qed.

Lemma main_scene_skybox_absent (use_cubemap : bool) :
  parameters !! "skybox" = None →
  outcome (main_scene hdr repr v fs fn surface_name use_cubemap)
  = if forallb (spec.present parameters) spec.wanted_textures
    then Raise KeyError else Ok None.
Proof using proceeds.
  intros Hsky. destruct main_scene_run as [shown Hrun]. rewrite Hrun.
  cbn [outcome snd]. unfold tail.
  destruct (forallb _ _); cbn [negb]; [|done].
  unfold main_environment, parameters_getitem. by rewrite Hsky.
Qed.

Lemma main_scene_raises (use_cubemap : bool) (e : exn) :
  outcome (main_scene hdr repr v fs fn surface_name use_cubemap) = Raise e →
  (e = KeyError ∧ parameters !! "skybox" = None) ∨ e = AttributeError.
Proof using proceeds.
  destruct main_scene_run as [shown Hrun]. rewrite Hrun. cbn [outcome snd].
  unfold tail.
  destruct (forallb _ _) eqn:Hhave; cbn [negb]; [|done].
  intros [Henv|(o & [env|] & Henv & Hrest)]%bind_raise_inv; [| |done].
  { left. by eapply main_environment_raises; [apply proceeds_shaped|]. }
  right.
  apply bind_raise_inv in Hrest as [Htex|(o1 & t & Htex & Hrest)].
  { destruct (main_textures_run parameters proceeds_shaped Hhave)
      as (a & n & m & e' & _ & _ & _ & _ & Hrun').
    destruct (spec.raster a && spec.raster e').
    - destruct Hrun' as [o' Hrun']. by rewrite Hrun' in Htex.
    - rewrite Hrun' in Htex. by injection Htex. }
  apply bind_raise_inv in Hrest as [Hsrc|(o2 & src & _ & Hrest)]; [|done].
  by eapply main_source_raises; [apply proceeds_object|].
Qed.

Lemma main_scene_skybox_kept (use_cubemap : bool) (out : list string) (sc : scene) :
  main_scene hdr repr v fs fn surface_name use_cubemap = (out, Ok (Some sc)) →
  is_Some (parameters !! "skybox")
  ∧ scene_parameters sc !! "skybox" = parameters !! "skybox".
Proof using proceeds.
  destruct main_scene_run as [shown Hrun]. rewrite Hrun.
  intros [= _ Htail]. unfold tail in Htail.
  destruct (forallb _ _); cbn [negb] in Htail; [|done].
  assert (is_Some (parameters !! "skybox")) as Hsky.
  { destruct (parameters !! "skybox") eqn:Hs; [done|].
    unfold main_environment, parameters_getitem in Htail. by rewrite Hs in Htail. }
  split; [done|].
  destruct (main_environment hdr parameters use_cubemap) as [o [[env|]|e]];
    rewrite ?bind_ok, ?bind_raise in Htail; cbn [outcome snd] in Htail; try done.
  destruct (main_textures parameters) as [o1 [t|e]];
    rewrite ?bind_ok, ?bind_raise in Htail; cbn [outcome snd] in Htail; try done.
  destruct (main_source parameters) as [o2 [src|e]];
    rewrite ?bind_ok, ?bind_raise in Htail; cbn [outcome snd] in Htail; try done.
  injection Htail as <-. cbn [scene_parameters]. by apply main_defaults_skybox.
Qed.

End proceeds.

Example studio_faces_proceeds :
  ∃ out0 parameters,
    PBR_Skybox_Texturing.main fixtures.vtk_9_1 fixtures.studio "/s/faces.json" ""
    = (out0, Ok (PBR_Skybox_Texturing.Proceeds parameters))
    ∧ spec.present parameters "skybox" = false.
Proof. eexists _, _. split; [reflexivity|]. by vm_compute. Qed.

Example studio_bare_proceeds :
  ∃ out0 parameters,
    PBR_Skybox_Texturing.main fixtures.vtk_9_1 fixtures.studio "/s/bare.json" ""
    = (out0, Ok (PBR_Skybox_Texturing.Proceeds parameters))
    ∧ parameters !! "skybox" = None
    ∧ forallb (spec.present parameters) spec.wanted_textures = true.
Proof. eexists _, _. split; [reflexivity|]. by vm_compute. Qed.

(** X19: the command line flag that asks for the cubemap files is
    ignored without a skybox.  When [main] gets past the parameter file
    and the skybox entry is absent, false or empty, [main] up to line 199
    prints the same, and returns or raises the same, with the flag and
    without it. *)
Theorem use_cubemap_needs_skybox (hdr : vtk.vtkHDRReader)
    (repr : PBR_Skybox_Texturing.value → string) (v : vtk.build) (fs : filesystem)
    (fn surface_name : string) (out0 : list string)
    (parameters : gmap string PBR_Skybox_Texturing.value) :
  PBR_Skybox_Texturing.main v fs fn surface_name
  = (out0, Ok (PBR_Skybox_Texturing.Proceeds parameters)) →
  spec.present parameters "skybox" = false →
  PBR_Skybox_Texturing.main_scene hdr repr v fs fn surface_name true
  = PBR_Skybox_Texturing.main_scene hdr repr v fs fn surface_name false.
Proof.
  intros Hmain Hsky.
  exact (main_scene_flag hdr repr v fs fn surface_name out0 parameters Hmain Hsky).
Qed.

Lemma use_cubemap_needs_skybox_witness :
  PBR_Skybox_Texturing.main_scene fixtures.hdr_reader fixtures.repr fixtures.vtk_9_1
    fixtures.studio "/s/faces.json" "" true
  = PBR_Skybox_Texturing.main_scene fixtures.hdr_reader fixtures.repr fixtures.vtk_9_1
      fixtures.studio "/s/faces.json" "" false.
Proof.
  destruct studio_faces_proceeds as (out0 & parameters & Hmain & Hsky).
  exact (use_cubemap_needs_skybox _ _ _ _ _ _ _ _ Hmain Hsky).
Defined.

(** X20: [main] from the parameter file to line 199, when it got past
    the parameter file.  If the file has no skybox entry, [main] raises
    KeyError at line 126 as soon as the four textures are present, and
    returns when one is missing: the default of line 199 comes too late
    for it.  Up to line 199 nothing else is raised but AttributeError
    (the toolkit apart, whose calls are recorded and not run).  And when
    line 199 is reached, the skybox entry was in the file and is
    unchanged. *)
Theorem main_scene_outcomes (hdr : vtk.vtkHDRReader)
    (repr : PBR_Skybox_Texturing.value → string) (v : vtk.build) (fs : filesystem)
    (fn surface_name : string) (use_cubemap : bool) (out0 : list string)
    (parameters : gmap string PBR_Skybox_Texturing.value) :
  let run := PBR_Skybox_Texturing.main_scene hdr repr v fs fn surface_name use_cubemap in
  PBR_Skybox_Texturing.main v fs fn surface_name
  = (out0, Ok (PBR_Skybox_Texturing.Proceeds parameters)) →
  (parameters !! "skybox" = None →
     outcome run
     = if forallb (spec.present parameters) spec.wanted_textures
       then Raise KeyError else Ok None)
  ∧ (∀ e, outcome run = Raise e →
       (e = KeyError ∧ parameters !! "skybox" = None) ∨ e = AttributeError)
  ∧ (∀ out sc, run = (out, Ok (Some sc)) →
       is_Some (parameters !! "skybox")
       ∧ PBR_Skybox_Texturing.scene_parameters sc !! "skybox" = parameters !! "skybox").
Proof.
  intros run Hmain. subst run. split; [|split].
  - exact (main_scene_skybox_absent hdr repr v fs fn surface_name out0 parameters Hmain
             use_cubemap).
  - exact (main_scene_raises hdr repr v fs fn surface_name out0 parameters Hmain
             use_cubemap).
  - exact (main_scene_skybox_kept hdr repr v fs fn surface_name out0 parameters Hmain
             use_cubemap).
Qed.

Lemma main_scene_outcomes_witness :
  outcome
    (PBR_Skybox_Texturing.main_scene fixtures.hdr_reader fixtures.repr fixtures.vtk_9_1
       fixtures.studio "/s/bare.json" "" true)
  = Raise KeyError.
Proof.
  destruct studio_bare_proceeds as (out0 & parameters & Hmain & Hsky & Hhave).
  destruct (main_scene_outcomes fixtures.hdr_reader fixtures.repr _ _ _ _ true _ _ Hmain)
    as (Habsent & _).
  rewrite (Habsent Hsky), Hhave. reflexivity.
Defined.

(** ** The exposure slider *)

Section exposure.

Import PBR_Skybox_Texturing.

Variables (h : vtk.store).

Lemma GetValue_cases (c : vtk.ref) :
  (∃ v, vtk.GetValue h c = ([], Ok v)) ∨ vtk.GetValue h c = ([], Raise AttributeError).
Proof.
  unfold vtk.GetValue. destruct (h !! c) as [[v| |]|]; [left; by exists v|by right..].
Qed.

Lemma GetValue_insert (r c : vtk.ref) (o o' : vtk.object) :
  h !! r = Some o →
  (∀ v, o ≠ vtk.SliderWidget v) → (∀ v, o' ≠ vtk.SliderWidget v) →
  vtk.GetValue (<[r := o']> h) c = vtk.GetValue h c.
Proof.
  intros Hr Ho Ho'. unfold vtk.GetValue.
  destruct (decide (r = c)) as [->|Hne].
  - rewrite lookup_insert_eq, Hr.
    destruct o, o'; try done; try (by edestruct Ho); by edestruct Ho'.
  - by rewrite lookup_insert_ne.
Qed.

Lemma SetExposure_run (tone : vtk.ref) (v : float) :
  vtk.SetExposure tone v h
  = match h !! tone with
    | Some (vtk.ToneMappingPass _) => ([], Ok (<[tone := vtk.ToneMappingPass v]> h))
    | _ => ([], Raise AttributeError)
    end.
Proof. unfold vtk.SetExposure. by destruct (h !! tone) as [[]|]. Qed.

Lemma set_property_run (g : vtk.vtkProperty → vtk.vtkProperty) (r : vtk.ref) :
  vtk.set_property g r h
  = match h !! r with
    | Some (vtk.Property p) => ([], Ok (<[r := vtk.Property (g p)]> h))
    | _ => ([], Raise AttributeError)
    end.
Proof. unfold vtk.set_property. by destruct (h !! r) as [[]|]. Qed.

Lemma set_property_after_exposure (g : vtk.vtkProperty → vtk.vtkProperty)
    (tone r : vtk.ref) (x v : float) :
  h !! tone = Some (vtk.ToneMappingPass x) →
  vtk.set_property g r (<[tone := vtk.ToneMappingPass v]> h)
  = match h !! r with
    | Some (vtk.Property p) =>
        ([], Ok (<[r := vtk.Property (g p)]> (<[tone := vtk.ToneMappingPass v]> h)))
    | _ => ([], Raise AttributeError)
    end.
Proof.
  intros Ht. unfold vtk.set_property. destruct (decide (tone = r)) as [->|Hne].
  - by rewrite lookup_insert_eq, Ht.
  - rewrite lookup_insert_ne by done. by destruct (h !! r) as [[]|].
Qed.

Lemma exposure_after_set_property (tone r : vtk.ref) (p p' : vtk.vtkProperty)
    (v : float) :
  h !! r = Some (vtk.Property p) →
  vtk.SetExposure tone v (<[r := vtk.Property p']> h)
  = match h !! tone with
    | Some (vtk.ToneMappingPass _) =>
        ([], Ok (<[tone := vtk.ToneMappingPass v]> (<[r := vtk.Property p']> h)))
    | _ => ([], Raise AttributeError)
    end.
Proof.
  intros Hr. unfold vtk.SetExposure. destruct (decide (r = tone)) as [->|Hne].
  - by rewrite lookup_insert_eq, Hr.
  - rewrite lookup_insert_ne by done. by destruct (h !! tone) as [[]|].
Qed.

Lemma exposure_commutes_with (f : float → vtk.vtkProperty → vtk.vtkProperty)
    (tone r c1 c2 : vtk.ref) :
  (h' ← (value ← vtk.GetValue h c1; vtk.SetExposure tone value h);
   value ← vtk.GetValue h' c2; vtk.set_property (f value) r h')
  = (h' ← (value ← vtk.GetValue h c2; vtk.set_property (f value) r h);
     value ← vtk.GetValue h' c1; vtk.SetExposure tone value h').
Proof.
  destruct (GetValue_cases c1) as [[v1 H1]|H1]; rewrite H1;
    destruct (GetValue_cases c2) as [[v2 H2]|H2]; rewrite H2;
    rewrite ?bind_raise, ?bind_ok; cbn [app]; rewrite ?run_eta;
    rewrite ?SetExposure_run, ?set_property_run;
    destruct (h !! tone) as [[y|q|x]|] eqn:Ht; destruct (h !! r) as [[y'|p|x']|] eqn:Hr;
    rewrite ?bind_raise, ?bind_ok; cbn [app]; try reflexivity.
  all: rewrite ?(GetValue_insert tone c2 _ (vtk.ToneMappingPass v1) Ht) by done.
  all: rewrite ?(GetValue_insert r c1 _ (vtk.Property (f v2 p)) Hr) by done.
  all: rewrite ?H1, ?H2, ?bind_raise, ?bind_ok; cbn [app stdout outcome fst snd].
  all: rewrite ?(set_property_after_exposure _ tone r x v1 Ht).
  all: rewrite ?(exposure_after_set_property tone r p _ _ Hr).
  all: rewrite ?Ht, ?Hr; try reflexivity.
  cbn [app stdout outcome fst snd]. rewrite insert_insert_ne; [done|congruence].
Qed.

End exposure.

(** X21: the exposure slider and the sliders of the surface do not
    interfere.  Calling [SliderCallbackExposure] and then one of the four
    callbacks of the actor's property, each with its own slider widget,
    leaves the same objects, and fails in the same cases, as calling them
    in the other order. *)
Theorem exposure_commutes (h : vtk.store)
    (exposure : PBR_Skybox_Texturing.SliderCallbackExposure)
    (metallic : PBR_Skybox_Texturing.SliderCallbackMetallic)
    (roughness : PBR_Skybox_Texturing.SliderCallbackRoughness)
    (occlusion : PBR_Skybox_Texturing.SliderCallbackOcclusionStrength)
    (normal : PBR_Skybox_Texturing.SliderCallbackNormalScale)
    (c1 c2 : vtk.ref) :
  let first_exposure (other : vtk.ref → vtk.store → py vtk.store) :=
    h' ← PBR_Skybox_Texturing.call_SliderCallbackExposure exposure c1 h; other c2 h' in
  let then_exposure (other : vtk.ref → vtk.store → py vtk.store) :=
    h' ← other c2 h; PBR_Skybox_Texturing.call_SliderCallbackExposure exposure c1 h' in
  first_exposure (PBR_Skybox_Texturing.call_SliderCallbackMetallic metallic)
  = then_exposure (PBR_Skybox_Texturing.call_SliderCallbackMetallic metallic)
  ∧ first_exposure (PBR_Skybox_Texturing.call_SliderCallbackRoughness roughness)
    = then_exposure (PBR_Skybox_Texturing.call_SliderCallbackRoughness roughness)
  ∧ first_exposure (PBR_Skybox_Texturing.call_SliderCallbackOcclusionStrength occlusion)
    = then_exposure (PBR_Skybox_Texturing.call_SliderCallbackOcclusionStrength occlusion)
  ∧ first_exposure (PBR_Skybox_Texturing.call_SliderCallbackNormalScale normal)
    = then_exposure (PBR_Skybox_Texturing.call_SliderCallbackNormalScale normal).
Proof.
  cbv zeta. repeat split; apply exposure_commutes_with.
Qed.
